(** * A shallow embedding of the 2D UAV simulator engine (src/simulator.py)

    The simulator object is a record, its methods are computations in a
    small state-and-exception monad, [print] appends to an output trace.

    Numbers are rationals, and the arithmetic comes twice.  The methods
    are first written in exact arithmetic, the distance compared through
    its square: the order of the phases of a tick, the run state, the
    events and the key handler are studied on these.  The three checks and
    the steering are then written again as the interpreter computes them,
    in double precision: every operation is followed by the rounding to a
    double, and the distance is the double that [math.dist] returns.  What
    is said of the comparisons themselves is said of these. *)

From Stdlib Require Import ZArith QArith Qabs Qround Qpower Qfield.
From Stdlib Require Import Lia Lqa Bool String.
From stdpp Require Import base list.

Local Open Scope Z_scope.

(** ** Data model *)

(** [QPointF]: a point of the scene. *)
Record QPointF : Type := mkPoint { pt_x : Q; pt_y : Q }.

(** The fields of [Aircraft] that the simulator reads or writes. *)
Record Aircraft : Type := mkAircraft {
  aircraft_id : Z;
  position : QPointF;
  yaw_angle : Q;
  course : Q;
  speed : Q;
  max_course_change : Q;
  size : Q;
  safezone_size : Q;
  safezone_occupied : bool;
  distance_covered : Q;
  path : list QPointF
}.

Definition set_safezone_occupied (b : bool) (a : Aircraft) : Aircraft :=
  mkAircraft (aircraft_id a) (position a) (yaw_angle a) (course a) (speed a)
    (max_course_change a) (size a) (safezone_size a) b (distance_covered a)
    (path a).

Definition set_course (c : Q) (a : Aircraft) : Aircraft :=
  mkAircraft (aircraft_id a) (position a) (yaw_angle a) c (speed a)
    (max_course_change a) (size a) (safezone_size a) (safezone_occupied a)
    (distance_covered a) (path a).

Definition set_speed (v : Q) (a : Aircraft) : Aircraft :=
  mkAircraft (aircraft_id a) (position a) (yaw_angle a) (course a) v
    (max_course_change a) (size a) (safezone_size a) (safezone_occupied a)
    (distance_covered a) (path a).

Definition clear_path (a : Aircraft) : Aircraft :=
  mkAircraft (aircraft_id a) (position a) (yaw_angle a) (course a) (speed a)
    (max_course_change a) (size a) (safezone_size a) (safezone_occupied a)
    (distance_covered a) [].

(** What the program writes to standard output, one constructor per
    [print] call of the source. *)
Inductive Event : Type :=
| NoPossibleCollisions                  (* avoid_aircraft_collision, no aircraft *)
| ThreeOrMoreAircrafts                  (* avoid_aircraft_collision, three or more *)
| RelativeDistance (squared : Q)        (* the distance, given by its square *)
| RelativeVectorPoint (dx dy : Z)       (* the vector rounded by toPoint() *)
| RelativeVector (dx dy : Q)
| EnteredSafezone (id : Z)
| LeftSafezone (id : Z)
| AircraftsCollided
| LeftBoundaries.

(** The simulator object.  [simulation_timer] is [true] while the Qt timer
    that drives [update_simulation] is active.  [discarded] lists the
    aircraft objects the simulator no longer references, in the state in
    which it dropped them; [stdout] is the output trace; [closed] records a
    call of [self.close()]. *)
Record Simulator : Type := mkSimulator {
  resolution : Z * Z;
  debug : bool;
  display_aircraft_info : Z;
  display_program_info : bool;
  display_course_trajectory : bool;
  display_yaw_trajectory : bool;
  display_safezone : bool;
  display_paths : bool;
  cause_crash_second : bool;
  display_hitboxes : bool;
  simulation_timer : bool;
  current_simulation_fps : Q;
  is_stopped : bool;
  is_finished : bool;
  aircrafts : list Aircraft;
  discarded : list Aircraft;
  stdout : list Event;
  closed : bool
}.

Definition set_debug (b : bool) (s : Simulator) : Simulator :=
  mkSimulator (resolution s) b (display_aircraft_info s)
    (display_program_info s) (display_course_trajectory s)
    (display_yaw_trajectory s) (display_safezone s) (display_paths s)
    (cause_crash_second s) (display_hitboxes s) (simulation_timer s)
    (current_simulation_fps s) (is_stopped s) (is_finished s) (aircrafts s)
    (discarded s) (stdout s) (closed s).

Definition set_display_aircraft_info (v : Z) (s : Simulator) : Simulator :=
  mkSimulator (resolution s) (debug s) v
    (display_program_info s) (display_course_trajectory s)
    (display_yaw_trajectory s) (display_safezone s) (display_paths s)
    (cause_crash_second s) (display_hitboxes s) (simulation_timer s)
    (current_simulation_fps s) (is_stopped s) (is_finished s) (aircrafts s)
    (discarded s) (stdout s) (closed s).

Definition set_display_program_info (b : bool) (s : Simulator) : Simulator :=
  mkSimulator (resolution s) (debug s) (display_aircraft_info s)
    b (display_course_trajectory s)
    (display_yaw_trajectory s) (display_safezone s) (display_paths s)
    (cause_crash_second s) (display_hitboxes s) (simulation_timer s)
    (current_simulation_fps s) (is_stopped s) (is_finished s) (aircrafts s)
    (discarded s) (stdout s) (closed s).

Definition set_display_course_trajectory (b : bool) (s : Simulator) : Simulator :=
  mkSimulator (resolution s) (debug s) (display_aircraft_info s)
    (display_program_info s) b
    (display_yaw_trajectory s) (display_safezone s) (display_paths s)
    (cause_crash_second s) (display_hitboxes s) (simulation_timer s)
    (current_simulation_fps s) (is_stopped s) (is_finished s) (aircrafts s)
    (discarded s) (stdout s) (closed s).

Definition set_display_yaw_trajectory (b : bool) (s : Simulator) : Simulator :=
  mkSimulator (resolution s) (debug s) (display_aircraft_info s)
    (display_program_info s) (display_course_trajectory s)
    b (display_safezone s) (display_paths s)
    (cause_crash_second s) (display_hitboxes s) (simulation_timer s)
    (current_simulation_fps s) (is_stopped s) (is_finished s) (aircrafts s)
    (discarded s) (stdout s) (closed s).

Definition set_display_safezone (b : bool) (s : Simulator) : Simulator :=
  mkSimulator (resolution s) (debug s) (display_aircraft_info s)
    (display_program_info s) (display_course_trajectory s)
    (display_yaw_trajectory s) b (display_paths s)
    (cause_crash_second s) (display_hitboxes s) (simulation_timer s)
    (current_simulation_fps s) (is_stopped s) (is_finished s) (aircrafts s)
    (discarded s) (stdout s) (closed s).

Definition set_display_paths (b : bool) (s : Simulator) : Simulator :=
  mkSimulator (resolution s) (debug s) (display_aircraft_info s)
    (display_program_info s) (display_course_trajectory s)
    (display_yaw_trajectory s) (display_safezone s) b
    (cause_crash_second s) (display_hitboxes s) (simulation_timer s)
    (current_simulation_fps s) (is_stopped s) (is_finished s) (aircrafts s)
    (discarded s) (stdout s) (closed s).

Definition set_cause_crash_second (b : bool) (s : Simulator) : Simulator :=
  mkSimulator (resolution s) (debug s) (display_aircraft_info s)
    (display_program_info s) (display_course_trajectory s)
    (display_yaw_trajectory s) (display_safezone s) (display_paths s)
    b (display_hitboxes s) (simulation_timer s)
    (current_simulation_fps s) (is_stopped s) (is_finished s) (aircrafts s)
    (discarded s) (stdout s) (closed s).

Definition set_display_hitboxes (b : bool) (s : Simulator) : Simulator :=
  mkSimulator (resolution s) (debug s) (display_aircraft_info s)
    (display_program_info s) (display_course_trajectory s)
    (display_yaw_trajectory s) (display_safezone s) (display_paths s)
    (cause_crash_second s) b (simulation_timer s)
    (current_simulation_fps s) (is_stopped s) (is_finished s) (aircrafts s)
    (discarded s) (stdout s) (closed s).

Definition set_simulation_timer (b : bool) (s : Simulator) : Simulator :=
  mkSimulator (resolution s) (debug s) (display_aircraft_info s)
    (display_program_info s) (display_course_trajectory s)
    (display_yaw_trajectory s) (display_safezone s) (display_paths s)
    (cause_crash_second s) (display_hitboxes s) b
    (current_simulation_fps s) (is_stopped s) (is_finished s) (aircrafts s)
    (discarded s) (stdout s) (closed s).

Definition set_current_simulation_fps (v : Q) (s : Simulator) : Simulator :=
  mkSimulator (resolution s) (debug s) (display_aircraft_info s)
    (display_program_info s) (display_course_trajectory s)
    (display_yaw_trajectory s) (display_safezone s) (display_paths s)
    (cause_crash_second s) (display_hitboxes s) (simulation_timer s)
    v (is_stopped s) (is_finished s) (aircrafts s)
    (discarded s) (stdout s) (closed s).

Definition set_is_stopped (b : bool) (s : Simulator) : Simulator :=
  mkSimulator (resolution s) (debug s) (display_aircraft_info s)
    (display_program_info s) (display_course_trajectory s)
    (display_yaw_trajectory s) (display_safezone s) (display_paths s)
    (cause_crash_second s) (display_hitboxes s) (simulation_timer s)
    (current_simulation_fps s) b (is_finished s) (aircrafts s)
    (discarded s) (stdout s) (closed s).

Definition set_is_finished (b : bool) (s : Simulator) : Simulator :=
  mkSimulator (resolution s) (debug s) (display_aircraft_info s)
    (display_program_info s) (display_course_trajectory s)
    (display_yaw_trajectory s) (display_safezone s) (display_paths s)
    (cause_crash_second s) (display_hitboxes s) (simulation_timer s)
    (current_simulation_fps s) (is_stopped s) b (aircrafts s)
    (discarded s) (stdout s) (closed s).

Definition set_aircrafts (l : list Aircraft) (s : Simulator) : Simulator :=
  mkSimulator (resolution s) (debug s) (display_aircraft_info s)
    (display_program_info s) (display_course_trajectory s)
    (display_yaw_trajectory s) (display_safezone s) (display_paths s)
    (cause_crash_second s) (display_hitboxes s) (simulation_timer s)
    (current_simulation_fps s) (is_stopped s) (is_finished s) l
    (discarded s) (stdout s) (closed s).

Definition set_discarded (l : list Aircraft) (s : Simulator) : Simulator :=
  mkSimulator (resolution s) (debug s) (display_aircraft_info s)
    (display_program_info s) (display_course_trajectory s)
    (display_yaw_trajectory s) (display_safezone s) (display_paths s)
    (cause_crash_second s) (display_hitboxes s) (simulation_timer s)
    (current_simulation_fps s) (is_stopped s) (is_finished s) (aircrafts s)
    l (stdout s) (closed s).

Definition set_stdout (l : list Event) (s : Simulator) : Simulator :=
  mkSimulator (resolution s) (debug s) (display_aircraft_info s)
    (display_program_info s) (display_course_trajectory s)
    (display_yaw_trajectory s) (display_safezone s) (display_paths s)
    (cause_crash_second s) (display_hitboxes s) (simulation_timer s)
    (current_simulation_fps s) (is_stopped s) (is_finished s) (aircrafts s)
    (discarded s) l (closed s).

Definition set_closed (b : bool) (s : Simulator) : Simulator :=
  mkSimulator (resolution s) (debug s) (display_aircraft_info s)
    (display_program_info s) (display_course_trajectory s)
    (display_yaw_trajectory s) (display_safezone s) (display_paths s)
    (cause_crash_second s) (display_hitboxes s) (simulation_timer s)
    (current_simulation_fps s) (is_stopped s) (is_finished s) (aircrafts s)
    (discarded s) (stdout s) b.

(** ** Methods as computations *)

(** A Python exception: [IndexError] from a list subscript, or the
    [Exception] the source raises itself. *)
Inductive exn : Type :=
| IndexError
| Exception (msg : string).

(** A call either returns a value or raises; in both cases the simulator is
    left in some state, since Python keeps the writes made before a raise. *)
Inductive outcome (A : Type) : Type :=
| Returns (a : A) (s : Simulator)
| Raises (e : exn) (s : Simulator).
Arguments Returns {A} a s.
Arguments Raises {A} e s.

Definition M (A : Type) : Type := Simulator -> outcome A.

Definition ret {A} (a : A) : M A := fun s => Returns a s.

Definition bind {A B} (c : M A) (k : A -> M B) : M B :=
  fun s => match c s with
           | Returns a s' => k a s'
           | Raises e s' => Raises e s'
           end.

Definition raise {A} (e : exn) : M A := fun s => Raises e s.
Definition gets {A} (f : Simulator -> A) : M A := fun s => Returns (f s) s.
Definition modify (f : Simulator -> Simulator) : M unit :=
  fun s => Returns tt (f s).
Definition print (e : Event) : M unit :=
  modify (fun s => set_stdout (stdout s ++ [e]) s).

Declare Scope sim_scope.
Delimit Scope sim_scope with sim.
Notation "x <- c ;; k" := (bind c (fun x => k))
  (at level 100, c at next level, right associativity) : sim_scope.
Notation "c ;; k" := (bind c (fun _ => k))
  (at level 100, right associativity) : sim_scope.
Local Open Scope sim_scope.

(** The state a call leaves behind, whether it returned or raised. *)
Definition final_state {A} (o : outcome A) : Simulator :=
  match o with
  | Returns _ s => s
  | Raises _ s => s
  end.

(** [for x in xs: body], where [body] answers [Some r] when it executes
    [return r]: the loop stops there and the enclosing function returns. *)
Fixpoint for_each {A R} (xs : list A) (body : A -> M (option R)) : M (option R) :=
  match xs with
  | [] => ret None
  | x :: rest =>
      r <- body x ;;
      match r with
      | Some v => ret (Some v)
      | None => for_each rest body
      end
  end.

(** [range(a, b)] for indices that are never negative.  The subtraction of
    [nat] stops at zero, as [range] is empty when [b <= a]; in particular
    [range 0 (len - 1)] is empty for [len = 0], like [range(-1)]. *)
Definition range (a b : nat) : list nat := seq a (b - a).

(** [l[i]] with Python's subscript rule: a negative index counts from the
    end, anything outside [-len, len) is an [IndexError] ([None] here). *)
Definition getitem {A} (l : list A) (i : Z) : option A :=
  let n := Z.of_nat (length l) in
  if (0 <=? i) && (i <? n) then l !! Z.to_nat i
  else if (- n <=? i) && (i <? 0) then l !! Z.to_nat (n + i)
  else None.

(** [self.aircrafts[i]] *)
Definition aircraft_at (i : Z) : M Aircraft :=
  fun s => match getitem (aircrafts s) i with
           | Some a => Returns a s
           | None => Raises IndexError s
           end.

(** [self.aircrafts[i].field = v]: a write to the object held at index [i]. *)
Definition update_aircraft (i : nat) (f : Aircraft -> Aircraft) : M unit :=
  a <- aircraft_at (Z.of_nat i) ;;
  modify (fun s => set_aircrafts (<[i := f a]> (aircrafts s)) s).

(** ** Geometry *)

(** The square of the distance of [p] and [q], exactly.  ([math.dist]
    returns the root rounded to a double: see [collide_double] and
    [in_safezone_double] for the tests as the interpreter decides them.) *)
Definition dist_sq (p q : QPointF) : Q :=
  ((pt_x p - pt_x q) * (pt_x p - pt_x q)
   + (pt_y p - pt_y q) * (pt_y p - pt_y q))%Q.

(** [distance <= r] for a distance known by its square [d2]: a square root
    is never negative, so the test fails for [r < 0] and otherwise compares
    the squares. *)
Definition dist_le (d2 r : Q) : bool :=
  Qle_bool 0 r && Qle_bool d2 (r * r).

(** [qRound], used by [QVector2D.toPoint()]: to the nearest integer, halves
    away from zero.  The narrowing of [QVector2D] to single precision and
    of [QPoint] to 32-bit integers is left out: the numbers in the output
    trace are exact, and nothing below depends on them. *)
Definition qRound (q : Q) : Z :=
  if Qle_bool 0 q then Qfloor (q + (1 # 2)) else Qceiling (q - (1 # 2)).

Definition Qlt_bool (a b : Q) : bool := negb (Qle_bool b a).

(** ** Doubles

    A finite IEEE 754 double is a rational number.  [binary64 q] is the
    double nearest to [q], ties going to the even significand: what [+],
    [-], [*] and [/] make of their exact result.  Results too large for a
    double are not modelled. *)

(** To the nearest integer, ties to even. *)
Definition round_half_even (q : Q) : Z :=
  let f := Qfloor q in
  match Qcompare (q - inject_Z f)%Q (1 # 2) with
  | Lt => f
  | Gt => f + 1
  | Eq => if Z.even f then f else f + 1
  end.

(** The exponent [e] with [2^e <= |q| < 2^(e+1)], for [q] other than 0. *)
Definition binade (q : Q) : Z :=
  let e := Z.log2 (Z.abs (Qnum q)) - Z.log2 (Zpos (Qden q)) in
  if Qle_bool (2 ^ e)%Q (Qabs q) then e else e - 1.

(** Doubles have 53 significant bits down to the exponent -1022, and a
    fixed spacing of [2^-1074] below: [ulp q] is the spacing of the
    doubles around [q]. *)
Definition exponent (q : Q) : Z := Z.max (binade q) (-1022).
Definition ulp (q : Q) : Q := (2 ^ (exponent q - 52))%Q.

Definition binary64 (q : Q) : Q :=
  if Qeq_bool q 0 then 0%Q
  else Qred (inject_Z (round_half_even (q / ulp q)%Q) * ulp q)%Q.

(** The double nearest to the square root of [q].  The root is first taken
    to more than 60 bits; when it is not exact, half a unit of that
    precision is added, which keeps it on its side of every midpoint
    between two doubles. *)
Definition binary64_sqrt (q : Q) : Q :=
  if Qle_bool q 0 then 0%Q
  else
    let k := 64 - binade q / 2 in
    let n := Qfloor (q * 4 ^ k)%Q in
    let r := Z.sqrt n in
    if Qeq_bool (inject_Z (r * r)) (q * 4 ^ k)%Q
    then binary64 (inject_Z r / 2 ^ k)%Q
    else binary64 (inject_Z (2 * r + 1) / 2 ^ (k + 1))%Q.

(** ** The simulator's methods *)

(** Keys the simulator reacts to; [Key_other] stands for every other key. *)
Inductive Key : Type :=
| Key_QuoteLeft | Key_C | Key_Escape
| Key_D | Key_S | Key_A | Key_W | Key_F2 | Key_F3 | Key_Y | Key_U
| Key_L | Key_K | Key_J | Key_I | Key_F6 | Key_F7 | Key_O | Key_P
| Key_R | Key_Slash
| Key_1 | Key_2 | Key_3 | Key_4 | Key_5 | Key_6 | Key_7 | Key_8
| Key_other.

Definition Key_eqb (a b : Key) : bool :=
  match a, b with
  | Key_QuoteLeft, Key_QuoteLeft | Key_C, Key_C | Key_Escape, Key_Escape
  | Key_D, Key_D | Key_S, Key_S | Key_A, Key_A | Key_W, Key_W
  | Key_F2, Key_F2 | Key_F3, Key_F3 | Key_Y, Key_Y | Key_U, Key_U
  | Key_L, Key_L | Key_K, Key_K | Key_J, Key_J | Key_I, Key_I
  | Key_F6, Key_F6 | Key_F7, Key_F7 | Key_O, Key_O | Key_P, Key_P
  | Key_R, Key_R | Key_Slash, Key_Slash
  | Key_1, Key_1 | Key_2, Key_2 | Key_3, Key_3 | Key_4, Key_4
  | Key_5, Key_5 | Key_6, Key_6 | Key_7, Key_7 | Key_8, Key_8
  | Key_other, Key_other => true
  | _, _ => false
  end.

(** A key press: the key, and whether [event.modifiers()] is truthy (some
    modifier is held).  The source tests [event.modifiers() and
    ControlModifier] with the boolean [and], so only that truth value
    matters. *)
Record QKeyEvent : Type := mkKeyEvent { key : Key; modifiers : bool }.

(** Sample data: an aircraft given by its id, centre, hitbox, safezone and
    flag, and a simulator around a collection. *)
Module Sample.

Definition plane (id : Z) (x y : Q) (sz zone : Q) (occupied : bool) : Aircraft :=
  mkAircraft id (mkPoint x y) 0 0 0 5 sz zone occupied 0 [].

Definition sim (l : list Aircraft) : Simulator :=
  mkSimulator (1000, 1000) true 1 true false false true true false true
    true 0 false false l [] [] false.

(** Two aircraft 80 apart, one with a safezone of 200, one of 100. *)
Definition wide : Aircraft := plane 0 100 100 20 200 false.
Definition narrow : Aircraft := plane 1 180 100 20 100 false.

(** A third aircraft, far from both. *)
Definition far : Aircraft := plane 2 800 800 20 100 true.



(** An aircraft whose centre is exactly half its size from the left
    border, and one that is 1 further out. *)
Definition on_margin : Aircraft := plane 0 10 500 20 200 false.
Definition past_margin : Aircraft := plane 1 9 500 20 200 false.

(** A toy kinematics step: the heading snaps to the course and the
    aircraft moves along x by its speed. *)
Definition step (a : Aircraft) : Aircraft :=
  let pos :=
    if Qeq_bool (speed a) 0 then position a
    else mkPoint (pt_x (position a) + speed a) (pt_y (position a)) in
  mkAircraft (aircraft_id a) pos (course a) (course a) (speed a)
    (max_course_change a) (size a) (safezone_size a) (safezone_occupied a)
    (distance_covered a + speed a) (path a ++ [pos]).

(** A stand-in for the bearing in degrees. *)
Definition bearing (dy dx : Q) : Q := 0.

Definition slash : QKeyEvent := mkKeyEvent Key_Slash false.

(** A stand-in for [math.dist]: the double nearest to the distance of the
    two points. *)
Definition dist (p q : QPointF) : Q := binary64_sqrt (dist_sq p q).

(** Two aircraft of size 20 and safezone 40 whose centres are a hair more
    than 20 apart: the distance is 20 in double precision. *)
Definition grazing : Aircraft := plane 0 100 100 20 40 false.
Definition grazed : Aircraft :=
  plane 1 120 (binary64 (100000000001 # 1000000000)) 20 40 false.

(** An aircraft of size 0.3 at x = 999.85, both as doubles, in a scene
    1000 wide. *)
Definition flush : Aircraft :=
  plane 0 (binary64 (99985 # 100)) 500 (binary64 (3 # 10)) 200 false.

End Sample.

Section Engine.

(** [Aircraft.update_position], the kinematics step of one aircraft
    (src/aircraft.py is not part of the sources at hand). *)
Variable update_position : Aircraft -> Aircraft.

(** The values [Aircraft.__init__] gives to the fields that
    [reset_simulation] does not pass. *)
Variables default_size default_safezone_size default_max_course_change : Q.

(** [bearing dy dx] is [degrees(atan2(dy, dx)) % 360]. *)
Variable bearing : Q -> Q -> Q.

(** The rounding of double precision: [x + y] in the source is
    [rnd (x + y)] here, and so on.  It is [binary64] in the interpreter;
    what follows holds for any rounding. *)
Variable rnd : Q -> Q.

(** [math.dist(p, q)]: the distance of two points as the library returns
    it, a double. *)
Variable math_dist : QPointF -> QPointF -> Q.

(** Modelled from the spec: the constructor of [Aircraft], whose class is
    not among the sources.  It stores the id, position, heading, speed and
    course it is given; a new vehicle has covered no distance, has an empty
    path and an unoccupied safezone. *)
Definition Aircraft_init (id : Z) (pos : QPointF) (yaw v crs : Q) : Aircraft :=
  mkAircraft id pos yaw crs v default_max_course_change default_size
    default_safezone_size false 0 [].

Definition len_aircrafts : M nat := gets (fun s => length (aircrafts s)).

Definition start_simulation : M unit :=
  modify (set_is_stopped false) ;;
  modify (set_simulation_timer true).

Definition stop_simulation : M unit :=
  modify (set_simulation_timer false) ;;
  modify (set_is_stopped true) ;;
  modify (set_current_simulation_fps 0).

Definition ids_differ_msg : string := "Aircraft ids are not the same. Closing...".

Definition avoid_aircraft_collision (id : Z) : M unit :=
  n <- len_aircrafts ;;
  if negb (1 <=? n)%nat then print NoPossibleCollisions
  else if negb (n <=? 2)%nat then print ThreeOrMoreAircrafts
  else
    aircraft <- aircraft_at id ;;
    if negb (aircraft_id aircraft =? id) then raise (Exception ids_differ_msg)
    else
      (* conflict detection *)
      this <- aircraft_at id ;;
      other <- aircraft_at (1 - id) ;;
      let relative_distance := dist_sq (position this) (position other) in
      let vx := (pt_x (position this) - pt_x (position other))%Q in
      let vy := (pt_y (position this) - pt_y (position other))%Q in
      print (RelativeDistance relative_distance) ;;
      print (RelativeVectorPoint (qRound vx) (qRound vy)) ;;
      print (RelativeVector vx vy).

Definition reset_simulation : M unit :=
  (* for aircraft in self.aircrafts: aircraft.path.clear() *)
  modify (fun s => set_aircrafts (map clear_path (aircrafts s)) s) ;;
  (* self.aircrafts.clear(): the objects leave the collection *)
  modify (fun s => set_aircrafts [] (set_discarded (discarded s ++ aircrafts s) s)) ;;
  modify (set_aircrafts
    [ Aircraft_init 0 (mkPoint 100 100) 45 2 45;
      Aircraft_init 1 (mkPoint 900 100) 135 2 135 ]) ;;
  modify (set_is_finished false).

(** One half of the body of the loop of [check_safezones]: the source
    writes it twice, for index [i] and for index [j]. *)
Definition safezone_test (k : nat) (distance : Q) : M unit :=
  a <- aircraft_at (Z.of_nat k) ;;
  if dist_le distance (safezone_size a / 2) then
    if negb (safezone_occupied a) then
      update_aircraft k (set_safezone_occupied true) ;;
      avoid_aircraft_collision (aircraft_id a) ;;
      print (EnteredSafezone (aircraft_id a))
    else ret tt
  else
    if safezone_occupied a then
      update_aircraft k (set_safezone_occupied false) ;;
      print (LeftSafezone (aircraft_id a))
    else ret tt.

Definition safezone_pair (i j : nat) : M unit :=
  ai <- aircraft_at (Z.of_nat i) ;;
  aj <- aircraft_at (Z.of_nat j) ;;
  let distance := dist_sq (position ai) (position aj) in
  safezone_test i distance ;;
  safezone_test j distance.

Definition check_safezones : M unit :=
  n <- len_aircrafts ;;
  _ <- for_each (R := unit) (range 0 (n - 1)) (fun i =>
         for_each (range (i + 1) n) (fun j =>
           safezone_pair i j ;; ret None)) ;;
  ret tt.

(** The test of [check_collision] on two aircraft, in exact arithmetic. *)
Definition collide (a b : Aircraft) : bool :=
  dist_le (dist_sq (position a) (position b)) ((size a + size b) / 2).

Definition collision_pair (i j : nat) : M (option bool) :=
  ai <- aircraft_at (Z.of_nat i) ;;
  aj <- aircraft_at (Z.of_nat j) ;;
  if collide ai aj then
    stop_simulation ;;
    modify (set_is_finished true) ;;
    print AircraftsCollided ;;
    ret (Some true)
  else ret None.

Definition check_collision : M bool :=
  n <- len_aircrafts ;;
  r <- for_each (range 0 (n - 1)) (fun i =>
         for_each (range (i + 1) n) (fun j => collision_pair i j)) ;;
  match r with
  | Some b => ret b
  | None => ret false
  end.

(** The condition negated in [check_offscreen], in exact arithmetic; a
    chained comparison [a <= b <= c] is [a <= b and b <= c]. *)
Definition in_bounds (res : Z * Z) (a : Aircraft) : bool :=
  (Qle_bool (0 + size a / 2) (pt_x (position a))
   && Qle_bool (pt_x (position a)) (inject_Z (fst res) - size a / 2))
  && (Qle_bool (0 + size a / 2) (pt_y (position a))
      && Qle_bool (pt_y (position a)) (inject_Z (snd res) - size a / 2)).

Definition offscreen_test (aircraft : Aircraft) : M (option bool) :=
  res <- gets resolution ;;
  if negb (in_bounds res aircraft) then
    stop_simulation ;;
    modify (set_is_finished true) ;;
    print LeftBoundaries ;;
    ret (Some true)
  else ret None.

Definition check_offscreen : M bool :=
  l <- gets aircrafts ;;
  r <- for_each l offscreen_test ;;
  match r with
  | Some b => ret b
  | None => ret false
  end.

Definition cause_collision : M unit :=
  n <- len_aircrafts ;;
  if (2 <=? n)%nat then
    aircraft <- aircraft_at 1 ;;
    target_aircraft <- aircraft_at 0 ;;
    let delta_x := (pt_x (position target_aircraft) - pt_x (position aircraft))%Q in
    let delta_y := (pt_y (position target_aircraft) - pt_y (position aircraft))%Q in
    update_aircraft 1 (set_course (bearing delta_y delta_x))
  else ret tt.

(** One physics tick.  [fps] is what [simulation_fps_counter.count_frame()]
    answers on this tick: it depends on the clock, so it is an input. *)
Definition update_simulation (fps : Q) : M unit :=
  modify (set_current_simulation_fps fps) ;;
  (* for aircraft in self.aircrafts: aircraft.update_position() *)
  modify (fun s => set_aircrafts (map update_position (aircrafts s)) s) ;;
  check_safezones ;;
  hit <- check_collision ;;
  modify (set_is_stopped hit) ;;
  if hit then ret tt
  else
    out <- check_offscreen ;;
    modify (set_is_stopped out) ;;
    if out then ret tt
    else
      inject <- gets cause_crash_second ;;
      if inject then cause_collision else ret tt.

(** The steering keys of one aircraft (the source has this chain twice,
    for aircraft 0 and for aircraft 1, with different keys), in exact
    arithmetic. *)
Definition steer (k : nat) (right down left up slower faster ccw cw : Key)
    (e : QKeyEvent) : M unit :=
  a <- aircraft_at (Z.of_nat k) ;;
  if Key_eqb (key e) right then update_aircraft k (set_course 0)
  else if Key_eqb (key e) down then update_aircraft k (set_course 90)
  else if Key_eqb (key e) left then update_aircraft k (set_course 180)
  else if Key_eqb (key e) up then update_aircraft k (set_course 270)
  else if Key_eqb (key e) slower then
    if Qlt_bool 1 (speed a) then update_aircraft k (set_speed (speed a - 1))
    else ret tt
  else if Key_eqb (key e) faster then
    update_aircraft k (set_speed (speed a + 1))
  else if Key_eqb (key e) ccw then
    let c := (course a - max_course_change a * 2)%Q in
    let c := if Qlt_bool c 0 then (c + 360)%Q else c in
    update_aircraft k (set_course c)
  else if Key_eqb (key e) cw then
    let c := (course a + max_course_change a * 2)%Q in
    let c := if Qle_bool 360 c then (c - 360)%Q else c in
    update_aircraft k (set_course c)
  else ret tt.

Definition keyPressEvent (e : QKeyEvent) : M unit :=
  (if Key_eqb (key e) Key_QuoteLeft
   then modify (fun s => set_debug (negb (debug s)) s) else ret tt) ;;
  (* ctrl + button *)
  (if modifiers e
   then (if Key_eqb (key e) Key_C then modify (set_closed true) else ret tt)
   else ret tt) ;;
  (if Key_eqb (key e) Key_Escape then modify (set_closed true) else ret tt) ;;
  dbg <- gets debug ;;
  if negb dbg then ret tt
  else
    n <- len_aircrafts ;;
    (* first aircraft steering *)
    (if (1 <=? n)%nat
     then steer 0 Key_D Key_S Key_A Key_W Key_F2 Key_F3 Key_Y Key_U e
     else ret tt) ;;
    (* second aircraft steering *)
    (if (2 <=? n)%nat
     then steer 1 Key_L Key_K Key_J Key_I Key_F6 Key_F7 Key_O Key_P e
     else ret tt) ;;
    (* shortcuts for every case *)
    match key e with
    | Key_R => stop_simulation ;; reset_simulation ;; start_simulation
    | Key_Slash =>
        finished <- gets is_finished ;;
        if negb finished then
          stopped <- gets is_stopped ;;
          if stopped then start_simulation else stop_simulation
        else reset_simulation ;; start_simulation
    | Key_1 =>
        modify (fun s =>
          let value := display_aircraft_info s + 1 in
          set_display_aircraft_info (if 2 <? value then 0 else value) s)
    | Key_2 =>
        modify (fun s => set_display_program_info (negb (display_program_info s)) s)
    | Key_3 =>
        modify (fun s => set_display_course_trajectory (negb (display_course_trajectory s)) s)
    | Key_4 =>
        modify (fun s => set_display_yaw_trajectory (negb (display_yaw_trajectory s)) s)
    | Key_5 =>
        modify (fun s => set_display_safezone (negb (display_safezone s)) s)
    | Key_6 =>
        modify (fun s => set_display_paths (negb (display_paths s)) s)
    | Key_7 =>
        modify (fun s => set_cause_crash_second (negb (cause_crash_second s)) s)
    | Key_8 =>
        modify (fun s => set_display_hitboxes (negb (display_hitboxes s)) s)
    | _ => ret tt
    end.

(** ** Reference predicates

    What the specification says in its own words, to be compared with the
    methods above. *)

(** The state reached by [stop_simulation()], [is_finished = True] and one
    [print]: the terminal state of a tick. *)
Definition terminate (e : Event) (s : Simulator) : Simulator :=
  set_stdout (stdout s ++ [e])
    (set_is_finished true
      (set_current_simulation_fps 0
        (set_is_stopped true (set_simulation_timer false s)))).

(** The pair of indices [(i, j)] holds two colliding aircraft. *)
Definition collision_at (l : list Aircraft) (i j : nat) : bool :=
  match l !! i, l !! j with
  | Some a, Some b => collide a b
  | _, _ => false
  end.

(** Some unordered pair of the collection collides. *)
Definition any_collision (l : list Aircraft) : bool :=
  existsb (fun i => existsb (collision_at l i) (range (i + 1) (length l)))
    (range 0 (length l - 1)).

(** Some aircraft of the collection is not inside the scene. *)
Definition any_offscreen (res : Z * Z) (l : list Aircraft) : bool :=
  existsb (fun a => negb (in_bounds res a)) l.

(** The value a call returned, if it did. *)
Definition returned {A} (o : outcome A) : option A :=
  match o with
  | Returns a _ => Some a
  | Raises _ _ => None
  end.

(** What the trigger prints for the aircraft [this] and the other one. *)
Definition conflict_report (this other : Aircraft) : list Event :=
  let vx := (pt_x (position this) - pt_x (position other))%Q in
  let vy := (pt_y (position this) - pt_y (position other))%Q in
  [ RelativeDistance (dist_sq (position this) (position other));
    RelativeVectorPoint (qRound vx) (qRound vy);
    RelativeVector vx vy ].

Definition say (evs : list Event) (s : Simulator) : Simulator :=
  set_stdout (stdout s ++ evs) s.

(** The outcome of the trigger as a function of the collection: the events
    it prints, or the exception it raises. *)
Definition trigger_output (l : list Aircraft) (id : Z) : exn + list Event :=
  if (length l <? 1)%nat then inr [NoPossibleCollisions]
  else if (2 <? length l)%nat then inr [ThreeOrMoreAircrafts]
  else match getitem l id with
       | None => inl IndexError
       | Some this =>
           if aircraft_id this =? id
           then match getitem l (1 - id) with
                | None => inl IndexError
                | Some other => inr (conflict_report this other)
                end
           else inl (Exception ids_differ_msg)
       end.

(** [distance <= a.safezone_size / 2] in exact arithmetic, the distance
    given by its square. *)
Definition in_safezone (a : Aircraft) (d2 : Q) : bool :=
  dist_le d2 (safezone_size a / 2).

(** The aircraft at index [k] replaced by [a]. *)
Definition mark (k : nat) (a : Aircraft) (s : Simulator) : Simulator :=
  set_aircrafts (<[k := a]> (aircrafts s)) s.

(** The events one aircraft causes in a pass over two aircraft: a conflict
    report and "entered" on a rising flag, "left" on a falling flag,
    nothing while the flag keeps its value. *)
Definition edge_events (this other : Aircraft) (inside : bool) : list Event :=
  match safezone_occupied this, inside with
  | false, true =>
      conflict_report this other ++ [EnteredSafezone (aircraft_id this)]
  | true, false => [LeftSafezone (aircraft_id this)]
  | _, _ => []
  end.

(** The state after a pass over the pair [a0], [a1]. *)
Definition after_pass (a0 a1 : Aircraft) (s : Simulator) : Simulator :=
  let d2 := dist_sq (position a0) (position a1) in
  say (edge_events a0 a1 (in_safezone a0 d2)
       ++ edge_events a1 a0 (in_safezone a1 d2))
    (set_aircrafts
       [ set_safezone_occupied (in_safezone a0 d2) a0;
         set_safezone_occupied (in_safezone a1 d2) a1 ] s).

(** The events of one aircraft in a pass over three or more: the trigger
    only prints its warning. *)
Definition edge_events_many (this : Aircraft) (inside : bool) : list Event :=
  match safezone_occupied this, inside with
  | false, true => [ThreeOrMoreAircrafts; EnteredSafezone (aircraft_id this)]
  | true, false => [LeftSafezone (aircraft_id this)]
  | _, _ => []
  end.

(** The first phase of a tick: the frame is counted and every aircraft
    takes its kinematics step. *)
Definition advance (fps : Q) (s : Simulator) : Simulator :=
  set_aircrafts (map update_position (aircrafts s))
    (set_current_simulation_fps fps s).

(** The effect of the scripted injection: the course of aircraft 1 is set
    to the bearing of aircraft 0. *)
Definition retargeted (s : Simulator) : Simulator :=
  match aircrafts s with
  | target :: aircraft :: _ =>
      mark 1
        (set_course
           (bearing (pt_y (position target) - pt_y (position aircraft))%Q
                    (pt_x (position target) - pt_x (position aircraft))%Q)
           aircraft) s
  | _ => s
  end.

(** The phases after the proximity pass, from the state [s2] it leaves:
    the collision check, then the boundary check unless the collision
    check ended the tick, then the injection unless a check ended it. *)
Definition after_checks (s2 : Simulator) : Simulator :=
  if any_collision (aircrafts s2)
  then set_is_stopped true (terminate AircraftsCollided s2)
  else if any_offscreen (resolution s2) (aircrafts s2)
  then set_is_stopped true (terminate LeftBoundaries (set_is_stopped false s2))
  else if cause_crash_second s2
  then retargeted (set_is_stopped false (set_is_stopped false s2))
  else set_is_stopped false (set_is_stopped false s2).


Definition is_entered (k : Z) (e : Event) : bool :=
  match e with EnteredSafezone i => i =? k | _ => false end.

Definition is_left (e : Event) : bool :=
  match e with LeftSafezone _ => true | _ => false end.


Definition count (p : Event -> bool) (evs : list Event) : nat :=
  length (List.filter p evs).


(** [c] keeps [P]: from a state with [P] it ends, returning or raising, in
    a state with [P]. *)
Definition preserves {A} (P : Simulator -> Prop) (c : M A) : Prop :=
  forall s, P s -> P (final_state (c s)).

(** Once set, [is_finished] stays set. *)
Definition finished (s : Simulator) : Prop := is_finished s = true.

Inductive Mode : Type := Running | Stopped | Finished.

Definition mode (s : Simulator) : Mode :=
  if is_finished s then Finished
  else if is_stopped s then Stopped else Running.

(** A property of the three fields that make the run state. *)
Definition on_run_state (Q : bool -> bool -> bool -> Prop) (s : Simulator) : Prop :=
  Q (is_finished s) (is_stopped s) (simulation_timer s).

(** The collection [reset_simulation] builds. *)
Definition initial_aircrafts : list Aircraft :=
  [ Aircraft_init 0 (mkPoint 100 100) 45 2 45;
    Aircraft_init 1 (mkPoint 900 100) 135 2 135 ].

(** The state [reset_simulation] leaves: the old aircraft are dropped with
    their paths emptied, the collection is the initial one, [is_finished]
    is down. *)
Definition reset_state (s : Simulator) : Simulator :=
  set_is_finished false
    (set_aircrafts initial_aircrafts
       (set_discarded (discarded s ++ map clear_path (aircrafts s)) s)).

(** The methods of the simulator that write to its state. *)
Inductive Method : Type :=
| Call_start_simulation
| Call_stop_simulation
| Call_avoid_aircraft_collision (id : Z)
| Call_check_safezones
| Call_check_collision
| Call_check_offscreen
| Call_cause_collision
| Call_update_simulation (fps : Q)
| Call_reset_simulation
| Call_keyPressEvent (e : QKeyEvent).

(** The state a method call ends in. *)
Definition call (m : Method) (s : Simulator) : Simulator :=
  match m with
  | Call_start_simulation => final_state (start_simulation s)
  | Call_stop_simulation => final_state (stop_simulation s)
  | Call_avoid_aircraft_collision id => final_state (avoid_aircraft_collision id s)
  | Call_check_safezones => final_state (check_safezones s)
  | Call_check_collision => final_state (check_collision s)
  | Call_check_offscreen => final_state (check_offscreen s)
  | Call_cause_collision => final_state (cause_collision s)
  | Call_update_simulation fps =>
      final_state (update_simulation fps s)
  | Call_reset_simulation => final_state (reset_simulation s)
  | Call_keyPressEvent e => final_state (keyPressEvent e s)
  end.

(** ** Key presses and runs, in closed form *)

(** What the steering chain of [steer] makes of the aircraft it reads. *)
Definition steered (right down left up slower faster ccw cw : Key)
    (e : QKeyEvent) (a : Aircraft) : Aircraft :=
  if Key_eqb (key e) right then set_course 0 a
  else if Key_eqb (key e) down then set_course 90 a
  else if Key_eqb (key e) left then set_course 180 a
  else if Key_eqb (key e) up then set_course 270 a
  else if Key_eqb (key e) slower then
    if Qlt_bool 1 (speed a) then set_speed (speed a - 1) a else a
  else if Key_eqb (key e) faster then set_speed (speed a + 1) a
  else if Key_eqb (key e) ccw then
    let c := (course a - max_course_change a * 2)%Q in
    set_course (if Qlt_bool c 0 then (c + 360)%Q else c) a
  else if Key_eqb (key e) cw then
    let c := (course a + max_course_change a * 2)%Q in
    set_course (if Qle_bool 360 c then (c - 360)%Q else c) a
  else a.

Definition steered_first : QKeyEvent -> Aircraft -> Aircraft :=
  steered Key_D Key_S Key_A Key_W Key_F2 Key_F3 Key_Y Key_U.

Definition steered_second : QKeyEvent -> Aircraft -> Aircraft :=
  steered Key_L Key_K Key_J Key_I Key_F6 Key_F7 Key_O Key_P.

(** The collection after both steering chains of the key handler: the
    first two aircraft, where there are such, are steered. *)
Definition steering (e : QKeyEvent) (l : list Aircraft) : list Aircraft :=
  match l with
  | [] => []
  | [a0] => [steered_first e a0]
  | a0 :: a1 :: rest => steered_first e a0 :: steered_second e a1 :: rest
  end.

(** The key handler before its debug gate: the backquote flips [debug],
    C with a modifier and Escape close the window. *)
Definition pre_gate (e : QKeyEvent) (s : Simulator) : Simulator :=
  let s1 :=
    if Key_eqb (key e) Key_QuoteLeft then set_debug (negb (debug s)) s else s in
  let s2 :=
    if modifiers e && Key_eqb (key e) Key_C then set_closed true s1 else s1 in
  if Key_eqb (key e) Key_Escape then set_closed true s2 else s2.

(** The last chain of the key handler, "shortcuts for every case". *)
Definition run_shortcut (e : QKeyEvent) : M unit :=
  match key e with
  | Key_R => stop_simulation ;; reset_simulation ;; start_simulation
  | Key_Slash =>
      finished <- gets is_finished ;;
      if negb finished then
        stopped <- gets is_stopped ;;
        if stopped then start_simulation else stop_simulation
      else reset_simulation ;; start_simulation
  | Key_1 =>
      modify (fun s =>
        let value := display_aircraft_info s + 1 in
        set_display_aircraft_info (if 2 <? value then 0 else value) s)
  | Key_2 =>
      modify (fun s => set_display_program_info (negb (display_program_info s)) s)
  | Key_3 =>
      modify (fun s =>
        set_display_course_trajectory (negb (display_course_trajectory s)) s)
  | Key_4 =>
      modify (fun s =>
        set_display_yaw_trajectory (negb (display_yaw_trajectory s)) s)
  | Key_5 =>
      modify (fun s => set_display_safezone (negb (display_safezone s)) s)
  | Key_6 =>
      modify (fun s => set_display_paths (negb (display_paths s)) s)
  | Key_7 =>
      modify (fun s => set_cause_crash_second (negb (cause_crash_second s)) s)
  | Key_8 =>
      modify (fun s => set_display_hitboxes (negb (display_hitboxes s)) s)
  | _ => ret tt
  end.

(** The simulator as [__init__] leaves it before it calls
    [reset_simulation()] and [start_simulation()]; [res] is
    [Settings.resolution]. *)
Definition blank (res : Z * Z) : Simulator :=
  mkSimulator res true 1 true false false true true false true
    false 0 false false [] [] [] false.

(** [Simulator()]: the constructor ends with a reset and a start. *)
Definition Simulator_init (res : Z * Z) : Simulator :=
  final_state ((reset_simulation ;; start_simulation) (blank res)).

(** What the event loop delivers: a timeout of the simulation timer, with
    the reading of the frame counter, or a key press. *)
Inductive Input : Type :=
| Tick (fps : Q)
| Press (e : QKeyEvent).

Definition react (i : Input) : M unit :=
  match i with
  | Tick fps => update_simulation fps
  | Press e => keyPressEvent e
  end.

(** The timer fires only while it is active; keys come at any time. *)
Definition enabled (i : Input) (s : Simulator) : Prop :=
  match i with
  | Tick _ => simulation_timer s = true
  | Press _ => True
  end.

(** The states the program can be in: the constructed one, and what an
    enabled input makes of such a state when its handler returns. *)
Inductive reachable (res : Z * Z) : Simulator -> Prop :=
| reachable_init : reachable res (Simulator_init res)
| reachable_step (s s' : Simulator) (i : Input) :
    reachable res s -> enabled i s -> react i s = Returns tt s' ->
    reachable res s'.

(** Exactly two aircraft, numbered by their positions. *)
Definition well_numbered (l : list Aircraft) : Prop :=
  exists a0 a1, l = [a0; a1] /\ aircraft_id a0 = 0 /\ aircraft_id a1 = 1.

(** The run state is coherent: [is_stopped] mirrors the timer and a
    finished simulation is stopped. *)
Definition coherent (s : Simulator) : Prop :=
  is_stopped s = negb (simulation_timer s)
  /\ (is_finished s = true -> is_stopped s = true).

(** The speed is a whole number, at least 1. *)
Definition whole_speed (a : Aircraft) : Prop :=
  exists n : Z, 1 <= n /\ (speed a == inject_Z n)%Q.

(** An aircraft without its safezone flag. *)
Definition unflagged (a : Aircraft) : Aircraft := set_safezone_occupied false a.

(** The keys that neither steer an aircraft nor act before the gate. *)
Definition is_plain_key (k : Key) : bool :=
  match k with
  | Key_R | Key_Slash | Key_1 | Key_2 | Key_3 | Key_4 | Key_5 | Key_6
  | Key_7 | Key_8 | Key_other => true
  | _ => false
  end.

(** The keys 2 to 8, which flip one flag each. *)
Definition is_toggle_key (k : Key) : bool :=
  match k with
  | Key_2 | Key_3 | Key_4 | Key_5 | Key_6 | Key_7 | Key_8 => true
  | _ => false
  end.

(** [s'] differs from [s0] in safezone flags and in lines added to the
    output, and in nothing else. *)
Definition same_but_flags (s0 s' : Simulator) : Prop :=
  unflagged <$> aircrafts s' = unflagged <$> aircrafts s0
  /\ set_stdout (stdout s0) (set_aircrafts (aircrafts s0) s') = s0
  /\ exists evs, stdout s' = stdout s0 ++ evs.

(** ** The travelled path in [render_scene] *)

(** The pens of the path lines. *)
Inductive GlobalColor : Type := magenta | blue | cyan.

(** A [QGraphicsLineItem] of the path, with the colour of its pen. *)
Record PathLine : Type := mkPathLine {
  line_from : QPointF;
  line_to : QPointF;
  line_pen : GlobalColor
}.

Definition path_pen (id : Z) : GlobalColor :=
  if id =? 0 then magenta else if id =? 1 then blue else cyan.

(** The loop over the path, for the indices still to visit: [Some]
    of the lines added to the scene, in the order they are added, or
    [None] for an [IndexError].  The loop ends at the [break]. *)
Fixpoint draw_path (a : Aircraft) (length : nat) (indices : list nat)
    : option (list PathLine) :=
  match indices with
  | [] => Some []
  | i :: rest =>
      if (100 <? length - i)%nat then Some []
      else
        match path a !! i, path a !! (i + 1)%nat with
        | Some point1, Some point2 =>
            match draw_path a length rest with
            | Some lines =>
                Some (mkPathLine point1 point2 (path_pen (aircraft_id a)) :: lines)
            | None => None
            end
        | _, _ => None
        end
  end.

(** The "travelled path" block of [render_scene] for one aircraft. *)
Definition travelled_path (display_paths : bool) (a : Aircraft)
    : option (list PathLine) :=
  if display_paths then
    let length := length (path a) in
    if (1 <? length)%nat
    then draw_path a length (rev (range 0 (length - 1)))
    else Some []
  else Some [].

(** ** The comparisons in double precision

    The methods above compute in exact rationals, which is all that the
    order of the phases, the run state and the events need.  The three
    checks themselves compare doubles: here are their bodies again with
    every arithmetic operation of the source followed by [rnd], and with
    the distance that [math.dist] returns. *)

(** The test of [check_collision] on two aircraft. *)
Definition collide_double (a b : Aircraft) : bool :=
  Qle_bool (math_dist (position a) (position b))
    (rnd (rnd (size a + size b) / 2)).

Definition collision_pair_double (i j : nat) : M (option bool) :=
  ai <- aircraft_at (Z.of_nat i) ;;
  aj <- aircraft_at (Z.of_nat j) ;;
  if collide_double ai aj then
    stop_simulation ;;
    modify (set_is_finished true) ;;
    print AircraftsCollided ;;
    ret (Some true)
  else ret None.

Definition check_collision_double : M bool :=
  n <- len_aircrafts ;;
  r <- for_each (range 0 (n - 1)) (fun i =>
         for_each (range (i + 1) n) (fun j => collision_pair_double i j)) ;;
  match r with
  | Some b => ret b
  | None => ret false
  end.

(** The condition negated in [check_offscreen].  [resolution] holds
    whole numbers, which are doubles as they are. *)
Definition in_bounds_double (res : Z * Z) (a : Aircraft) : bool :=
  (Qle_bool (rnd (0 + rnd (size a / 2))) (pt_x (position a))
   && Qle_bool (pt_x (position a))
        (rnd (inject_Z (fst res) - rnd (size a / 2))))
  && (Qle_bool (rnd (0 + rnd (size a / 2))) (pt_y (position a))
      && Qle_bool (pt_y (position a))
           (rnd (inject_Z (snd res) - rnd (size a / 2)))).

Definition offscreen_test_double (aircraft : Aircraft) : M (option bool) :=
  res <- gets resolution ;;
  if negb (in_bounds_double res aircraft) then
    stop_simulation ;;
    modify (set_is_finished true) ;;
    print LeftBoundaries ;;
    ret (Some true)
  else ret None.

Definition check_offscreen_double : M bool :=
  l <- gets aircrafts ;;
  r <- for_each l offscreen_test_double ;;
  match r with
  | Some b => ret b
  | None => ret false
  end.

(** One half of the body of the loop of [check_safezones]. *)
Definition safezone_test_double (k : nat) (distance : Q) : M unit :=
  a <- aircraft_at (Z.of_nat k) ;;
  if Qle_bool distance (rnd (safezone_size a / 2)) then
    if negb (safezone_occupied a) then
      update_aircraft k (set_safezone_occupied true) ;;
      avoid_aircraft_collision (aircraft_id a) ;;
      print (EnteredSafezone (aircraft_id a))
    else ret tt
  else
    if safezone_occupied a then
      update_aircraft k (set_safezone_occupied false) ;;
      print (LeftSafezone (aircraft_id a))
    else ret tt.

Definition safezone_pair_double (i j : nat) : M unit :=
  ai <- aircraft_at (Z.of_nat i) ;;
  aj <- aircraft_at (Z.of_nat j) ;;
  let distance := math_dist (position ai) (position aj) in
  safezone_test_double i distance ;;
  safezone_test_double j distance.

Definition check_safezones_double : M unit :=
  n <- len_aircrafts ;;
  _ <- for_each (R := unit) (range 0 (n - 1)) (fun i =>
         for_each (range (i + 1) n) (fun j =>
           safezone_pair_double i j ;; ret None)) ;;
  ret tt.

(** The pair of indices [(i, j)] holds two aircraft that pass the test of
    [check_collision]. *)
Definition collision_at_double (l : list Aircraft) (i j : nat) : bool :=
  match l !! i, l !! j with
  | Some a, Some b => collide_double a b
  | _, _ => false
  end.

Definition any_collision_double (l : list Aircraft) : bool :=
  existsb (fun i => existsb (collision_at_double l i) (range (i + 1) (length l)))
    (range 0 (length l - 1)).

Definition any_offscreen_double (res : Z * Z) (l : list Aircraft) : bool :=
  existsb (fun a => negb (in_bounds_double res a)) l.

(** [distance <= a.safezone_size / 2] *)
Definition in_safezone_double (a : Aircraft) (distance : Q) : bool :=
  Qle_bool distance (rnd (safezone_size a / 2)).

(** The unordered pairs of indices below [n], in the order of the two
    nested loops. *)
Definition all_pairs (n : nat) : list (nat * nat) :=
  flat_map (fun i => map (fun j => (i, j)) (range (i + 1) n)) (range 0 (n - 1)).

(** The pair steps of a list of pairs, one after the other. *)
Fixpoint each_pair (pairs : list (nat * nat)) : M unit :=
  match pairs with
  | [] => ret tt
  | (i, j) :: rest => safezone_pair_double i j ;; each_pair rest
  end.

(** The state after a pass over the pair [a0], [a1]. *)
Definition after_pass_double (a0 a1 : Aircraft) (s : Simulator) : Simulator :=
  let distance := math_dist (position a0) (position a1) in
  say (edge_events a0 a1 (in_safezone_double a0 distance)
       ++ edge_events a1 a0 (in_safezone_double a1 distance))
    (set_aircrafts
       [ set_safezone_occupied (in_safezone_double a0 distance) a0;
         set_safezone_occupied (in_safezone_double a1 distance) a1 ] s).

(** "Some object left safezone of Aircraft [k]" *)
Definition is_left_of (k : Z) (e : Event) : bool :=
  match e with LeftSafezone i => i =? k | _ => false end.

(** [n] proximity passes in a row. *)
Fixpoint passes_double (n : nat) : M unit :=
  match n with
  | O => ret tt
  | S m => check_safezones_double ;; passes_double m
  end.

(** ** The steering keys in double precision *)

(** The steering keys of one aircraft, the arithmetic rounded. *)
Definition steer_double (k : nat)
    (right down left up slower faster ccw cw : Key) (e : QKeyEvent) : M unit :=
  a <- aircraft_at (Z.of_nat k) ;;
  if Key_eqb (key e) right then update_aircraft k (set_course 0)
  else if Key_eqb (key e) down then update_aircraft k (set_course 90)
  else if Key_eqb (key e) left then update_aircraft k (set_course 180)
  else if Key_eqb (key e) up then update_aircraft k (set_course 270)
  else if Key_eqb (key e) slower then
    if Qlt_bool 1 (speed a)
    then update_aircraft k (set_speed (rnd (speed a - 1)))
    else ret tt
  else if Key_eqb (key e) faster then
    update_aircraft k (set_speed (rnd (speed a + 1)))
  else if Key_eqb (key e) ccw then
    let c := rnd (course a - rnd (max_course_change a * 2)) in
    let c := if Qlt_bool c 0 then rnd (c + 360) else c in
    update_aircraft k (set_course c)
  else if Key_eqb (key e) cw then
    let c := rnd (course a + rnd (max_course_change a * 2)) in
    let c := if Qle_bool 360 c then rnd (c - 360) else c in
    update_aircraft k (set_course c)
  else ret tt.

(** The key handler with the rounded steering; its last chain, which does
    no arithmetic on doubles, is [run_shortcut]. *)
Definition keyPressEvent_double (e : QKeyEvent) : M unit :=
  (if Key_eqb (key e) Key_QuoteLeft
   then modify (fun s => set_debug (negb (debug s)) s) else ret tt) ;;
  (* ctrl + button *)
  (if modifiers e
   then (if Key_eqb (key e) Key_C then modify (set_closed true) else ret tt)
   else ret tt) ;;
  (if Key_eqb (key e) Key_Escape then modify (set_closed true) else ret tt) ;;
  dbg <- gets debug ;;
  if negb dbg then ret tt
  else
    n <- len_aircrafts ;;
    (* first aircraft steering *)
    (if (1 <=? n)%nat
     then steer_double 0 Key_D Key_S Key_A Key_W Key_F2 Key_F3 Key_Y Key_U e
     else ret tt) ;;
    (* second aircraft steering *)
    (if (2 <=? n)%nat
     then steer_double 1 Key_L Key_K Key_J Key_I Key_F6 Key_F7 Key_O Key_P e
     else ret tt) ;;
    (* shortcuts for every case *)
    run_shortcut e.

(** What the steering chain of [steer_double] makes of the aircraft it
    reads. *)
Definition steered_double (right down left up slower faster ccw cw : Key)
    (e : QKeyEvent) (a : Aircraft) : Aircraft :=
  if Key_eqb (key e) right then set_course 0 a
  else if Key_eqb (key e) down then set_course 90 a
  else if Key_eqb (key e) left then set_course 180 a
  else if Key_eqb (key e) up then set_course 270 a
  else if Key_eqb (key e) slower then
    if Qlt_bool 1 (speed a) then set_speed (rnd (speed a - 1)) a else a
  else if Key_eqb (key e) faster then set_speed (rnd (speed a + 1)) a
  else if Key_eqb (key e) ccw then
    let c := rnd (course a - rnd (max_course_change a * 2)) in
    set_course (if Qlt_bool c 0 then rnd (c + 360) else c) a
  else if Key_eqb (key e) cw then
    let c := rnd (course a + rnd (max_course_change a * 2)) in
    set_course (if Qle_bool 360 c then rnd (c - 360) else c) a
  else a.

Definition steering_double (e : QKeyEvent) (l : list Aircraft)
    : list Aircraft :=
  match l with
  | [] => []
  | [a0] =>
      [steered_double Key_D Key_S Key_A Key_W Key_F2 Key_F3 Key_Y Key_U e a0]
  | a0 :: a1 :: rest =>
      steered_double Key_D Key_S Key_A Key_W Key_F2 Key_F3 Key_Y Key_U e a0
      :: steered_double Key_L Key_K Key_J Key_I Key_F6 Key_F7 Key_O Key_P e a1
      :: rest
  end.

(** The commanded course is a heading from 0 to 360. *)
Definition course_in_circle (a : Aircraft) : Prop :=
  (0 <= course a)%Q /\ (course a <= 360)%Q.

(** The turn step of the turn keys, as computed, is at most a full
    circle. *)
Definition turn_in_circle (a : Aircraft) : Prop :=
  (0 <= rnd (max_course_change a * 2))%Q
  /\ (rnd (max_course_change a * 2) <= 360)%Q.

(** ** Basic facts about subscripts and loops *)

Lemma getitem_of_nat {A} (l : list A) (i : nat) :
  getitem l (Z.of_nat i) = l !! i.
Proof.
  unfold getitem.
  destruct (Z.ltb_spec (Z.of_nat i) (Z.of_nat (length l))) as [Hlt | Hge].
  - replace (0 <=? Z.of_nat i) with true by (symmetry; apply Z.leb_le; lia).
    simpl. now rewrite Nat2Z.id.
  - replace (0 <=? Z.of_nat i) with true by (symmetry; apply Z.leb_le; lia).
    simpl.
    replace (Z.of_nat i <? 0) with false by (symmetry; apply Z.ltb_ge; lia).
    rewrite andb_false_r. symmetry. apply lookup_ge_None. lia.
Qed.

Lemma aircraft_at_nat (s : Simulator) (i : nat) (a : Aircraft) :
  aircrafts s !! i = Some a -> aircraft_at (Z.of_nat i) s = Returns a s.
Proof. intros H. unfold aircraft_at. now rewrite getitem_of_nat, H. Qed.

Lemma aircraft_at_nat_None (s : Simulator) (i : nat) :
  aircrafts s !! i = None -> aircraft_at (Z.of_nat i) s = Raises IndexError s.
Proof. intros H. unfold aircraft_at. now rewrite getitem_of_nat, H. Qed.

Lemma elem_of_range (a b k : nat) : k ∈ range a b <-> (a <= k < b)%nat.
Proof. unfold range. rewrite elem_of_seq. lia. Qed.

(** A loop whose body either returns [v] in state [s'] or falls through
    without touching the state behaves like a search: it returns at the
    first element that passes the test, and is not run on the rest. *)
Lemma for_each_find {A R} (p : A -> bool) (v : R) (s s' : Simulator)
    (xs : list A) (body : A -> M (option R)) :
  (forall x, x ∈ xs ->
     body x s = if p x then Returns (Some v) s' else Returns None s) ->
  for_each xs body s
  = if existsb p xs then Returns (Some v) s' else Returns None s.
Proof.
  induction xs as [| x xs IH]; intros Hbody; [reflexivity |].
  cbn [for_each existsb]. unfold bind at 1.
  rewrite (Hbody x) by (apply elem_of_cons; now left).
  destruct (p x); [reflexivity |].
  cbn. apply IH. intros y Hy. apply Hbody, elem_of_cons. now right.
Qed.

(** The same loop stops at the first hit whatever comes after it. *)
Lemma for_each_short_circuit {A R} (v : R) (s s' : Simulator)
    (pre post : list A) (x : A) (body : A -> M (option R)) :
  (forall y, y ∈ pre -> body y s = Returns None s) ->
  body x s = Returns (Some v) s' ->
  for_each (pre ++ x :: post) body s = Returns (Some v) s'.
Proof.
  induction pre as [| y pre IH]; intros Hpre Hx; cbn [for_each app].
  - unfold bind. now rewrite Hx.
  - unfold bind at 1. rewrite (Hpre y) by (apply elem_of_cons; now left).
    apply IH; [| exact Hx]. intros z Hz. apply Hpre, elem_of_cons. now right.
Qed.

(** ** Collision detector *)

Lemma collision_pair_eq (s : Simulator) (i j : nat) :
  (i < length (aircrafts s))%nat -> (j < length (aircrafts s))%nat ->
  collision_pair i j s
  = if collision_at (aircrafts s) i j
    then Returns (Some true) (terminate AircraftsCollided s)
    else Returns None s.
Proof.
  intros Hi Hj.
  destruct (lookup_lt_is_Some_2 _ _ Hi) as [a Ha].
  destruct (lookup_lt_is_Some_2 _ _ Hj) as [b Hb].
  unfold collision_pair, collision_at, bind.
  rewrite (aircraft_at_nat _ _ _ Ha), (aircraft_at_nat _ _ _ Hb), Ha, Hb.
  destruct (collide a b); reflexivity.
Qed.

Lemma check_collision_eq (s : Simulator) :
  check_collision s
  = if any_collision (aircrafts s)
    then Returns true (terminate AircraftsCollided s)
    else Returns false s.
Proof.
  unfold check_collision, any_collision, bind at 1, len_aircrafts, gets.
  unfold bind.
  rewrite (for_each_find
             (fun i => existsb (collision_at (aircrafts s) i)
                         (range (i + 1) (length (aircrafts s))))
             true s (terminate AircraftsCollided s)).
  - now destruct (existsb _ _).
  - intros i Hi. apply elem_of_range in Hi.
    apply for_each_find. intros j Hj. apply elem_of_range in Hj.
    apply collision_pair_eq; lia.
Qed.





Lemma terminate_fields (e : Event) (s : Simulator) :
  simulation_timer (terminate e s) = false
  /\ is_stopped (terminate e s) = true
  /\ is_finished (terminate e s) = true
  /\ stdout (terminate e s) = stdout s ++ [e]
  /\ aircrafts (terminate e s) = aircrafts s.
Proof. repeat split. Qed.


(** ** Boundary guard *)

Lemma offscreen_test_eq (s : Simulator) (a : Aircraft) :
  offscreen_test a s
  = if negb (in_bounds (resolution s) a)
    then Returns (Some true) (terminate LeftBoundaries s)
    else Returns None s.
Proof.
  unfold offscreen_test, bind, gets.
  destruct (in_bounds (resolution s) a); reflexivity.
Qed.

Lemma check_offscreen_eq (s : Simulator) :
  check_offscreen s
  = if any_offscreen (resolution s) (aircrafts s)
    then Returns true (terminate LeftBoundaries s)
    else Returns false s.
Proof.
  unfold check_offscreen, any_offscreen, bind at 1, gets. unfold bind.
  rewrite (for_each_find (fun a => negb (in_bounds (resolution s) a))
             true s (terminate LeftBoundaries s)).
  - now destruct (existsb _ _).
  - intros a _. apply offscreen_test_eq.
Qed.


(** ** Conflict trigger *)

Lemma say_nil (s : Simulator) : say [] s = s.
Proof. unfold say. rewrite app_nil_r. now destruct s. Qed.

Lemma say_say (e1 e2 : list Event) (s : Simulator) :
  say e2 (say e1 s) = say (e1 ++ e2) s.
Proof. unfold say. cbn. now rewrite app_assoc. Qed.

Lemma avoid_no_aircraft (id : Z) (s : Simulator) :
  (length (aircrafts s) < 1)%nat ->
  avoid_aircraft_collision id s = Returns tt (say [NoPossibleCollisions] s).
Proof.
  intros Hn. unfold avoid_aircraft_collision, bind, len_aircrafts, gets.
  replace (1 <=? length (aircrafts s))%nat with false
    by (symmetry; apply Nat.leb_gt; lia).
  reflexivity.
Qed.

Lemma avoid_too_many (id : Z) (s : Simulator) :
  (2 < length (aircrafts s))%nat ->
  avoid_aircraft_collision id s = Returns tt (say [ThreeOrMoreAircrafts] s).
Proof.
  intros Hn. unfold avoid_aircraft_collision, bind, len_aircrafts, gets.
  replace (1 <=? length (aircrafts s))%nat with true
    by (symmetry; apply Nat.leb_le; lia).
  replace (length (aircrafts s) <=? 2)%nat with false
    by (symmetry; apply Nat.leb_gt; lia).
  reflexivity.
Qed.

(** Past the two guards on the count, the trigger is a function of the two
    subscripts [id] and [1 - id]. *)
Lemma avoid_in_range (id : Z) (s : Simulator) :
  (1 <= length (aircrafts s) <= 2)%nat ->
  avoid_aircraft_collision id s
  = match getitem (aircrafts s) id with
    | None => Raises IndexError s
    | Some this =>
        if negb (aircraft_id this =? id)
        then Raises (Exception ids_differ_msg) s
        else match getitem (aircrafts s) (1 - id) with
             | None => Raises IndexError s
             | Some other => Returns tt (say (conflict_report this other) s)
             end
    end.
Proof.
  intros Hn. unfold avoid_aircraft_collision, bind at 1, len_aircrafts, gets.
  replace (1 <=? length (aircrafts s))%nat with true
    by (symmetry; apply Nat.leb_le; lia).
  replace (length (aircrafts s) <=? 2)%nat with true
    by (symmetry; apply Nat.leb_le; lia).
  cbn [negb]. unfold bind at 1, aircraft_at at 1.
  destruct (getitem (aircrafts s) id) as [this |] eqn:Hthis; [| reflexivity].
  destruct (negb (aircraft_id this =? id)); [reflexivity |].
  unfold bind at 1, aircraft_at at 1. rewrite Hthis.
  unfold bind at 1, aircraft_at at 1.
  destruct (getitem (aircrafts s) (1 - id)) as [other |]; [| reflexivity].
  unfold bind, print, modify, say, conflict_report. cbn.
  now rewrite <- !app_assoc.
Qed.

Lemma getitem_Some_range {A} (l : list A) (i : Z) (x : A) :
  getitem l i = Some x -> - Z.of_nat (length l) <= i < Z.of_nat (length l).
Proof.
  unfold getitem.
  destruct (Z.leb_spec 0 i), (Z.ltb_spec i (Z.of_nat (length l))),
    (Z.leb_spec (- Z.of_nat (length l)) i), (Z.ltb_spec i 0);
    cbn; try discriminate; lia.
Qed.

Lemma getitem_None_ge {A} (l : list A) (i : Z) :
  Z.of_nat (length l) <= i -> getitem l i = None.
Proof.
  intros H. destruct (getitem l i) eqn:E; [| reflexivity].
  apply getitem_Some_range in E. lia.
Qed.

(** The trigger returns only when [id] is the position of an aircraft that
    carries this id. *)
Lemma avoid_mismatch_raises (id : Z) (s : Simulator) :
  (1 <= length (aircrafts s) <= 2)%nat ->
  ~ (exists k a, id = Z.of_nat k /\ aircrafts s !! k = Some a
                 /\ aircraft_id a = id) ->
  exists e, avoid_aircraft_collision id s = Raises e s.
Proof.
  intros Hn Hno. rewrite avoid_in_range by exact Hn.
  destruct (getitem (aircrafts s) id) as [this |] eqn:Hthis; [| eauto].
  destruct (Z.eqb_spec (aircraft_id this) id) as [Heq | Hne]; cbn; [| eauto].
  destruct (Z.leb_spec 0 id) as [Hpos | Hneg].
  - exfalso. apply Hno. exists (Z.to_nat id), this.
    rewrite <- getitem_of_nat, Z2Nat.id by lia. auto.
  - rewrite getitem_None_ge; [eauto |]. lia.
Qed.

(** C5.  With no aircraft the conflict trigger prints a warning and
    returns, the simulator unchanged; with more than two it prints the
    other warning and returns, the simulator unchanged.  With one or two,
    when the aircraft found at subscript [id] does not carry the id [id],
    it raises the [Exception] of the source, and more generally it raises
    whenever [id] is not the position of an aircraft with that id: the
    call never goes on to the conflict report. *)
Theorem avoid_aircraft_collision_guards (id : Z) (s : Simulator) :
  ((length (aircrafts s) < 1)%nat ->
   avoid_aircraft_collision id s = Returns tt (say [NoPossibleCollisions] s)
   /\ aircrafts (say [NoPossibleCollisions] s) = aircrafts s
   /\ is_finished (say [NoPossibleCollisions] s) = is_finished s
   /\ is_stopped (say [NoPossibleCollisions] s) = is_stopped s)
  /\ ((2 < length (aircrafts s))%nat ->
      avoid_aircraft_collision id s = Returns tt (say [ThreeOrMoreAircrafts] s)
      /\ aircrafts (say [ThreeOrMoreAircrafts] s) = aircrafts s
      /\ is_finished (say [ThreeOrMoreAircrafts] s) = is_finished s
      /\ is_stopped (say [ThreeOrMoreAircrafts] s) = is_stopped s)
  /\ ((1 <= length (aircrafts s) <= 2)%nat ->
      (forall a, getitem (aircrafts s) id = Some a -> aircraft_id a <> id ->
         avoid_aircraft_collision id s = Raises (Exception ids_differ_msg) s)
      /\ (~ (exists k a, id = Z.of_nat k /\ aircrafts s !! k = Some a
                         /\ aircraft_id a = id) ->
          exists e, avoid_aircraft_collision id s = Raises e s)).
Proof.
  split; [| split].
  - intros Hn. split; [now apply avoid_no_aircraft | repeat split].
  - intros Hn. split; [now apply avoid_too_many | repeat split].
  - intros Hn. split.
    + intros a Ha Hne. rewrite avoid_in_range, Ha by exact Hn.
      destruct (Z.eqb_spec (aircraft_id a) id); [contradiction | reflexivity].
    + now apply avoid_mismatch_raises.
Qed.

(** C10.  With exactly one aircraft, of id 0, both guards on the count
    pass, the id check passes, and the subscript [1 - 0] is out of range:
    the call raises [IndexError], having printed nothing. *)
Theorem avoid_single_aircraft_index_error (a : Aircraft) (s : Simulator) :
  aircrafts s = [a] -> aircraft_id a = 0 ->
  negb (1 <=? length (aircrafts s))%nat = false
  /\ negb (length (aircrafts s) <=? 2)%nat = false
  /\ getitem (aircrafts s) (1 - 0) = None
  /\ avoid_aircraft_collision 0 s = Raises IndexError s.
Proof.
  intros Hl Hid. rewrite avoid_in_range by (rewrite Hl; cbn; lia).
  rewrite Hl.
  change (getitem [a] 0) with (Some a).
  change (getitem [a] (1 - 0)) with (@None Aircraft).
  cbv beta iota. rewrite Hid. repeat split.
Qed.

Lemma avoid_outcome (id : Z) (s : Simulator) :
  avoid_aircraft_collision id s
  = match trigger_output (aircrafts s) id with
    | inr evs => Returns tt (say evs s)
    | inl e => Raises e s
    end.
Proof.
  unfold trigger_output.
  destruct (Nat.ltb_spec (length (aircrafts s)) 1) as [H0 | H1].
  - now apply avoid_no_aircraft.
  - destruct (Nat.ltb_spec 2 (length (aircrafts s))) as [H3 | H2].
    + now apply avoid_too_many.
    + rewrite avoid_in_range by lia.
      destruct (getitem (aircrafts s) id) as [this |]; [| reflexivity].
      destruct (aircraft_id this =? id); [| reflexivity].
      now destruct (getitem (aircrafts s) (1 - id)).
Qed.

(** The trigger writes to the output only. *)
Lemma avoid_frame (id : Z) (s : Simulator) :
  exists evs, final_state (avoid_aircraft_collision id s) = say evs s.
Proof.
  rewrite avoid_outcome.
  destruct (trigger_output (aircrafts s) id) as [e | evs].
  - exists []. now rewrite say_nil.
  - now exists evs.
Qed.

(** ** Proximity monitor *)

Lemma set_safezone_occupied_same (a : Aircraft) :
  set_safezone_occupied (safezone_occupied a) a = a.
Proof. now destruct a. Qed.

Lemma set_aircrafts_same (s : Simulator) : set_aircrafts (aircrafts s) s = s.
Proof. now destruct s. Qed.

Lemma mark_same (k : nat) (a : Aircraft) (s : Simulator) :
  aircrafts s !! k = Some a -> mark k a s = s.
Proof.
  intros H. unfold mark. rewrite list_insert_id by exact H.
  apply set_aircrafts_same.
Qed.

Lemma update_aircraft_eq (k : nat) (f : Aircraft -> Aircraft) (a : Aircraft)
    (s : Simulator) :
  aircrafts s !! k = Some a -> update_aircraft k f s = Returns tt (mark k (f a) s).
Proof.
  intros H. unfold update_aircraft, bind.
  now rewrite (aircraft_at_nat _ _ _ H).
Qed.

(** One half of a pair step, case by case. *)
Lemma safezone_test_eq (k : nat) (d2 : Q) (a : Aircraft) (s : Simulator) :
  aircrafts s !! k = Some a ->
  safezone_test k d2 s
  = if in_safezone a d2 then
      if safezone_occupied a then Returns tt s
      else
        let s1 := mark k (set_safezone_occupied true a) s in
        match trigger_output (aircrafts s1) (aircraft_id a) with
        | inr evs => Returns tt (say (evs ++ [EnteredSafezone (aircraft_id a)]) s1)
        | inl e => Raises e s1
        end
    else
      if safezone_occupied a
      then Returns tt (say [LeftSafezone (aircraft_id a)]
                         (mark k (set_safezone_occupied false a) s))
      else Returns tt s.
Proof.
  intros Ha. unfold safezone_test, bind at 1, in_safezone.
  rewrite (aircraft_at_nat _ _ _ Ha).
  destruct (dist_le d2 (safezone_size a / 2)), (safezone_occupied a);
    cbn [negb]; try reflexivity.
  - unfold bind at 1. rewrite (update_aircraft_eq _ _ _ _ Ha).
    unfold bind at 1. rewrite avoid_outcome. cbv zeta.
    destruct (trigger_output _ _) as [e | evs]; [reflexivity |].
    unfold print, modify. now rewrite <- say_say.
  - unfold bind. now rewrite (update_aircraft_eq _ _ _ _ Ha).
Qed.

Lemma trigger_output_two (b0 b1 : Aircraft) :
  aircraft_id b0 = 0 -> aircraft_id b1 = 1 ->
  trigger_output [b0; b1] 0 = inr (conflict_report b0 b1)
  /\ trigger_output [b0; b1] 1 = inr (conflict_report b1 b0).
Proof.
  intros H0 H1. unfold trigger_output. cbn [length Nat.ltb Nat.leb].
  change (getitem [b0; b1] 0) with (Some b0).
  change (getitem [b0; b1] 1) with (Some b1).
  change (getitem [b0; b1] (1 - 0)) with (Some b1).
  change (getitem [b0; b1] (1 - 1)) with (Some b0).
  cbv beta iota. now rewrite H0, H1.
Qed.

Lemma edge_events_other_flag (this other : Aircraft) (b inside : bool) :
  edge_events this (set_safezone_occupied b other) inside
  = edge_events this other inside.
Proof. reflexivity. Qed.

(** In a well-numbered pair, the test of aircraft 0 sets its flag to the
    outcome of the comparison and prints the events of the flag's edge. *)
Lemma safezone_test_two_0 (s : Simulator) (b0 b1 : Aircraft) (d2 : Q) :
  aircrafts s = [b0; b1] -> aircraft_id b0 = 0 -> aircraft_id b1 = 1 ->
  safezone_test 0 d2 s
  = Returns tt
      (say (edge_events b0 b1 (in_safezone b0 d2))
         (set_aircrafts [set_safezone_occupied (in_safezone b0 d2) b0; b1] s)).
Proof.
  intros Hl H0 H1.
  assert (L0 : aircrafts s !! 0%nat = Some b0) by now rewrite Hl.
  rewrite (safezone_test_eq 0 d2 b0 s L0). unfold edge_events, mark.
  rewrite Hl. cbn [list_insert insert aircrafts set_aircrafts].
  destruct (in_safezone b0 d2), (safezone_occupied b0) eqn:O0; cbv zeta.
  - now rewrite <- O0, set_safezone_occupied_same, <- Hl,
      set_aircrafts_same, say_nil.
  - now rewrite H0,
      (proj1 (trigger_output_two (set_safezone_occupied true b0) b1 H0 H1)).
  - reflexivity.
  - now rewrite <- O0, set_safezone_occupied_same, <- Hl,
      set_aircrafts_same, say_nil.
Qed.

Lemma safezone_test_two_1 (s : Simulator) (b0 b1 : Aircraft) (d2 : Q) :
  aircrafts s = [b0; b1] -> aircraft_id b0 = 0 -> aircraft_id b1 = 1 ->
  safezone_test 1 d2 s
  = Returns tt
      (say (edge_events b1 b0 (in_safezone b1 d2))
         (set_aircrafts [b0; set_safezone_occupied (in_safezone b1 d2) b1] s)).
Proof.
  intros Hl H0 H1.
  assert (L1 : aircrafts s !! 1%nat = Some b1) by now rewrite Hl.
  rewrite (safezone_test_eq 1 d2 b1 s L1). unfold edge_events, mark.
  rewrite Hl. cbn [list_insert insert aircrafts set_aircrafts].
  destruct (in_safezone b1 d2), (safezone_occupied b1) eqn:O1; cbv zeta.
  - now rewrite <- O1, set_safezone_occupied_same, <- Hl,
      set_aircrafts_same, say_nil.
  - now rewrite H1,
      (proj2 (trigger_output_two b0 (set_safezone_occupied true b1) H0 H1)).
  - reflexivity.
  - now rewrite <- O1, set_safezone_occupied_same, <- Hl,
      set_aircrafts_same, say_nil.
Qed.

Lemma safezone_pair_two (s : Simulator) (a0 a1 : Aircraft) :
  aircrafts s = [a0; a1] -> aircraft_id a0 = 0 -> aircraft_id a1 = 1 ->
  safezone_pair 0 1 s = Returns tt (after_pass a0 a1 s).
Proof.
  intros Hl H0 H1. set (d := dist_sq (position a0) (position a1)).
  assert (L0 : aircrafts s !! 0%nat = Some a0) by now rewrite Hl.
  assert (L1 : aircrafts s !! 1%nat = Some a1) by now rewrite Hl.
  unfold safezone_pair, bind at 1.
  rewrite (aircraft_at_nat _ _ _ L0). unfold bind at 1.
  rewrite (aircraft_at_nat _ _ _ L1). fold d. unfold bind.
  rewrite (safezone_test_two_0 s a0 a1 d Hl H0 H1).
  rewrite (safezone_test_two_1
             (say (edge_events a0 a1 (in_safezone a0 d))
                (set_aircrafts
                   [set_safezone_occupied (in_safezone a0 d) a0; a1] s))
             (set_safezone_occupied (in_safezone a0 d) a0) a1 d eq_refl H0 H1).
  unfold after_pass. fold d. rewrite edge_events_other_flag.
  unfold say. cbn. now rewrite app_assoc.
Qed.

Lemma check_safezones_two (s : Simulator) (a0 a1 : Aircraft) :
  aircrafts s = [a0; a1] -> aircraft_id a0 = 0 -> aircraft_id a1 = 1 ->
  check_safezones s = Returns tt (after_pass a0 a1 s).
Proof.
  intros Hl H0 H1.
  unfold check_safezones, bind at 1, len_aircrafts, gets. rewrite Hl.
  cbn [length Nat.sub Nat.add range seq for_each].
  unfold bind. now rewrite (safezone_pair_two s a0 a1 Hl H0 H1).
Qed.

Lemma safezone_test_many (k : nat) (d2 : Q) (a : Aircraft) (s : Simulator) :
  (2 < length (aircrafts s))%nat -> aircrafts s !! k = Some a ->
  safezone_test k d2 s
  = Returns tt
      (say (edge_events_many a (in_safezone a d2))
         (mark k (set_safezone_occupied (in_safezone a d2) a) s)).
Proof.
  intros Hn Ha. rewrite (safezone_test_eq k d2 a s Ha). unfold edge_events_many.
  destruct (in_safezone a d2), (safezone_occupied a) eqn:Ho; cbv zeta.
  - now rewrite <- Ho, set_safezone_occupied_same, (mark_same _ _ _ Ha), say_nil.
  - unfold trigger_output, mark. cbn [aircrafts set_aircrafts].
    rewrite length_insert.
    replace (length (aircrafts s) <? 1)%nat with false
      by (symmetry; apply Nat.ltb_ge; lia).
    replace (2 <? length (aircrafts s))%nat with true
      by (symmetry; apply Nat.ltb_lt; lia).
    reflexivity.
  - reflexivity.
  - now rewrite <- Ho, set_safezone_occupied_same, (mark_same _ _ _ Ha), say_nil.
Qed.

(** A pair step in a collection of three or more aircraft. *)
Lemma safezone_pair_many (i j : nat) (ai aj : Aircraft) (s : Simulator) :
  (2 < length (aircrafts s))%nat -> i <> j ->
  aircrafts s !! i = Some ai -> aircrafts s !! j = Some aj ->
  safezone_pair i j s
  = Returns tt
      (say (edge_events_many ai (in_safezone ai (dist_sq (position ai) (position aj)))
            ++ edge_events_many aj (in_safezone aj (dist_sq (position ai) (position aj))))
         (mark j (set_safezone_occupied
                    (in_safezone aj (dist_sq (position ai) (position aj))) aj)
            (mark i (set_safezone_occupied
                       (in_safezone ai (dist_sq (position ai) (position aj))) ai)
               s))).
Proof.
  intros Hn Hij Hi Hj. set (d := dist_sq (position ai) (position aj)).
  unfold safezone_pair, bind at 1.
  rewrite (aircraft_at_nat _ _ _ Hi). unfold bind at 1.
  rewrite (aircraft_at_nat _ _ _ Hj). fold d. unfold bind.
  rewrite (safezone_test_many i d ai s Hn Hi).
  rewrite (safezone_test_many j d aj).
  - rewrite <- say_say. reflexivity.
  - cbn. now rewrite length_insert.
  - cbn. now rewrite list_lookup_insert_ne.
Qed.

(** The three cases of the test of one aircraft, by flag and comparison. *)
Lemma safezone_test_edges (k : nat) (d2 : Q) (a : Aircraft) (s : Simulator) :
  aircrafts s !! k = Some a ->
  (safezone_occupied a = in_safezone a d2 -> safezone_test k d2 s = Returns tt s)
  /\ (safezone_occupied a = false -> in_safezone a d2 = true ->
      safezone_test k d2 s
      = bind (avoid_aircraft_collision (aircraft_id a))
          (fun _ => print (EnteredSafezone (aircraft_id a)))
          (mark k (set_safezone_occupied true a) s))
  /\ (safezone_occupied a = true -> in_safezone a d2 = false ->
      safezone_test k d2 s
      = Returns tt (say [LeftSafezone (aircraft_id a)]
                      (mark k (set_safezone_occupied false a) s))).
Proof.
  intros Ha. rewrite (safezone_test_eq k d2 a s Ha). split; [| split].
  - intros Heq. rewrite <- Heq. now destruct (safezone_occupied a).
  - intros Ho Hi. rewrite Ho, Hi. cbv zeta. unfold bind.
    rewrite avoid_outcome. destruct (trigger_output _ _); [reflexivity |].
    unfold print, modify. now rewrite <- say_say.
  - intros Ho Hi. now rewrite Ho, Hi.
Qed.

(** ** One tick *)

Lemma cause_collision_eq (s : Simulator) :
  cause_collision s = Returns tt (retargeted s).
Proof.
  unfold cause_collision, retargeted, bind at 1, len_aircrafts, gets.
  destruct (aircrafts s) as [| a0 [| a1 rest]] eqn:Hl; try reflexivity.
  assert (L0 : aircrafts s !! 0%nat = Some a0) by now rewrite Hl.
  assert (L1 : aircrafts s !! 1%nat = Some a1) by now rewrite Hl.
  cbn [length Nat.leb]. unfold bind at 1.
  rewrite (aircraft_at_nat s 1 a1 L1 : aircraft_at 1 s = Returns a1 s).
  unfold bind at 1.
  rewrite (aircraft_at_nat s 0 a0 L0 : aircraft_at 0 s = Returns a0 s).
  now rewrite (update_aircraft_eq 1 _ a1 s L1).
Qed.

Lemma update_simulation_returns (fps : Q) (s s2 : Simulator) :
  check_safezones (advance fps s) = Returns tt s2 ->
  update_simulation fps s = Returns tt (after_checks s2).
Proof.
  intros Hpass. unfold update_simulation, after_checks.
  unfold bind at 1, modify at 1. unfold bind at 1, modify at 1.
  unfold bind at 1.
  match goal with
  | |- context [check_safezones ?x] => change x with (advance fps s)
  end.
  rewrite Hpass.
  unfold bind at 1. rewrite check_collision_eq.
  destruct (any_collision (aircrafts s2)); [reflexivity |].
  unfold bind at 1, modify at 1. cbv iota.
  unfold bind at 1. rewrite check_offscreen_eq.
  change (resolution (set_is_stopped false s2)) with (resolution s2).
  change (aircrafts (set_is_stopped false s2)) with (aircrafts s2).
  destruct (any_offscreen (resolution s2) (aircrafts s2)); [reflexivity |].
  unfold bind at 1, modify at 1. cbv iota.
  unfold bind, gets.
  change (cause_crash_second (set_is_stopped false (set_is_stopped false s2)))
    with (cause_crash_second s2).
  destruct (cause_crash_second s2); [apply cause_collision_eq | reflexivity].
Qed.

Lemma update_simulation_raises (fps : Q) (e : exn) (s s2 : Simulator) :
  check_safezones (advance fps s) = Raises e s2 ->
  update_simulation fps s = Raises e s2.
Proof.
  intros Hpass. unfold update_simulation.
  unfold bind at 1, modify at 1. unfold bind at 1, modify at 1.
  unfold bind at 1.
  match goal with
  | |- context [check_safezones ?x] => change x with (advance fps s)
  end.
  now rewrite Hpass.
Qed.

(** *** Events of a run *)

Lemma count_app (p : Event -> bool) (xs ys : list Event) :
  count p (xs ++ ys) = (count p xs + count p ys)%nat.
Proof. unfold count. now rewrite List.filter_app, length_app. Qed.



Section Held.

(** The kinematics contract, as far as the proximity pass depends on it:
    a step keeps the id, the safezone, the flag and the speed, and an
    aircraft of speed 0 stays where it is. *)
Hypothesis step_id : forall a, aircraft_id (update_position a) = aircraft_id a.
Hypothesis step_zone : forall a, safezone_size (update_position a) = safezone_size a.
Hypothesis step_flag :
  forall a, safezone_occupied (update_position a) = safezone_occupied a.
Hypothesis step_speed : forall a, speed (update_position a) = speed a.
Hypothesis step_still :
  forall a, (speed a == 0)%Q -> position (update_position a) = position a.






End Held.


(** ** What a method leaves untouched *)

Section Preservation.

Variable P : Simulator -> Prop.

Lemma preserves_ret {A} (a : A) : preserves P (ret a).
Proof. intros s H. exact H. Qed.

Lemma preserves_raise {A} (e : exn) : preserves P (raise (A := A) e).
Proof. intros s H. exact H. Qed.

Lemma preserves_gets {A} (f : Simulator -> A) : preserves P (gets f).
Proof. intros s H. exact H. Qed.

Lemma preserves_modify (f : Simulator -> Simulator) :
  (forall s, P s -> P (f s)) -> preserves P (modify f).
Proof. intros Hf s H. now apply Hf. Qed.

Lemma preserves_bind {A B} (c : M A) (k : A -> M B) :
  preserves P c -> (forall a, preserves P (k a)) -> preserves P (bind c k).
Proof.
  intros Hc Hk s H. unfold bind. specialize (Hc s H).
  destruct (c s) as [a s' | e s']; [now apply Hk | exact Hc].
Qed.

Lemma preserves_for_each {A R} (xs : list A) (body : A -> M (option R)) :
  (forall x, preserves P (body x)) -> preserves P (for_each xs body).
Proof.
  intros Hbody. induction xs as [| x xs IH]; cbn [for_each].
  - apply preserves_ret.
  - apply preserves_bind; [apply Hbody |].
    intros [v |]; [apply preserves_ret | exact IH].
Qed.

Lemma preserves_aircraft_at (i : Z) : preserves P (aircraft_at i).
Proof.
  intros s H. unfold aircraft_at. now destruct (getitem (aircrafts s) i).
Qed.

End Preservation.

(** Composite methods are taken apart down to their writes. *)
Ltac frame_step :=
  first
    [ apply preserves_ret
    | apply preserves_raise
    | apply preserves_gets
    | apply preserves_aircraft_at
    | apply preserves_bind; [| intros ?]
    | apply preserves_for_each; intros ?
    | apply preserves_modify; let s := fresh "s" in
                              let H := fresh "H" in
                              intros s H; solve [exact H | reflexivity]
    | match goal with
      | |- preserves _ (if ?b then _ else _) => destruct b
      | |- preserves _ (match ?x with _ => _ end) => destruct x
      end ].

Ltac frame := repeat frame_step.

Lemma print_finished (e : Event) : preserves finished (print e).
Proof. unfold print. frame. Qed.

Lemma update_aircraft_finished (k : nat) (f : Aircraft -> Aircraft) :
  preserves finished (update_aircraft k f).
Proof. unfold update_aircraft. frame. Qed.

Lemma start_simulation_finished : preserves finished start_simulation.
Proof. unfold start_simulation. frame. Qed.

Lemma stop_simulation_finished : preserves finished stop_simulation.
Proof. unfold stop_simulation. frame. Qed.

Lemma avoid_finished (id : Z) : preserves finished (avoid_aircraft_collision id).
Proof.
  unfold avoid_aircraft_collision, len_aircrafts.
  frame; apply print_finished.
Qed.

Lemma safezone_test_finished (k : nat) (d2 : Q) :
  preserves finished (safezone_test k d2).
Proof.
  unfold safezone_test.
  frame; first [apply print_finished | apply update_aircraft_finished
               | apply avoid_finished].
Qed.

Lemma check_safezones_finished : preserves finished check_safezones.
Proof.
  unfold check_safezones, safezone_pair, len_aircrafts.
  frame; apply safezone_test_finished.
Qed.

Lemma check_collision_finished : preserves finished check_collision.
Proof.
  unfold check_collision, collision_pair, len_aircrafts.
  frame; first [apply print_finished | apply stop_simulation_finished].
Qed.

Lemma check_offscreen_finished : preserves finished check_offscreen.
Proof.
  unfold check_offscreen, offscreen_test.
  frame; first [apply print_finished | apply stop_simulation_finished].
Qed.

Lemma cause_collision_finished :
  preserves finished (cause_collision).
Proof.
  unfold cause_collision, len_aircrafts.
  frame; apply update_aircraft_finished.
Qed.

Lemma update_simulation_finished (fps : Q) :
  preserves finished (update_simulation fps).
Proof.
  unfold update_simulation.
  frame; first [apply check_safezones_finished | apply check_collision_finished
               | apply check_offscreen_finished | apply cause_collision_finished].
Qed.

Lemma steer_finished (k : nat) (k1 k2 k3 k4 k5 k6 k7 k8 : Key) (e : QKeyEvent) :
  preserves finished (steer k k1 k2 k3 k4 k5 k6 k7 k8 e).
Proof. unfold steer. frame; apply update_aircraft_finished. Qed.

(** ** Run state and key presses *)

Lemma update_aircraft_run_state (Q : bool -> bool -> bool -> Prop) (k : nat)
    (f : Aircraft -> Aircraft) :
  preserves (on_run_state Q) (update_aircraft k f).
Proof. unfold update_aircraft. frame. Qed.

Lemma steer_run_state (Q : bool -> bool -> bool -> Prop) (k : nat)
    (k1 k2 k3 k4 k5 k6 k7 k8 : Key) (e : QKeyEvent) :
  preserves (on_run_state Q) (steer k k1 k2 k3 k4 k5 k6 k7 k8 e).
Proof. unfold steer. frame; apply update_aircraft_run_state. Qed.

(** A key that is none of the eight steering keys of an aircraft leaves
    the aircraft alone. *)
Lemma steer_noop (k : nat) (k1 k2 k3 k4 k5 k6 k7 k8 : Key) (e : QKeyEvent)
    (s : Simulator) :
  Key_eqb (key e) k1 = false -> Key_eqb (key e) k2 = false ->
  Key_eqb (key e) k3 = false -> Key_eqb (key e) k4 = false ->
  Key_eqb (key e) k5 = false -> Key_eqb (key e) k6 = false ->
  Key_eqb (key e) k7 = false -> Key_eqb (key e) k8 = false ->
  (k < length (aircrafts s))%nat ->
  steer k k1 k2 k3 k4 k5 k6 k7 k8 e s = Returns tt s.
Proof.
  intros E1 E2 E3 E4 E5 E6 E7 E8 Hk.
  destruct (lookup_lt_is_Some_2 _ _ Hk) as [a Ha].
  unfold steer, bind. rewrite (aircraft_at_nat _ _ _ Ha).
  now rewrite E1, E2, E3, E4, E5, E6, E7, E8.
Qed.

Ltac finish_slash :=
  cbv [bind]; cbv beta;
  destruct (is_finished _); cbn [negb]; cbv beta iota; [reflexivity |];
  destruct (is_stopped _); reflexivity.

Lemma reset_simulation_eq (s : Simulator) : reset_simulation s = Returns tt (reset_state s).
Proof. reflexivity. Qed.

(** The body of the key handler for a key that steers nothing, once the
    debug gate is passed. *)
Lemma press_no_steering (e : QKeyEvent) (s : Simulator) :
  key e = Key_R \/ key e = Key_Slash ->
  keyPressEvent e s
  = if debug s then
      match key e with
      | Key_R => bind stop_simulation
                   (fun _ => bind reset_simulation (fun _ => start_simulation)) s
      | _ => if negb (is_finished s)
             then (if is_stopped s then start_simulation s else stop_simulation s)
             else bind reset_simulation (fun _ => start_simulation) s
      end
    else Returns tt s.
Proof.
  intros Hkey. destruct e as [k m]. cbn [key] in Hkey.
  assert (Hsteer0 : (0 < length (aircrafts s))%nat ->
    steer 0 Key_D Key_S Key_A Key_W Key_F2 Key_F3 Key_Y Key_U (mkKeyEvent k m) s
    = Returns tt s)
    by (intros H; apply steer_noop; try exact H; destruct Hkey; subst k; reflexivity).
  assert (Hsteer1 : (1 < length (aircrafts s))%nat ->
    steer 1 Key_L Key_K Key_J Key_I Key_F6 Key_F7 Key_O Key_P (mkKeyEvent k m) s
    = Returns tt s)
    by (intros H; apply steer_noop; try exact H; destruct Hkey; subst k; reflexivity).
  unfold keyPressEvent. cbn [key modifiers].
  replace (Key_eqb k Key_QuoteLeft) with false by (destruct Hkey; now subst k).
  replace (Key_eqb k Key_C) with false by (destruct Hkey; now subst k).
  replace (Key_eqb k Key_Escape) with false by (destruct Hkey; now subst k).
  replace (if m then ret tt else ret tt) with (ret tt : M unit) by now destruct m.
  unfold bind at 1, ret at 1. unfold bind at 1, ret at 1.
  unfold bind at 1, ret at 1. unfold bind at 1, gets at 1.
  destruct (debug s); [| reflexivity]. cbn [negb].
  unfold bind at 1, len_aircrafts, gets. unfold bind at 1.
  destruct (Nat.leb_spec 1 (length (aircrafts s))) as [H1 | H1].
  - rewrite Hsteer0 by lia. unfold bind at 1.
    destruct (Nat.leb_spec 2 (length (aircrafts s))) as [H2 | H2].
    + rewrite Hsteer1 by lia. destruct Hkey; subst k; [reflexivity | finish_slash].
    + unfold ret at 1. destruct Hkey; subst k; [reflexivity | finish_slash].
  - unfold ret at 1. unfold bind at 1.
    destruct (Nat.leb_spec 2 (length (aircrafts s))) as [H2 | H2]; [lia |].
    unfold ret at 1. destruct Hkey; subst k; [reflexivity | finish_slash].
Qed.

(** Every other key leaves the run state alone. *)
Lemma press_other_run_state (Q : bool -> bool -> bool -> Prop) (e : QKeyEvent) :
  key e <> Key_R -> key e <> Key_Slash ->
  preserves (on_run_state Q) (keyPressEvent e).
Proof.
  intros HR HS. unfold keyPressEvent, len_aircrafts.
  destruct e as [k m]. cbn [key modifiers] in *.
  destruct k; try contradiction; cbn [Key_eqb];
    frame; apply steer_run_state.
Qed.

Lemma Key_eq_dec (a b : Key) : {a = b} + {a <> b}.
Proof. decide equality. Qed.

(** A key press changes the run state only through the R and "/" keys in
    debug mode. *)
Lemma press_run_state (e : QKeyEvent) (s : Simulator) :
  (is_finished (final_state (keyPressEvent e s)) = is_finished s
   /\ is_stopped (final_state (keyPressEvent e s)) = is_stopped s
   /\ simulation_timer (final_state (keyPressEvent e s)) = simulation_timer s)
  \/ (debug s = true /\ (key e = Key_R \/ key e = Key_Slash)).
Proof.
  destruct (Key_eq_dec (key e) Key_R) as [HR | HR];
    [| destruct (Key_eq_dec (key e) Key_Slash) as [HS | HS]].
  - destruct (debug s) eqn:Hd; [right; auto | left].
    rewrite press_no_steering, Hd by auto. now repeat split.
  - destruct (debug s) eqn:Hd; [right; auto | left].
    rewrite press_no_steering, Hd by auto. now repeat split.
  - left.
    apply (press_other_run_state
             (fun f p t => f = is_finished s /\ p = is_stopped s
                           /\ t = simulation_timer s) e HR HS s).
    now repeat split.
Qed.

Lemma press_R (e : QKeyEvent) (s : Simulator) :
  key e = Key_R -> debug s = true ->
  keyPressEvent e s
  = Returns tt (set_simulation_timer true (set_is_stopped false
      (reset_state (set_current_simulation_fps 0 (set_is_stopped true
         (set_simulation_timer false s)))))).
Proof.
  intros HR Hd. rewrite press_no_steering, Hd, HR by auto. reflexivity.
Qed.

Lemma press_Slash (e : QKeyEvent) (s : Simulator) :
  key e = Key_Slash -> debug s = true ->
  keyPressEvent e s
  = if negb (is_finished s)
    then (if is_stopped s then start_simulation s else stop_simulation s)
    else Returns tt (set_simulation_timer true (set_is_stopped false (reset_state s))).
Proof.
  intros HS Hd. rewrite press_no_steering, Hd, HS by auto. reflexivity.
Qed.

(** C7.  [reset_simulation] empties the path of every aircraft of the
    collection, drops them, installs two new aircraft (aircraft 0 at
    (100, 100) on course 45, aircraft 1 at (900, 100) on course 135, both
    at speed 2) and lowers [is_finished].  No other method lowers
    [is_finished]: a call that finds it up and leaves it down is
    [reset_simulation] itself or a press of R or "/" in debug mode, the
    two branches of the key handler that call it. *)
Theorem reset_simulation_rebuilds (s : Simulator) (m : Method) :
  reset_simulation s = Returns tt (reset_state s)
  /\ discarded (reset_state s) = discarded s ++ map clear_path (aircrafts s)
  /\ length (map clear_path (aircrafts s)) = length (aircrafts s)
  /\ (forall a, a ∈ map clear_path (aircrafts s) -> path a = [])
  /\ aircrafts (reset_state s) = initial_aircrafts
  /\ aircraft_id <$> initial_aircrafts = [0; 1]
  /\ position <$> initial_aircrafts = [mkPoint 100 100; mkPoint 900 100]
  /\ course <$> initial_aircrafts = [45%Q; 135%Q]
  /\ yaw_angle <$> initial_aircrafts = [45%Q; 135%Q]
  /\ speed <$> initial_aircrafts = [2%Q; 2%Q]
  /\ is_finished (reset_state s) = false
  /\ (is_finished s = true -> is_finished (call m s) = false ->
      m = Call_reset_simulation
      \/ exists e, m = Call_keyPressEvent e /\ debug s = true
           /\ (key e = Key_R \/ key e = Key_Slash)
           /\ aircrafts (call m s) = initial_aircrafts).
Proof.
  split; [reflexivity |]. split; [reflexivity |].
  split; [apply length_map |].
  split.
  { intros a Ha. apply list_elem_of_fmap in Ha as (b & -> & _). reflexivity. }
  do 7 (split; [reflexivity |]).
  intros Hfin Hcleared.
  destruct m; cbn [call] in Hcleared.
  1-8: exfalso; revert Hcleared; apply eq_true_false_abs.
  - now apply start_simulation_finished.
  - now apply stop_simulation_finished.
  - now apply avoid_finished.
  - now apply check_safezones_finished.
  - now apply check_collision_finished.
  - now apply check_offscreen_finished.
  - now apply cause_collision_finished.
  - now apply update_simulation_finished.
  - now left.
  - right. exists e. split; [reflexivity |].
    destruct (press_run_state e s) as [(Hf & _) | (Hd & Hkey)];
      [congruence |].
    split; [exact Hd |]. split; [exact Hkey |]. cbn [call].
    destruct Hkey as [HR | HS].
    + now rewrite press_R.
    + rewrite press_Slash, Hfin by assumption. reflexivity.
Qed.

(** C8.  In debug mode the "/" key resumes a stopped simulation, pauses a
    running one, and on a finished one runs [reset_simulation] and then
    [start_simulation].  From a finished simulation a key press either
    leaves the run state as it is, or is R or "/" in debug mode and ends
    running with the rebuilt collection and [is_finished] down: there is
    no way from Finished to Running that keeps the finished run. *)
Theorem resume_only_when_not_finished (e : QKeyEvent) (s : Simulator) :
  (key e = Key_Slash -> debug s = true ->
   (mode s = Stopped ->
    keyPressEvent e s = start_simulation s
    /\ mode (final_state (keyPressEvent e s)) = Running
    /\ aircrafts (final_state (keyPressEvent e s)) = aircrafts s)
   /\ (mode s = Running ->
       keyPressEvent e s = stop_simulation s
       /\ mode (final_state (keyPressEvent e s)) = Stopped)
   /\ (mode s = Finished ->
       keyPressEvent e s = bind reset_simulation (fun _ => start_simulation) s
       /\ mode (final_state (keyPressEvent e s)) = Running
       /\ aircrafts (final_state (keyPressEvent e s)) = initial_aircrafts))
  /\ (mode s = Finished ->
      (is_finished (final_state (keyPressEvent e s)) = is_finished s
       /\ is_stopped (final_state (keyPressEvent e s)) = is_stopped s
       /\ simulation_timer (final_state (keyPressEvent e s)) = simulation_timer s)
      \/ (debug s = true /\ (key e = Key_R \/ key e = Key_Slash)
          /\ mode (final_state (keyPressEvent e s)) = Running
          /\ simulation_timer (final_state (keyPressEvent e s)) = true
          /\ aircrafts (final_state (keyPressEvent e s)) = initial_aircrafts
          /\ discarded (final_state (keyPressEvent e s))
             = discarded s ++ map clear_path (aircrafts s))).
Proof.
  split.
  - intros HS Hd. rewrite press_Slash by assumption. unfold mode.
    destruct (is_finished s) eqn:Hf, (is_stopped s) eqn:Hp; cbn [negb];
      (split; [| split]); intros Hm; try discriminate;
      repeat split; cbn; rewrite ?Hf; reflexivity.
  - intros Hm. assert (Hf : is_finished s = true)
      by (unfold mode in Hm; destruct (is_finished s); [reflexivity |];
          destruct (is_stopped s); discriminate).
    destruct (press_run_state e s) as [Hsame | (Hd & Hkey)]; [now left | right].
    split; [exact Hd |]. split; [exact Hkey |].
    destruct Hkey as [HR | HS].
    + rewrite press_R by assumption. now repeat split.
    + rewrite press_Slash, Hf by assumption. now repeat split.
Qed.

(** ** The key handler in closed form *)

Lemma bind_when {B} (b : bool) (f : Simulator -> Simulator) (k : unit -> M B)
    (s : Simulator) :
  bind (if b then modify f else ret tt) k s = k tt (if b then f s else s).
Proof. now destruct b. Qed.

Lemma bind_when_both {B} (b1 b2 : bool) (f : Simulator -> Simulator)
    (k : unit -> M B) (s : Simulator) :
  bind (if b1 then (if b2 then modify f else ret tt) else ret tt) k s
  = k tt (if b1 && b2 then f s else s).
Proof. now destruct b1, b2. Qed.

Lemma steer_eq (k : nat) (k1 k2 k3 k4 k5 k6 k7 k8 : Key) (e : QKeyEvent)
    (a : Aircraft) (s : Simulator) :
  aircrafts s !! k = Some a ->
  steer k k1 k2 k3 k4 k5 k6 k7 k8 e s
  = Returns tt (mark k (steered k1 k2 k3 k4 k5 k6 k7 k8 e a) s).
Proof.
  intros Ha. unfold steer, steered, bind at 1.
  rewrite (aircraft_at_nat _ _ _ Ha).
  repeat match goal with
         | |- context [if Key_eqb ?x ?y then _ else _] =>
             destruct (Key_eqb x y)
         end;
    try (rewrite (update_aircraft_eq _ _ _ _ Ha); reflexivity);
    try (rewrite (mark_same _ _ _ Ha); reflexivity).
  destruct (Qlt_bool 1 (speed a)).
  - now rewrite (update_aircraft_eq _ _ _ _ Ha).
  - now rewrite (mark_same _ _ _ Ha).
Qed.

(** Past the gate, the handler steers the first two aircraft and runs the
    shortcut of the key. *)
Lemma past_gate_eq (e : QKeyEvent) (s : Simulator) :
  bind len_aircrafts (fun n =>
    bind (if (1 <=? n)%nat
          then steer 0 Key_D Key_S Key_A Key_W Key_F2 Key_F3 Key_Y Key_U e
          else ret tt)
      (fun _ =>
         bind (if (2 <=? n)%nat
               then steer 1 Key_L Key_K Key_J Key_I Key_F6 Key_F7 Key_O Key_P e
               else ret tt)
           (fun _ => run_shortcut e))) s
  = run_shortcut e (set_aircrafts (steering e (aircrafts s)) s).
Proof.
  unfold bind at 1, len_aircrafts, gets.
  destruct (aircrafts s) as [| a0 [| a1 rest]] eqn:Hl; cbn [length Nat.leb].
  - unfold bind, ret, steering. now rewrite <- Hl, set_aircrafts_same.
  - assert (L0 : aircrafts s !! 0%nat = Some a0) by now rewrite Hl.
    unfold bind at 1. rewrite (steer_eq _ _ _ _ _ _ _ _ _ _ _ _ L0).
    unfold bind, ret, mark, steering. now rewrite Hl.
  - assert (L0 : aircrafts s !! 0%nat = Some a0) by now rewrite Hl.
    unfold bind at 1. rewrite (steer_eq _ _ _ _ _ _ _ _ _ _ _ _ L0).
    unfold bind at 1.
    rewrite (steer_eq 1 _ _ _ _ _ _ _ _ e a1).
    + unfold mark, steering. cbn [aircrafts set_aircrafts]. now rewrite Hl.
    + unfold mark. cbn [aircrafts set_aircrafts]. now rewrite Hl.
Qed.

Lemma keyPressEvent_eq (e : QKeyEvent) (s : Simulator) :
  keyPressEvent e s
  = if debug (pre_gate e s)
    then run_shortcut e
           (set_aircrafts (steering e (aircrafts s)) (pre_gate e s))
    else Returns tt (pre_gate e s).
Proof.
  assert (Hl : aircrafts (pre_gate e s) = aircrafts s).
  { unfold pre_gate.
    now destruct (Key_eqb (key e) Key_QuoteLeft),
      (modifiers e && Key_eqb (key e) Key_C), (Key_eqb (key e) Key_Escape). }
  rewrite <- Hl.
  unfold keyPressEvent. rewrite bind_when, bind_when_both, bind_when.
  match goal with
  | |- bind (gets debug) _ ?x = _ => change x with (pre_gate e s)
  end.
  generalize (pre_gate e s). intros s1.
  unfold bind at 1, gets at 1. destruct (debug s1); [| reflexivity].
  cbn [negb]. apply past_gate_eq.
Qed.

Lemma start_simulation_eq (s : Simulator) :
  start_simulation s = Returns tt (set_simulation_timer true (set_is_stopped false s)).
Proof. reflexivity. Qed.

Lemma stop_simulation_eq (s : Simulator) :
  stop_simulation s
  = Returns tt (set_current_simulation_fps 0
                  (set_is_stopped true (set_simulation_timer false s))).
Proof. reflexivity. Qed.

Lemma run_shortcut_returns (e : QKeyEvent) (s : Simulator) :
  exists s', run_shortcut e s = Returns tt s'.
Proof.
  unfold run_shortcut. destruct (key e); try (eexists; reflexivity).
  unfold bind, gets.
  destruct (is_finished s); cbn [negb]; cbv beta iota;
    [eexists; reflexivity |].
  destruct (is_stopped s); eexists; reflexivity.
Qed.

Lemma steering_length (e : QKeyEvent) (l : list Aircraft) :
  length (steering e l) = length l.
Proof. now destruct l as [| a0 [| a1 rest]]. Qed.

Lemma steering_plain (e : QKeyEvent) (l : list Aircraft) :
  is_plain_key (key e) = true \/ key e = Key_QuoteLeft -> steering e l = l.
Proof.
  intros Hk. unfold steering, steered_first, steered_second, steered.
  destruct (key e); destruct Hk as [Hk | Hk]; try discriminate;
    now destruct l as [| a0 [| a1 rest]].
Qed.

Lemma pre_gate_plain (e : QKeyEvent) (s : Simulator) :
  is_plain_key (key e) = true -> pre_gate e s = s.
Proof.
  intros Hk. unfold pre_gate.
  destruct (key e); try discriminate; cbn [Key_eqb]; now rewrite andb_false_r.
Qed.

Lemma press_plain (e : QKeyEvent) (s : Simulator) :
  is_plain_key (key e) = true ->
  keyPressEvent e s = if debug s then run_shortcut e s else Returns tt s.
Proof.
  intros Hk. rewrite keyPressEvent_eq, pre_gate_plain by exact Hk.
  rewrite steering_plain by (left; exact Hk). now rewrite set_aircrafts_same.
Qed.

Lemma pre_gate_frame (e : QKeyEvent) (s : Simulator) :
  aircrafts (pre_gate e s) = aircrafts s
  /\ stdout (pre_gate e s) = stdout s
  /\ resolution (pre_gate e s) = resolution s
  /\ is_finished (pre_gate e s) = is_finished s
  /\ is_stopped (pre_gate e s) = is_stopped s
  /\ simulation_timer (pre_gate e s) = simulation_timer s.
Proof.
  unfold pre_gate.
  now destruct (Key_eqb (key e) Key_QuoteLeft),
    (modifiers e && Key_eqb (key e) Key_C), (Key_eqb (key e) Key_Escape).
Qed.

(** A shortcut returns, prints nothing, and either keeps the collection or
    installs the initial one. *)
Lemma run_shortcut_effect (e : QKeyEvent) (s : Simulator) :
  exists s', run_shortcut e s = Returns tt s'
    /\ stdout s' = stdout s /\ resolution s' = resolution s
    /\ (aircrafts s' = aircrafts s \/ aircrafts s' = initial_aircrafts).
Proof.
  unfold run_shortcut. destruct (key e);
    try (eexists; split; [reflexivity |]; repeat split; now left).
  - eexists. split; [reflexivity |]. repeat split. now right.
  - unfold bind, gets. destruct (is_finished s); cbn [negb]; cbv beta iota.
    + eexists. split; [reflexivity |]. repeat split. now right.
    + destruct (is_stopped s); eexists; (split; [reflexivity |]);
        repeat split; now left.
Qed.

Lemma keyPressEvent_effect (e : QKeyEvent) (s : Simulator) :
  exists s', keyPressEvent e s = Returns tt s'
    /\ stdout s' = stdout s /\ resolution s' = resolution s
    /\ (aircrafts s' = aircrafts s \/ aircrafts s' = steering e (aircrafts s)
        \/ aircrafts s' = initial_aircrafts).
Proof.
  rewrite keyPressEvent_eq.
  destruct (pre_gate_frame e s) as (Hl & Ho & Hr & _).
  destruct (debug (pre_gate e s)).
  - destruct (run_shortcut_effect e
                (set_aircrafts (steering e (aircrafts s)) (pre_gate e s)))
      as (s' & Hrun & Ho' & Hr' & Hl').
    exists s'. split; [exact Hrun |].
    split; [now rewrite Ho' |]. split; [now rewrite Hr' |].
    destruct Hl' as [Hsame | Hfresh]; [right; left; exact Hsame | now right; right].
  - exists (pre_gate e s). repeat split; auto.
Qed.

(** X1.  A key press never raises, whatever the collection holds: the two
    steering chains are guarded by its length, so even with no aircraft or
    one the handler returns.  It prints nothing, and it keeps the number of
    aircraft unless it installs the initial pair. *)
Theorem keyPressEvent_never_raises (e : QKeyEvent) (s : Simulator) :
  exists s', keyPressEvent e s = Returns tt s'
    /\ stdout s' = stdout s
    /\ (length (aircrafts s') = length (aircrafts s)
        \/ aircrafts s' = initial_aircrafts).
Proof.
  destruct (keyPressEvent_effect e s) as (s' & Hrun & Ho & _ & Hl).
  exists s'. split; [exact Hrun |]. split; [exact Ho |].
  destruct Hl as [-> | [-> | ->]]; auto. left. apply steering_length.
Qed.

Lemma set_closed_same (s : Simulator) : set_closed (closed s) s = s.
Proof. now destruct s. Qed.

(** X2.  With [debug] off the handler stops at its gate: a key other than
    the backquote changes nothing but, for Escape and for C with a
    modifier, the closed flag; steering keys, R, "/" and the toggles are
    ignored.  The backquote turns [debug] on and does nothing else. *)
Theorem release_mode_ignores_keys (e : QKeyEvent) (s : Simulator) :
  debug s = false ->
  (key e <> Key_QuoteLeft ->
   keyPressEvent e s
   = Returns tt
       (if (modifiers e && Key_eqb (key e) Key_C) || Key_eqb (key e) Key_Escape
        then set_closed true s else s))
  /\ (key e = Key_QuoteLeft -> keyPressEvent e s = Returns tt (set_debug true s)).
Proof.
  intros Hd. split; intros Hk; rewrite keyPressEvent_eq.
  - assert (Hq : Key_eqb (key e) Key_QuoteLeft = false)
      by (destruct (key e); try reflexivity; contradiction).
    unfold pre_gate. rewrite Hq.
    destruct (modifiers e && Key_eqb (key e) Key_C),
      (Key_eqb (key e) Key_Escape); cbn; now rewrite Hd.
  - rewrite steering_plain by (right; exact Hk).
    unfold pre_gate, run_shortcut. rewrite Hk. cbn [Key_eqb].
    rewrite andb_false_r, Hd. reflexivity.
Qed.

(** X3.  Pause and resume undo each other: on a running, unfinished
    simulation in debug mode, "/" pauses (timer off, [is_stopped] up) and
    a second "/" gives back the state before the first, but for the
    displayed rate, which [stop_simulation] has set to 0. *)
Theorem pause_resume_round_trip (e : QKeyEvent) (s : Simulator) :
  key e = Key_Slash -> debug s = true ->
  is_finished s = false -> is_stopped s = false -> simulation_timer s = true ->
  exists paused, keyPressEvent e s = Returns tt paused
    /\ mode paused = Stopped /\ simulation_timer paused = false
    /\ aircrafts paused = aircrafts s
    /\ keyPressEvent e paused = Returns tt (set_current_simulation_fps 0 s).
Proof.
  intros Hk Hd Hf Hp Ht.
  assert (Hplain : is_plain_key (key e) = true) by now rewrite Hk.
  exists (set_current_simulation_fps 0
            (set_is_stopped true (set_simulation_timer false s))).
  rewrite !press_plain by exact Hplain.
  unfold run_shortcut. rewrite Hk. unfold bind, gets, mode. cbn.
  rewrite Hd, Hf. cbn [negb]. cbv beta iota. rewrite Hp. cbn.
  repeat split. destruct s. cbn in *. now subst.
Qed.

(** X4.  The keys 2 to 8 are switches: in debug mode, pressing one of them
    twice gives back the simulator as it was. *)
Theorem toggle_keys_twice (e : QKeyEvent) (s : Simulator) :
  is_toggle_key (key e) = true -> debug s = true ->
  exists s1, keyPressEvent e s = Returns tt s1
    /\ s1 <> s /\ keyPressEvent e s1 = Returns tt s.
Proof.
  intros Hk Hd. destruct e as [k m]. cbn [key] in Hk.
  destruct k; try discriminate;
    (eexists; rewrite !press_plain by reflexivity; rewrite Hd;
     unfold run_shortcut; cbn [key]; (split; [reflexivity |]);
     cbn; rewrite Hd;
     (split; [| destruct s; unfold modify; cbn; now rewrite negb_involutive]));
    intros Heq.
  - apply (f_equal display_program_info) in Heq. cbn in Heq.
    now destruct (display_program_info s).
  - apply (f_equal display_course_trajectory) in Heq. cbn in Heq.
    now destruct (display_course_trajectory s).
  - apply (f_equal display_yaw_trajectory) in Heq. cbn in Heq.
    now destruct (display_yaw_trajectory s).
  - apply (f_equal display_safezone) in Heq. cbn in Heq.
    now destruct (display_safezone s).
  - apply (f_equal display_paths) in Heq. cbn in Heq.
    now destruct (display_paths s).
  - apply (f_equal cause_crash_second) in Heq. cbn in Heq.
    now destruct (cause_crash_second s).
  - apply (f_equal display_hitboxes) in Heq. cbn in Heq.
    now destruct (display_hitboxes s).
Qed.

(** X5.  Key 1 steps [display_aircraft_info] through 0, 1, 2 and back to
    0: in debug mode the value after a press is the successor modulo 3 of
    a value in that range, any larger value falls to 0, and three presses
    give back the simulator as it was. *)
Theorem info_key_cycles (e : QKeyEvent) (s : Simulator) :
  key e = Key_1 -> debug s = true ->
  exists s1 s2, keyPressEvent e s = Returns tt s1
    /\ keyPressEvent e s1 = Returns tt s2
    /\ (0 <= display_aircraft_info s <= 2 ->
        display_aircraft_info s1 = (display_aircraft_info s + 1) mod 3
        /\ keyPressEvent e s2 = Returns tt s)
    /\ (2 <= display_aircraft_info s -> display_aircraft_info s1 = 0).
Proof.
  intros Hk Hd.
  assert (Hplain : is_plain_key (key e) = true) by now rewrite Hk.
  eexists _, _. rewrite !press_plain by exact Hplain. rewrite Hd.
  unfold run_shortcut. rewrite Hk.
  split; [reflexivity |]. cbn. rewrite Hd. split; [reflexivity |]. split.
  - intros Hrange.
    assert (Hv : display_aircraft_info s = 0 \/ display_aircraft_info s = 1
                 \/ display_aircraft_info s = 2) by lia.
    destruct s. cbn in *. destruct Hv as [-> | [-> | ->]]; subst; now split.
  - intros Hbig. destruct (Z.ltb_spec 2 (display_aircraft_info s + 1)); lia.
Qed.

(** ** Steering keeps headings and speeds sound *)

Lemma Qlt_bool_iff (a b : Q) : Qlt_bool a b = true <-> (a < b)%Q.
Proof.
  unfold Qlt_bool. rewrite negb_true_iff.
  split.
  - intros H. apply Qnot_le_lt. intros Hle.
    apply Qle_bool_iff in Hle. congruence.
  - intros H. apply not_true_is_false. intros Hle.
    apply Qle_bool_iff in Hle. now apply Qlt_not_le in H.
Qed.

Lemma Qlt_bool_false (a b : Q) : Qlt_bool a b = false -> (b <= a)%Q.
Proof.
  unfold Qlt_bool. rewrite negb_false_iff. apply Qle_bool_iff.
Qed.

Lemma Qle_bool_false (a b : Q) : Qle_bool a b = false -> (b < a)%Q.
Proof.
  intros H. apply Qnot_le_lt. intros Hle. apply Qle_bool_iff in Hle. congruence.
Qed.

Lemma inject_Z_pred (n : Z) : (inject_Z n - 1 == inject_Z (n - 1))%Q.
Proof. unfold Qeq, Qminus, Qplus, inject_Z. cbn. lia. Qed.

Lemma inject_Z_succ (n : Z) : (inject_Z n + 1 == inject_Z (n + 1))%Q.
Proof. unfold Qeq, Qplus, inject_Z. cbn. lia. Qed.

Lemma steered_whole_speed (k1 k2 k3 k4 k5 k6 k7 k8 : Key) (e : QKeyEvent)
    (a : Aircraft) :
  whole_speed a -> whole_speed (steered k1 k2 k3 k4 k5 k6 k7 k8 e a).
Proof.
  unfold whole_speed, steered. intros (n & Hn & Hs).
  repeat match goal with
         | |- context [if Key_eqb ?x ?y then _ else _] =>
             destruct (Key_eqb x y)
         end;
    cbn [speed set_course set_speed]; try (exists n; split; assumption).
  - destruct (Qlt_bool 1 (speed a)) eqn:Hgt; cbn [speed set_speed];
      [| exists n; split; assumption].
    apply Qlt_bool_iff in Hgt. rewrite Hs in Hgt.
    exists (n - 1). split.
    + unfold Qlt, inject_Z in Hgt. cbn in Hgt. lia.
    + rewrite Hs. apply inject_Z_pred.
  - exists (n + 1). split; [lia |]. rewrite Hs. apply inject_Z_succ.
Qed.

Lemma steered_positive_speed (k1 k2 k3 k4 k5 k6 k7 k8 : Key) (e : QKeyEvent)
    (a : Aircraft) :
  (0 < speed a)%Q -> (0 < speed (steered k1 k2 k3 k4 k5 k6 k7 k8 e a))%Q.
Proof.
  unfold steered. intros Hpos.
  repeat match goal with
         | |- context [if Key_eqb ?x ?y then _ else _] =>
             destruct (Key_eqb x y)
         end;
    cbn [speed set_course set_speed]; try assumption.
  - destruct (Qlt_bool 1 (speed a)) eqn:Hgt; cbn [speed set_speed];
      [| assumption].
    apply Qlt_bool_iff in Hgt. lra.
  - lra.
Qed.

Lemma elem_of_steering (e : QKeyEvent) (l : list Aircraft) (a' : Aircraft) :
  a' ∈ steering e l ->
  exists a, a ∈ l
    /\ (a' = a \/ a' = steered_first e a \/ a' = steered_second e a).
Proof.
  destruct l as [| a0 [| a1 rest]]; cbn [steering]; intros Hin.
  - now apply elem_of_nil in Hin.
  - apply list_elem_of_singleton in Hin. exists a0.
    split; [apply elem_of_cons; now left | auto].
  - apply elem_of_cons in Hin as [-> | Hin].
    { exists a0. split; [apply elem_of_cons; now left | auto]. }
    apply elem_of_cons in Hin as [-> | Hin].
    { exists a1. split; [| auto].
      apply elem_of_cons. right. apply elem_of_cons. now left. }
    exists a'. split; [| auto].
    apply elem_of_cons. right. apply elem_of_cons. now right.
Qed.

(** What holds of every aircraft after a key press, from what held
    before: enough that steering carries it over and that the initial
    pair has it. *)
Lemma keyPressEvent_aircrafts (P R : Aircraft -> Prop) (e : QKeyEvent)
    (s : Simulator) :
  (forall a, P a -> R a) ->
  (forall a, P a -> R (steered_first e a) /\ R (steered_second e a)) ->
  (forall a, a ∈ initial_aircrafts -> R a) ->
  (forall a, a ∈ aircrafts s -> P a) ->
  forall a', a' ∈ aircrafts (final_state (keyPressEvent e s)) -> R a'.
Proof.
  intros Hsame Hsteer Hinit Hall a' Hin.
  destruct (keyPressEvent_effect e s) as (s' & Hrun & _ & _ & Hl).
  rewrite Hrun in Hin. cbn [final_state] in Hin.
  destruct Hl as [Hl | [Hl | Hl]]; rewrite Hl in Hin.
  - now apply Hsame, Hall.
  - apply elem_of_steering in Hin as (a & Ha & [-> | [-> | ->]]).
    + now apply Hsame, Hall.
    + now apply Hsteer, Hall.
    + now apply Hsteer, Hall.
  - now apply Hinit.
Qed.

Lemma initial_aircrafts_inv (a : Aircraft) :
  a ∈ initial_aircrafts ->
  ((course a == 45)%Q \/ (course a == 135)%Q) /\ (speed a == 2)%Q.
Proof.
  unfold initial_aircrafts. intros Hin.
  apply elem_of_cons in Hin as [-> | Hin]; [split; [left |]; reflexivity |].
  apply list_elem_of_singleton in Hin as ->. split; [right |]; reflexivity.
Qed.

(** X7.  Key presses never bring a speed to 0 or below, and speeds that
    are whole numbers of at least 1 stay so: the slow-down key subtracts 1
    only from a speed above 1, the speed-up key adds 1, and a reset
    installs speed 2. *)
Theorem key_press_keeps_speed (e : QKeyEvent) (s : Simulator) :
  ((forall a, a ∈ aircrafts s -> (0 < speed a)%Q) ->
   forall a', a' ∈ aircrafts (final_state (keyPressEvent e s)) ->
   (0 < speed a')%Q)
  /\ ((forall a, a ∈ aircrafts s -> whole_speed a) ->
      forall a', a' ∈ aircrafts (final_state (keyPressEvent e s)) ->
      exists n : Z, 1 <= n /\ (speed a' == inject_Z n)%Q).
Proof.
  split.
  - apply (keyPressEvent_aircrafts (fun a => (0 < speed a)%Q)
             (fun a => (0 < speed a)%Q)); auto.
    + intros a Ha. split; now apply steered_positive_speed.
    + intros a Ha. apply initial_aircrafts_inv in Ha as [_ Hs].
      rewrite Hs. lra.
  - apply (keyPressEvent_aircrafts whole_speed whole_speed); auto.
    + intros a Ha. split; now apply steered_whole_speed.
    + intros a Ha. apply initial_aircrafts_inv in Ha as [_ Hs].
      exists 2. split; [lia | exact Hs].
Qed.

(** ** Reachable states *)

Lemma print_run_state (Q : bool -> bool -> bool -> Prop) (e : Event) :
  preserves (on_run_state Q) (print e).
Proof. unfold print. frame. Qed.

Lemma avoid_run_state (Q : bool -> bool -> bool -> Prop) (id : Z) :
  preserves (on_run_state Q) (avoid_aircraft_collision id).
Proof.
  unfold avoid_aircraft_collision, len_aircrafts.
  frame; apply print_run_state.
Qed.

Lemma safezone_test_run_state (R : bool -> bool -> bool -> Prop) (k : nat)
    (d2 : Q) :
  preserves (on_run_state R) (safezone_test k d2).
Proof.
  unfold safezone_test.
  frame; first [apply print_run_state | apply update_aircraft_run_state
               | apply avoid_run_state].
Qed.

Lemma check_safezones_run_state (Q : bool -> bool -> bool -> Prop) :
  preserves (on_run_state Q) check_safezones.
Proof.
  unfold check_safezones, safezone_pair, len_aircrafts.
  frame; apply safezone_test_run_state.
Qed.

(** The run state a tick that returns starts its checks from is the one
    it was fired in. *)
Lemma tick_returns_inv (fps : Q) (s s' : Simulator) :
  update_simulation fps s = Returns tt s' ->
  exists s2, s' = after_checks s2
    /\ check_safezones (advance fps s) = Returns tt s2
    /\ is_finished s2 = is_finished s
    /\ is_stopped s2 = is_stopped s
    /\ simulation_timer s2 = simulation_timer s.
Proof.
  intros Hrun.
  pose proof (check_safezones_run_state
                (fun f p t => f = is_finished s /\ p = is_stopped s
                              /\ t = simulation_timer s)
                (advance fps s)) as Hkeep.
  destruct (check_safezones (advance fps s)) as [[] s2 | e s2] eqn:Hpass.
  - rewrite (update_simulation_returns fps s s2 Hpass) in Hrun.
    injection Hrun as <-. exists s2. split; [reflexivity |].
    split; [reflexivity |]. apply Hkeep. now repeat split.
  - rewrite (update_simulation_raises fps e s s2 Hpass) in Hrun. discriminate.
Qed.

Lemma coherent_after_checks (s2 : Simulator) :
  simulation_timer s2 = true -> is_finished s2 = false ->
  coherent (after_checks s2).
Proof.
  intros Ht Hf. unfold after_checks, coherent.
  destruct (any_collision (aircrafts s2)); [now split |].
  destruct (any_offscreen (resolution s2) (aircrafts s2)); [now split |].
  unfold retargeted. cbn [aircrafts set_is_stopped].
  destruct (cause_crash_second s2);
    [destruct (aircrafts s2) as [| ? [| ? ?]] |];
    cbn; rewrite Ht, Hf; now split.
Qed.

Lemma coherent_run_shortcut (e : QKeyEvent) (s : Simulator) :
  coherent s -> coherent (final_state (run_shortcut e s)).
Proof.
  unfold coherent, run_shortcut. intros [Hm Hf].
  destruct (key e); try (split; assumption); try (now split).
  unfold bind, gets.
  destruct (is_finished s) eqn:Ef; cbn [negb]; cbv beta iota; [now split |].
  destruct (is_stopped s); cbn; rewrite Ef; now split.
Qed.

Lemma coherent_keyPressEvent (e : QKeyEvent) (s : Simulator) :
  coherent s -> coherent (final_state (keyPressEvent e s)).
Proof.
  intros Hc. rewrite keyPressEvent_eq.
  assert (Hg : forall l, coherent (set_aircrafts l (pre_gate e s))).
  { intros l. destruct (pre_gate_frame e s) as (_ & _ & _ & Hf & Hp & Ht).
    unfold coherent in *. cbn. now rewrite Hf, Hp, Ht. }
  destruct (debug (pre_gate e s)).
  - apply coherent_run_shortcut, Hg.
  - cbn [final_state]. rewrite <- (set_aircrafts_same (pre_gate e s)). apply Hg.
Qed.

(** X9.  In every state the program can reach, [is_stopped] is the
    negation of "the simulation timer is active", and a finished
    simulation is stopped: the constructor, every key press, and every
    tick fired while the timer runs keep both. *)
Theorem reachable_coherent (res : Z * Z) (s : Simulator) :
  reachable res s ->
  is_stopped s = negb (simulation_timer s)
  /\ (is_finished s = true -> is_stopped s = true).
Proof.
  induction 1 as [| s s' i Hreach IH Hen Hrun]; [now split |].
  destruct i as [fps | e]; cbn [react enabled] in *.
  - destruct (tick_returns_inv fps s s' Hrun) as (s2 & -> & _ & Hf & Hp & Ht).
    destruct IH as [Hm Hfin].
    apply coherent_after_checks; [congruence |].
    rewrite Hf. destruct (is_finished s); [| reflexivity].
    rewrite Hfin, Hen in Hm by reflexivity. discriminate.
  - pose proof (coherent_keyPressEvent e s IH) as Hc.
    now rewrite Hrun in Hc.
Qed.

Lemma steered_id (k1 k2 k3 k4 k5 k6 k7 k8 : Key) (e : QKeyEvent)
    (a : Aircraft) :
  aircraft_id (steered k1 k2 k3 k4 k5 k6 k7 k8 e a) = aircraft_id a.
Proof.
  unfold steered.
  repeat match goal with
         | |- context [if Key_eqb ?x ?y then _ else _] =>
             destruct (Key_eqb x y)
         end; try reflexivity.
  now destruct (Qlt_bool 1 (speed a)).
Qed.

Lemma well_numbered_steering (e : QKeyEvent) (l : list Aircraft) :
  well_numbered l -> well_numbered (steering e l).
Proof.
  intros (a0 & a1 & -> & H0 & H1).
  exists (steered_first e a0), (steered_second e a1).
  unfold steered_first, steered_second. rewrite !steered_id. now split.
Qed.

Lemma well_numbered_initial : well_numbered initial_aircrafts.
Proof. eexists _, _. now split. Qed.

Lemma well_numbered_keyPressEvent (e : QKeyEvent) (s : Simulator) :
  well_numbered (aircrafts s) ->
  exists s', keyPressEvent e s = Returns tt s' /\ well_numbered (aircrafts s').
Proof.
  intros Hw. destruct (keyPressEvent_effect e s) as (s' & Hrun & _ & _ & Hl).
  exists s'. split; [exact Hrun |].
  destruct Hl as [-> | [-> | ->]];
    [exact Hw | now apply well_numbered_steering | apply well_numbered_initial].
Qed.

Lemma after_checks_aircrafts (s2 : Simulator) :
  aircrafts (after_checks s2) = aircrafts s2
  \/ aircrafts (after_checks s2) = aircrafts (retargeted s2).
Proof.
  unfold after_checks.
  destruct (any_collision (aircrafts s2)); [now left |].
  destruct (any_offscreen (resolution s2) (aircrafts s2)); [now left |].
  destruct (cause_crash_second s2); [right | now left].
  unfold retargeted. cbn [aircrafts set_is_stopped].
  now destruct (aircrafts s2) as [| ? [| ? ?]].
Qed.

Lemma well_numbered_retargeted (s : Simulator) :
  well_numbered (aircrafts s) -> well_numbered (aircrafts (retargeted s)).
Proof.
  intros (a0 & a1 & Hl & H0 & H1). unfold retargeted. rewrite Hl.
  unfold mark. cbn [aircrafts set_aircrafts]. rewrite Hl.
  eexists _, _. split; [reflexivity |]. now split.
Qed.

Section Numbered.

(** The kinematics step keeps the id of the aircraft. *)
Hypothesis step_keeps_id :
  forall a, aircraft_id (update_position a) = aircraft_id a.

Lemma well_numbered_tick (fps : Q) (s : Simulator) :
  well_numbered (aircrafts s) ->
  exists s', update_simulation fps s = Returns tt s'
    /\ well_numbered (aircrafts s').
Proof.
  intros (a0 & a1 & Hl & H0 & H1).
  assert (Hadv : aircrafts (advance fps s)
                 = [update_position a0; update_position a1])
    by (unfold advance; cbn; now rewrite Hl).
  pose proof (check_safezones_two (advance fps s) _ _ Hadv
                (eq_trans (step_keeps_id a0) H0)
                (eq_trans (step_keeps_id a1) H1)) as Hpass.
  exists (after_checks (after_pass (update_position a0) (update_position a1)
                          (advance fps s))).
  split; [now apply update_simulation_returns |].
  assert (Hw : well_numbered
                 (aircrafts (after_pass (update_position a0)
                               (update_position a1) (advance fps s)))).
  { eexists _, _. split; [reflexivity |]. cbn. now rewrite !step_keeps_id. }
  destruct (after_checks_aircrafts
              (after_pass (update_position a0) (update_position a1)
                 (advance fps s))) as [-> | ->];
    [exact Hw | now apply well_numbered_retargeted].
Qed.

(** X8.  From construction on, under any sequence of key presses and
    ticks, the collection holds exactly two aircraft whose ids are their
    positions 0 and 1, and every handler returns: neither the id check of
    the conflict trigger nor an out-of-range subscript is ever hit. *)
Theorem reachable_well_numbered (res : Z * Z) (s : Simulator) :
  reachable res s ->
  (exists a0 a1, aircrafts s = [a0; a1]
     /\ aircraft_id a0 = 0 /\ aircraft_id a1 = 1)
  /\ (forall i, exists s', react i s = Returns tt s')
  /\ (forall id, id = 0 \/ id = 1 ->
      exists evs, avoid_aircraft_collision id s = Returns tt (say evs s)).
Proof.
  intros Hreach.
  assert (Hw : well_numbered (aircrafts s)).
  { induction Hreach as [| s s' i Hreach IH Hen Hrun];
      [apply well_numbered_initial |].
    destruct i as [fps | e]; cbn [react] in Hrun.
    - destruct (well_numbered_tick fps s IH) as (t & Ht & Hw). congruence.
    - destruct (well_numbered_keyPressEvent e s IH) as (t & Ht & Hw).
      congruence. }
  split; [exact Hw |]. split.
  - intros [fps | e]; cbn [react].
    + destruct (well_numbered_tick fps s Hw) as (t & Ht & _). now exists t.
    + destruct (well_numbered_keyPressEvent e s Hw) as (t & Ht & _).
      now exists t.
  - destruct Hw as (a0 & a1 & Hl & H0 & H1). intros id Hid.
    rewrite avoid_outcome, Hl.
    destruct (trigger_output_two a0 a1 H0 H1) as [T0 T1].
    destruct Hid as [-> | ->]; [rewrite T0 | rewrite T1]; eauto.
Qed.

End Numbered.

(** ** The injection, the trigger and short collections *)

(** X10.  The scripted injection never raises and writes one field: the
    course of aircraft 1, set to the bearing of aircraft 0 as seen from
    it.  With fewer than two aircraft it does nothing, and running it
    twice is the same as running it once. *)
Theorem cause_collision_only_retargets (s : Simulator) :
  cause_collision s = Returns tt (retargeted s)
  /\ ((length (aircrafts s) < 2)%nat -> retargeted s = s)
  /\ (forall target aircraft rest,
        aircrafts s = target :: aircraft :: rest ->
        aircrafts (retargeted s)
        = target
          :: set_course
               (bearing (pt_y (position target) - pt_y (position aircraft))%Q
                        (pt_x (position target) - pt_x (position aircraft))%Q)
               aircraft
          :: rest)
  /\ set_aircrafts (aircrafts s) (retargeted s) = s
  /\ retargeted (retargeted s) = retargeted s.
Proof.
  split; [apply cause_collision_eq |].
  split; [| split; [| split]].
  - intros Hn. unfold retargeted.
    destruct (aircrafts s) as [| a0 [| a1 rest]]; cbn in Hn;
      [reflexivity | reflexivity | lia].
  - intros target aircraft rest Hl. unfold retargeted, mark. rewrite Hl.
    reflexivity.
  - unfold retargeted, mark. destruct s as [? ? ? ? ? ? ? ? ? ? ? ? ? ? l ? ? ?].
    cbn. now destruct l as [| a0 [| a1 rest]].
  - unfold retargeted, mark. destruct s as [? ? ? ? ? ? ? ? ? ? ? ? ? ? l ? ? ?].
    cbn. now destruct l as [| a0 [| a1 rest]].
Qed.

(** X11.  The conflict trigger only prints.  Whatever id it is given and
    whatever the collection holds, the simulator it leaves differs from
    the one it found by the lines appended to the output; when it raises
    it has printed nothing, and it never prints a safezone event. *)
Theorem avoid_aircraft_collision_only_prints (id : Z) (s : Simulator) :
  exists evs, final_state (avoid_aircraft_collision id s) = say evs s
    /\ (returned (avoid_aircraft_collision id s) = None -> evs = [])
    /\ (forall k, count (is_entered k) evs = 0%nat)
    /\ count is_left evs = 0%nat.
Proof.
  rewrite avoid_outcome. unfold trigger_output.
  destruct (length (aircrafts s) <? 1)%nat;
    [exists [NoPossibleCollisions]; now repeat split |].
  destruct (2 <? length (aircrafts s))%nat;
    [exists [ThreeOrMoreAircrafts]; now repeat split |].
  destruct (getitem (aircrafts s) id) as [this |];
    [| exists []; rewrite say_nil; now repeat split].
  destruct (aircraft_id this =? id);
    [| exists []; rewrite say_nil; now repeat split].
  destruct (getitem (aircrafts s) (1 - id)) as [other |];
    [| exists []; rewrite say_nil; now repeat split].
  exists (conflict_report this other). now repeat split.
Qed.

(** X12.  When the conflict trigger raises inside the proximity test, the
    flag it was called for has already been raised and stays raised in the
    state the exception leaves behind, with no "entered" printed; the same
    test on that state then sees the flag up and does nothing, so the
    event is lost rather than retried. *)
Theorem trigger_failure_leaves_flag_set (k : nat) (d2 : Q) (a : Aircraft)
    (e : exn) (s s1 : Simulator) :
  aircrafts s !! k = Some a ->
  safezone_occupied a = false -> in_safezone a d2 = true ->
  avoid_aircraft_collision (aircraft_id a)
    (mark k (set_safezone_occupied true a) s) = Raises e s1 ->
  safezone_test k d2 s = Raises e s1
  /\ safezone_occupied <$> (aircrafts s1 !! k) = Some true
  /\ stdout s1 = stdout s
  /\ safezone_test k d2 s1 = Returns tt s1.
Proof.
  intros Ha Ho Hi Hraise.
  destruct (safezone_test_edges k d2 a s Ha) as (_ & Henter & _).
  rewrite (Henter Ho Hi). unfold bind. rewrite Hraise.
  rewrite avoid_outcome in Hraise.
  destruct (trigger_output _ _) as [e' | evs]; [| discriminate].
  injection Hraise as -> <-.
  pose proof (lookup_lt_Some _ _ _ Ha) as Hk.
  assert (Hk1 : aircrafts (mark k (set_safezone_occupied true a) s) !! k
                = Some (set_safezone_occupied true a))
    by (cbn; now apply list_lookup_insert_eq).
  split; [reflexivity |]. split; [now rewrite Hk1 |]. split; [reflexivity |].
  destruct (safezone_test_edges k d2 (set_safezone_occupied true a) _ Hk1)
    as (Hsame & _).
  apply Hsame. cbn. unfold in_safezone in *. cbn. now rewrite Hi.
Qed.

(** X13.  With fewer than two aircraft there is no pair: the proximity
    pass, the collision check and the injection return at once and leave
    the simulator as it is.  With no aircraft at all the boundary check
    does the same, and a whole tick only records the frame rate and
    lowers [is_stopped]. *)
Theorem short_collections_are_inert (fps : Q) (s : Simulator) :
  ((length (aircrafts s) < 2)%nat ->
   check_safezones s = Returns tt s
   /\ check_collision s = Returns false s
   /\ cause_collision s = Returns tt s)
  /\ (aircrafts s = [] ->
      check_offscreen s = Returns false s
      /\ update_simulation fps s
         = Returns tt (set_is_stopped false (set_current_simulation_fps fps s))).
Proof.
  split.
  - intros Hn. split; [| split].
    + unfold check_safezones, bind, len_aircrafts, gets.
      destruct (aircrafts s) as [| a0 [| a1 rest]]; cbn in *;
        reflexivity || lia.
    + rewrite check_collision_eq. unfold any_collision.
      destruct (aircrafts s) as [| a0 [| a1 rest]]; cbn in *;
        reflexivity || lia.
    + rewrite cause_collision_eq. unfold retargeted.
      destruct (aircrafts s) as [| a0 [| a1 rest]]; cbn in *;
        reflexivity || lia.
  - intros Hl. split.
    + rewrite check_offscreen_eq, Hl. reflexivity.
    + assert (Hadv : aircrafts (advance fps s) = [])
        by (unfold advance; cbn; now rewrite Hl).
      rewrite (update_simulation_returns fps s (advance fps s)).
      * unfold after_checks, retargeted. cbn [aircrafts set_is_stopped].
        rewrite Hadv. cbn [any_collision any_offscreen existsb length range
                             seq Nat.sub].
        f_equal. unfold advance.
        destruct s as [? ? ? ? ? ? ? ? ? ? ? ? ? ? l ? ? ?].
        cbn in *. subst l. now destruct cause_crash_second0.
      * unfold check_safezones, bind, len_aircrafts, gets. now rewrite Hadv.
Qed.

(** ** What the proximity pass leaves alone *)

Lemma same_but_flags_refl (s : Simulator) : same_but_flags s s.
Proof.
  split; [reflexivity |]. split; [now destruct s |].
  exists []. now rewrite app_nil_r.
Qed.

Lemma print_same_but_flags (s0 : Simulator) (e : Event) :
  preserves (same_but_flags s0) (print e).
Proof.
  intros s (Hl & Hrest & evs & Hout). split; [exact Hl |].
  split; [exact Hrest |]. exists (evs ++ [e]). cbn.
  now rewrite Hout, app_assoc.
Qed.

Lemma update_flag_same_but_flags (s0 : Simulator) (k : nat) (b : bool) :
  preserves (same_but_flags s0) (update_aircraft k (set_safezone_occupied b)).
Proof.
  intros s (Hl & Hrest & Hout). unfold update_aircraft, bind, aircraft_at.
  rewrite getitem_of_nat.
  destruct (aircrafts s !! k) as [a |] eqn:Ha; [| now repeat split].
  cbn [final_state modify]. split; [| split; [exact Hrest | exact Hout]].
  cbn [aircrafts set_aircrafts]. rewrite list_fmap_insert, <- Hl.
  apply list_insert_id. now rewrite list_lookup_fmap, Ha.
Qed.

Lemma avoid_same_but_flags (s0 : Simulator) (id : Z) :
  preserves (same_but_flags s0) (avoid_aircraft_collision id).
Proof.
  intros s (Hl & Hrest & evs & Hout). rewrite avoid_outcome.
  destruct (trigger_output (aircrafts s) id) as [e | more];
    [now repeat split; eauto |].
  split; [exact Hl |]. split; [exact Hrest |].
  exists (evs ++ more). cbn. now rewrite Hout, app_assoc.
Qed.

Lemma check_safezones_same_but_flags (s0 : Simulator) :
  preserves (same_but_flags s0) check_safezones.
Proof.
  unfold check_safezones, safezone_pair, safezone_test, len_aircrafts.
  with_strategy opaque [update_aircraft print avoid_aircraft_collision] frame;
    first [apply print_same_but_flags | apply update_flag_same_but_flags
          | apply avoid_same_but_flags].
Qed.

(** X14.  The proximity pass writes safezone flags and output lines and
    nothing else, for any collection and whether it returns or raises:
    every aircraft keeps its id, position, sizes, course, speed and path,
    the collection keeps its length, the output only grows, and every
    other field of the simulator is as before. *)
Theorem check_safezones_touches_flags_only (s : Simulator) :
  set_safezone_occupied false <$> aircrafts (final_state (check_safezones s))
  = set_safezone_occupied false <$> aircrafts s
  /\ length (aircrafts (final_state (check_safezones s))) = length (aircrafts s)
  /\ position <$> aircrafts (final_state (check_safezones s))
     = position <$> aircrafts s
  /\ aircraft_id <$> aircrafts (final_state (check_safezones s))
     = aircraft_id <$> aircrafts s
  /\ set_stdout (stdout s)
       (set_aircrafts (aircrafts s) (final_state (check_safezones s))) = s
  /\ exists evs, stdout (final_state (check_safezones s)) = stdout s ++ evs.
Proof.
  destruct (check_safezones_same_but_flags s s (same_but_flags_refl s))
    as (Hl & Hrest & Hout).
  fold unflagged. split; [exact Hl |].
  split; [| split; [| split; [| split; assumption]]].
  - apply (f_equal length) in Hl. now rewrite !length_fmap in Hl.
  - apply (f_equal (fmap position)) in Hl.
    now rewrite <- !list_fmap_compose in Hl.
  - apply (f_equal (fmap aircraft_id)) in Hl.
    now rewrite <- !list_fmap_compose in Hl.
Qed.

(** ** The verdict of the checks does not depend on the order *)





(** ** The travelled path is drawn backwards and capped *)

Lemma rev_seq_S (m : nat) : rev (seq 0 (S m)) = m :: rev (seq 0 m).
Proof. rewrite seq_S, rev_app_distr. reflexivity. Qed.

Lemma draw_path_down (a : Aircraft) (m : nat) :
  (m < length (path a))%nat ->
  exists lines,
    draw_path a (length (path a)) (rev (seq 0 m)) = Some lines
    /\ length lines = (m - (length (path a) - 100))%nat
    /\ forall n point1 point2,
         (n < length lines)%nat ->
         path a !! (m - 1 - n)%nat = Some point1 ->
         path a !! (m - n)%nat = Some point2 ->
         lines !! n = Some (mkPathLine point1 point2 (path_pen (aircraft_id a))).
Proof.
  induction m as [| m IH]; intros Hm.
  - exists []. cbn. repeat split. intros n p q Hn. cbn in Hn. lia.
  - rewrite rev_seq_S. cbn [draw_path].
    destruct (Nat.ltb_spec 100 (length (path a) - m)) as [Hfar | Hnear].
    + exists []. split; [reflexivity |]. split; [cbn; lia |].
      intros n p q Hn. cbn in Hn. lia.
    + destruct (lookup_lt_is_Some_2 (path a) m ltac:(lia)) as [p1 Hp1].
      destruct (lookup_lt_is_Some_2 (path a) (m + 1) ltac:(lia)) as [p2 Hp2].
      destruct (IH ltac:(lia)) as (lines & Hdraw & Hlen & Hnth).
      rewrite Hp1, Hp2, Hdraw.
      eexists. split; [reflexivity |]. split; [cbn; lia |].
      intros [| n] q1 q2 Hn Hq1 Hq2.
      * cbn. replace (S m - 1 - 0)%nat with m in Hq1 by lia.
        replace (S m - 0)%nat with (m + 1)%nat in Hq2 by lia.
        congruence.
      * cbn in Hn. cbn [lookup list_lookup].
        apply Hnth; [lia | |].
        -- now replace (m - 1 - n)%nat with (S m - 1 - S n)%nat by lia.
        -- now replace (m - n)%nat with (S m - S n)%nat by lia.
Qed.

(** X16.  The path of an aircraft is drawn from its newest segment
    backwards and capped ("prevent lag"): of a path of [n] points the
    scene gets the last [min (n - 1) 99] segments and no more, the k-th
    line drawn joining the points [n - 2 - k] and [n - 1 - k]; no
    subscript goes out of range, and a path of fewer than two points, or
    a switched-off display, draws nothing. *)
Theorem travelled_path_capped (a : Aircraft) :
  travelled_path false a = Some []
  /\ exists lines,
       travelled_path true a = Some lines
       /\ length lines = Nat.min (length (path a) - 1) 99
       /\ forall k point1 point2,
            (k < length lines)%nat ->
            path a !! (length (path a) - 2 - k)%nat = Some point1 ->
            path a !! (length (path a) - 1 - k)%nat = Some point2 ->
            lines !! k
            = Some (mkPathLine point1 point2 (path_pen (aircraft_id a))).
Proof.
  split; [reflexivity |]. unfold travelled_path. cbv zeta.
  destruct (Nat.ltb_spec 1 (length (path a))) as [Hlong | Hshort].
  - unfold range. rewrite Nat.sub_0_r.
    destruct (draw_path_down a (length (path a) - 1) ltac:(lia))
      as (lines & Hdraw & Hlen & Hnth).
    exists lines. split; [exact Hdraw |]. split; [lia |].
    intros k p q Hk Hp Hq. apply Hnth; [exact Hk | |].
    + now replace (length (path a) - 1 - 1 - k)%nat
        with (length (path a) - 2 - k)%nat by lia.
    + exact Hq.
  - exists []. split; [reflexivity |]. split; [cbn; lia |].
    intros k p q Hk. cbn in Hk. lia.
Qed.

(** ** The collision check in double precision *)

Lemma collision_pair_double_eq (s : Simulator) (i j : nat) :
  (i < length (aircrafts s))%nat -> (j < length (aircrafts s))%nat ->
  collision_pair_double i j s
  = if collision_at_double (aircrafts s) i j
    then Returns (Some true) (terminate AircraftsCollided s)
    else Returns None s.
Proof.
  intros Hi Hj.
  destruct (lookup_lt_is_Some_2 _ _ Hi) as [a Ha].
  destruct (lookup_lt_is_Some_2 _ _ Hj) as [b Hb].
  unfold collision_pair_double, collision_at_double, bind.
  rewrite (aircraft_at_nat _ _ _ Ha), (aircraft_at_nat _ _ _ Hb), Ha, Hb.
  destruct (collide_double a b); reflexivity.
Qed.

Lemma check_collision_double_eq (s : Simulator) :
  check_collision_double s
  = if any_collision_double (aircrafts s)
    then Returns true (terminate AircraftsCollided s)
    else Returns false s.
Proof.
  unfold check_collision_double, any_collision_double, bind at 1,
    len_aircrafts, gets.
  unfold bind.
  rewrite (for_each_find
             (fun i => existsb (collision_at_double (aircrafts s) i)
                         (range (i + 1) (length (aircrafts s))))
             true s (terminate AircraftsCollided s)).
  - now destruct (existsb _ _).
  - intros i Hi. apply elem_of_range in Hi.
    apply for_each_find. intros j Hj. apply elem_of_range in Hj.
    apply collision_pair_double_eq; lia.
Qed.

Lemma any_collision_double_iff (l : list Aircraft) :
  any_collision_double l = true
  <-> exists i j a b, (i < j)%nat /\ l !! i = Some a /\ l !! j = Some b
                      /\ collide_double a b = true.
Proof.
  unfold any_collision_double. rewrite existsb_exists. split.
  - intros (i & Hi & Hex). apply existsb_exists in Hex as (j & Hj & Hc).
    apply list_elem_of_In, elem_of_range in Hj.
    unfold collision_at_double in Hc.
    destruct (l !! i) as [a |] eqn:Ha; [| discriminate].
    destruct (l !! j) as [b |] eqn:Hb; [| discriminate].
    exists i, j, a, b. repeat split; auto; lia.
  - intros (i & j & a & b & Hij & Ha & Hb & Hc).
    pose proof (lookup_lt_Some _ _ _ Ha). pose proof (lookup_lt_Some _ _ _ Hb).
    exists i. split.
    + apply list_elem_of_In, elem_of_range. lia.
    + apply existsb_exists. exists j. split.
      * apply list_elem_of_In, elem_of_range. lia.
      * unfold collision_at_double. now rewrite Ha, Hb.
Qed.

(** C1.  The collision check looks for an unordered pair of aircraft whose
    centres are no further apart than half the sum of their sizes, the
    distance being the double that [math.dist] returns and the half sum
    the double that the interpreter computes.  If there is such a pair,
    the check stops the timer, sets [is_stopped] and [is_finished], prints
    the report once (it returns at the first hit) and returns [True]; if
    there is none it returns [False] and changes nothing. *)
Theorem check_collision_first_hit (s : Simulator) :
  (any_collision_double (aircrafts s) = true
   <-> exists i j a b, (i < j)%nat /\ aircrafts s !! i = Some a
         /\ aircrafts s !! j = Some b
         /\ (math_dist (position a) (position b)
             <= rnd (rnd (size a + size b) / 2))%Q)
  /\ check_collision_double s
     = (if any_collision_double (aircrafts s)
        then Returns true (terminate AircraftsCollided s)
        else Returns false s)
  /\ simulation_timer (terminate AircraftsCollided s) = false
  /\ is_stopped (terminate AircraftsCollided s) = true
  /\ is_finished (terminate AircraftsCollided s) = true
  /\ stdout (terminate AircraftsCollided s) = stdout s ++ [AircraftsCollided]
  /\ aircrafts (terminate AircraftsCollided s) = aircrafts s.
Proof.
  split.
  { rewrite any_collision_double_iff.
    split; intros (i & j & a & b & Hij & Ha & Hb & Hc);
      exists i, j, a, b; repeat split; auto;
      now apply Qle_bool_iff. }
  split; [apply check_collision_double_eq |].
  apply terminate_fields.
Qed.

(** ** The boundary check in double precision *)

Lemma in_bounds_double_iff (res : Z * Z) (a : Aircraft) :
  in_bounds_double res a = true
  <-> (rnd (0 + rnd (size a / 2)) <= pt_x (position a)
       /\ pt_x (position a) <= rnd (inject_Z (fst res) - rnd (size a / 2)))%Q
      /\ (rnd (0 + rnd (size a / 2)) <= pt_y (position a)
          /\ pt_y (position a) <= rnd (inject_Z (snd res) - rnd (size a / 2)))%Q.
Proof.
  unfold in_bounds_double. rewrite !andb_true_iff, !Qle_bool_iff.
  reflexivity.
Qed.

Lemma offscreen_test_double_eq (s : Simulator) (a : Aircraft) :
  offscreen_test_double a s
  = if negb (in_bounds_double (resolution s) a)
    then Returns (Some true) (terminate LeftBoundaries s)
    else Returns None s.
Proof.
  unfold offscreen_test_double, bind, gets.
  destruct (in_bounds_double (resolution s) a); reflexivity.
Qed.

Lemma check_offscreen_double_eq (s : Simulator) :
  check_offscreen_double s
  = if any_offscreen_double (resolution s) (aircrafts s)
    then Returns true (terminate LeftBoundaries s)
    else Returns false s.
Proof.
  unfold check_offscreen_double, any_offscreen_double, bind at 1, gets.
  unfold bind.
  rewrite (for_each_find (fun a => negb (in_bounds_double (resolution s) a))
             true s (terminate LeftBoundaries s)).
  - now destruct (existsb _ _).
  - intros a _. apply offscreen_test_double_eq.
Qed.

Lemma any_offscreen_double_iff (res : Z * Z) (l : list Aircraft) :
  any_offscreen_double res l = true
  <-> exists a, a ∈ l /\ in_bounds_double res a = false.
Proof.
  unfold any_offscreen_double. rewrite existsb_exists. split.
  - intros (a & Ha & Hout). exists a. split; [now apply list_elem_of_In |].
    now destruct (in_bounds_double res a).
  - intros (a & Ha & Hout). exists a. split; [now apply list_elem_of_In |].
    now rewrite Hout.
Qed.

(** C2.  An aircraft is inside the scene exactly when its whole hitbox
    is: [size/2 <= x <= width - size/2] and [size/2 <= y <= height -
    size/2], the four bounds being the doubles that the interpreter
    computes.  An aircraft whose [x] is the lower bound itself passes the
    lower test, one whose [x] is below it by any [eps > 0] is outside.
    The boundary check ends the simulation at the first aircraft, in
    collection order, that is outside; with none outside it returns
    [False] and changes nothing. *)
Theorem check_offscreen_containment (s : Simulator) (a : Aircraft) (eps : Q)
    (pre post : list Aircraft) :
  (in_bounds_double (resolution s) a = true
   <-> (rnd (0 + rnd (size a / 2)) <= pt_x (position a)
        /\ pt_x (position a)
           <= rnd (inject_Z (fst (resolution s)) - rnd (size a / 2)))%Q
       /\ (rnd (0 + rnd (size a / 2)) <= pt_y (position a)
           /\ pt_y (position a)
              <= rnd (inject_Z (snd (resolution s)) - rnd (size a / 2)))%Q)
  /\ ((pt_x (position a) == rnd (0 + rnd (size a / 2)))%Q ->
      (pt_x (position a)
       <= rnd (inject_Z (fst (resolution s)) - rnd (size a / 2)))%Q ->
      (rnd (0 + rnd (size a / 2)) <= pt_y (position a))%Q ->
      (pt_y (position a)
       <= rnd (inject_Z (snd (resolution s)) - rnd (size a / 2)))%Q ->
      in_bounds_double (resolution s) a = true)
  /\ ((0 < eps)%Q ->
      (pt_x (position a) == rnd (0 + rnd (size a / 2)) - eps)%Q ->
      in_bounds_double (resolution s) a = false)
  /\ check_offscreen_double s
     = (if any_offscreen_double (resolution s) (aircrafts s)
        then Returns true (terminate LeftBoundaries s)
        else Returns false s)
  /\ (aircrafts s = pre ++ a :: post ->
      (forall b, b ∈ pre -> in_bounds_double (resolution s) b = true) ->
      in_bounds_double (resolution s) a = false ->
      check_offscreen_double s = Returns true (terminate LeftBoundaries s)
      /\ is_finished (terminate LeftBoundaries s) = true
      /\ is_stopped (terminate LeftBoundaries s) = true
      /\ simulation_timer (terminate LeftBoundaries s) = false
      /\ stdout (terminate LeftBoundaries s) = stdout s ++ [LeftBoundaries]).
Proof.
  split; [apply in_bounds_double_iff |].
  split.
  { intros Hx Hw Hlo Hhi. apply in_bounds_double_iff.
    repeat split; auto. rewrite Hx. apply Qle_refl. }
  split.
  { intros Heps Hx. apply not_true_is_false. intros Hin.
    apply in_bounds_double_iff in Hin as [[Hlo _] _].
    rewrite Hx in Hlo. lra. }
  split; [apply check_offscreen_double_eq |].
  intros Hl Hpre Hout. split; [| repeat split].
  rewrite check_offscreen_double_eq.
  replace (any_offscreen_double (resolution s) (aircrafts s)) with true;
    [reflexivity |].
  symmetry. apply any_offscreen_double_iff. exists a. split; [| exact Hout].
  rewrite Hl. apply elem_of_app. right. apply elem_of_cons. now left.
Qed.

(** ** The proximity pass in double precision *)

(** One half of a pair step, case by case. *)
Lemma safezone_test_double_eq (k : nat) (d : Q) (a : Aircraft) (s : Simulator) :
  aircrafts s !! k = Some a ->
  safezone_test_double k d s
  = if in_safezone_double a d then
      if safezone_occupied a then Returns tt s
      else
        let s1 := mark k (set_safezone_occupied true a) s in
        match trigger_output (aircrafts s1) (aircraft_id a) with
        | inr evs => Returns tt (say (evs ++ [EnteredSafezone (aircraft_id a)]) s1)
        | inl e => Raises e s1
        end
    else
      if safezone_occupied a
      then Returns tt (say [LeftSafezone (aircraft_id a)]
                         (mark k (set_safezone_occupied false a) s))
      else Returns tt s.
Proof.
  intros Ha. unfold safezone_test_double, bind at 1, in_safezone_double.
  rewrite (aircraft_at_nat _ _ _ Ha).
  destruct (Qle_bool d (rnd (safezone_size a / 2))), (safezone_occupied a);
    cbn [negb]; try reflexivity.
  - unfold bind at 1. rewrite (update_aircraft_eq _ _ _ _ Ha).
    unfold bind at 1. rewrite avoid_outcome. cbv zeta.
    destruct (trigger_output _ _) as [e | evs]; [reflexivity |].
    unfold print, modify. now rewrite <- say_say.
  - unfold bind. now rewrite (update_aircraft_eq _ _ _ _ Ha).
Qed.

Lemma safezone_test_double_two_0 (s : Simulator) (b0 b1 : Aircraft) (d : Q) :
  aircrafts s = [b0; b1] -> aircraft_id b0 = 0 -> aircraft_id b1 = 1 ->
  safezone_test_double 0 d s
  = Returns tt
      (say (edge_events b0 b1 (in_safezone_double b0 d))
         (set_aircrafts
            [set_safezone_occupied (in_safezone_double b0 d) b0; b1] s)).
Proof.
  intros Hl H0 H1.
  assert (L0 : aircrafts s !! 0%nat = Some b0) by now rewrite Hl.
  rewrite (safezone_test_double_eq 0 d b0 s L0). unfold edge_events, mark.
  rewrite Hl. cbn [list_insert insert aircrafts set_aircrafts].
  destruct (in_safezone_double b0 d), (safezone_occupied b0) eqn:O0; cbv zeta.
  - now rewrite <- O0, set_safezone_occupied_same, <- Hl,
      set_aircrafts_same, say_nil.
  - now rewrite H0,
      (proj1 (trigger_output_two (set_safezone_occupied true b0) b1 H0 H1)).
  - reflexivity.
  - now rewrite <- O0, set_safezone_occupied_same, <- Hl,
      set_aircrafts_same, say_nil.
Qed.

Lemma safezone_test_double_two_1 (s : Simulator) (b0 b1 : Aircraft) (d : Q) :
  aircrafts s = [b0; b1] -> aircraft_id b0 = 0 -> aircraft_id b1 = 1 ->
  safezone_test_double 1 d s
  = Returns tt
      (say (edge_events b1 b0 (in_safezone_double b1 d))
         (set_aircrafts
            [b0; set_safezone_occupied (in_safezone_double b1 d) b1] s)).
Proof.
  intros Hl H0 H1.
  assert (L1 : aircrafts s !! 1%nat = Some b1) by now rewrite Hl.
  rewrite (safezone_test_double_eq 1 d b1 s L1). unfold edge_events, mark.
  rewrite Hl. cbn [list_insert insert aircrafts set_aircrafts].
  destruct (in_safezone_double b1 d), (safezone_occupied b1) eqn:O1; cbv zeta.
  - now rewrite <- O1, set_safezone_occupied_same, <- Hl,
      set_aircrafts_same, say_nil.
  - now rewrite H1,
      (proj2 (trigger_output_two b0 (set_safezone_occupied true b1) H0 H1)).
  - reflexivity.
  - now rewrite <- O1, set_safezone_occupied_same, <- Hl,
      set_aircrafts_same, say_nil.
Qed.

Lemma safezone_pair_double_two (s : Simulator) (a0 a1 : Aircraft) :
  aircrafts s = [a0; a1] -> aircraft_id a0 = 0 -> aircraft_id a1 = 1 ->
  safezone_pair_double 0 1 s = Returns tt (after_pass_double a0 a1 s).
Proof.
  intros Hl H0 H1. set (d := math_dist (position a0) (position a1)).
  assert (L0 : aircrafts s !! 0%nat = Some a0) by now rewrite Hl.
  assert (L1 : aircrafts s !! 1%nat = Some a1) by now rewrite Hl.
  unfold safezone_pair_double, bind at 1.
  rewrite (aircraft_at_nat _ _ _ L0). unfold bind at 1.
  rewrite (aircraft_at_nat _ _ _ L1). fold d. unfold bind.
  rewrite (safezone_test_double_two_0 s a0 a1 d Hl H0 H1).
  rewrite (safezone_test_double_two_1
             (say (edge_events a0 a1 (in_safezone_double a0 d))
                (set_aircrafts
                   [set_safezone_occupied (in_safezone_double a0 d) a0; a1] s))
             (set_safezone_occupied (in_safezone_double a0 d) a0) a1 d
             eq_refl H0 H1).
  unfold after_pass_double. fold d. rewrite edge_events_other_flag.
  unfold say. cbn. now rewrite app_assoc.
Qed.

Lemma safezone_test_double_many (k : nat) (d : Q) (a : Aircraft)
    (s : Simulator) :
  (2 < length (aircrafts s))%nat -> aircrafts s !! k = Some a ->
  safezone_test_double k d s
  = Returns tt
      (say (edge_events_many a (in_safezone_double a d))
         (mark k (set_safezone_occupied (in_safezone_double a d) a) s)).
Proof.
  intros Hn Ha. rewrite (safezone_test_double_eq k d a s Ha).
  unfold edge_events_many.
  destruct (in_safezone_double a d), (safezone_occupied a) eqn:Ho; cbv zeta.
  - now rewrite <- Ho, set_safezone_occupied_same, (mark_same _ _ _ Ha), say_nil.
  - unfold trigger_output, mark. cbn [aircrafts set_aircrafts].
    rewrite length_insert.
    replace (length (aircrafts s) <? 1)%nat with false
      by (symmetry; apply Nat.ltb_ge; lia).
    replace (2 <? length (aircrafts s))%nat with true
      by (symmetry; apply Nat.ltb_lt; lia).
    reflexivity.
  - reflexivity.
  - now rewrite <- Ho, set_safezone_occupied_same, (mark_same _ _ _ Ha), say_nil.
Qed.

(** A pair step in a collection of three or more aircraft. *)
Lemma safezone_pair_double_many (i j : nat) (ai aj : Aircraft)
    (s : Simulator) :
  (2 < length (aircrafts s))%nat -> i <> j ->
  aircrafts s !! i = Some ai -> aircrafts s !! j = Some aj ->
  safezone_pair_double i j s
  = Returns tt
      (say (edge_events_many ai
              (in_safezone_double ai (math_dist (position ai) (position aj)))
            ++ edge_events_many aj
                 (in_safezone_double aj (math_dist (position ai) (position aj))))
         (mark j (set_safezone_occupied
                    (in_safezone_double aj
                       (math_dist (position ai) (position aj))) aj)
            (mark i (set_safezone_occupied
                       (in_safezone_double ai
                          (math_dist (position ai) (position aj))) ai)
               s))).
Proof.
  intros Hn Hij Hi Hj. set (d := math_dist (position ai) (position aj)).
  unfold safezone_pair_double, bind at 1.
  rewrite (aircraft_at_nat _ _ _ Hi). unfold bind at 1.
  rewrite (aircraft_at_nat _ _ _ Hj). fold d. unfold bind.
  rewrite (safezone_test_double_many i d ai s Hn Hi).
  rewrite (safezone_test_double_many j d aj).
  - rewrite <- say_say. reflexivity.
  - cbn. now rewrite length_insert.
  - cbn. now rewrite list_lookup_insert_ne.
Qed.

(** *** The pass visits every unordered pair once *)

Lemma each_pair_app (l1 l2 : list (nat * nat)) (s : Simulator) :
  each_pair (l1 ++ l2) s = bind (each_pair l1) (fun _ => each_pair l2) s.
Proof.
  revert s. induction l1 as [| [i j] l1 IH]; intros s; [reflexivity |].
  cbn [app each_pair]. unfold bind in *.
  destruct (safezone_pair_double i j s) as [[] s1 | e s1]; [| reflexivity].
  apply IH.
Qed.

Lemma each_pair_app_bind {B} (l1 l2 : list (nat * nat)) (k : unit -> M B)
    (s : Simulator) :
  bind (each_pair (l1 ++ l2)) k s
  = bind (each_pair l1) (fun _ => bind (each_pair l2) k) s.
Proof.
  unfold bind at 1. rewrite each_pair_app. unfold bind.
  now destruct (each_pair l1 s).
Qed.

Lemma inner_loop_pairs (i : nat) (js : list nat) (s : Simulator) :
  for_each (R := unit) js (fun j => safezone_pair_double i j ;; ret None) s
  = bind (each_pair (map (fun j => (i, j)) js)) (fun _ => ret None) s.
Proof.
  revert s. induction js as [| j js IH]; intros s; [reflexivity |].
  cbn [for_each map each_pair]. unfold bind in *.
  destruct (safezone_pair_double i j s) as [[] s1 | e s1]; [| reflexivity].
  cbn [ret]. apply IH.
Qed.

Lemma outer_loop_pairs (n : nat) (indices : list nat) (s : Simulator) :
  for_each (R := unit) indices (fun i =>
    for_each (range (i + 1) n) (fun j =>
      safezone_pair_double i j ;; ret None)) s
  = bind (each_pair
            (flat_map (fun i => map (fun j => (i, j)) (range (i + 1) n))
               indices))
      (fun _ => ret None) s.
Proof.
  revert s. induction indices as [| i rest IH]; intros s; [reflexivity |].
  cbn [for_each flat_map]. unfold bind at 1.
  rewrite inner_loop_pairs, each_pair_app_bind. unfold bind in *.
  destruct (each_pair _ s) as [[] s1 | e s1]; [| reflexivity].
  cbn [ret]. apply IH.
Qed.

Lemma check_safezones_double_pairs (s : Simulator) :
  check_safezones_double s = each_pair (all_pairs (length (aircrafts s))) s.
Proof.
  unfold check_safezones_double, all_pairs, bind at 1, len_aircrafts, gets.
  unfold bind at 1. rewrite outer_loop_pairs. unfold bind.
  now destruct (each_pair _ s) as [[] s1 | e s1].
Qed.

Lemma elem_of_pairs_from (n a m i j : nat) :
  (i, j) ∈ flat_map (fun i => map (fun j => (i, j)) (range (i + 1) n)) (seq a m)
  <-> (a <= i < a + m)%nat /\ (i < j < n)%nat.
Proof.
  rewrite list_elem_of_In, in_flat_map. split.
  - intros (i' & Hi' & Hin). apply in_map_iff in Hin as (j' & Heq & Hj').
    injection Heq as -> ->.
    apply in_seq in Hi'. apply list_elem_of_In, elem_of_range in Hj'. lia.
  - intros [Hi Hj]. exists i. split; [apply in_seq; lia |].
    apply in_map_iff. exists j. split; [reflexivity |].
    apply list_elem_of_In, elem_of_range. lia.
Qed.

Lemma elem_of_all_pairs (n i j : nat) :
  (i, j) ∈ all_pairs n <-> (i < j < n)%nat.
Proof.
  unfold all_pairs. change (range 0 (n - 1)) with (seq 0 (n - 1 - 0)).
  rewrite elem_of_pairs_from. lia.
Qed.

Lemma NoDup_pairs_from (n a m : nat) :
  NoDup (flat_map (fun i => map (fun j => (i, j)) (range (i + 1) n)) (seq a m)).
Proof.
  revert a. induction m as [| m IH]; intros a; [constructor |].
  cbn [seq flat_map]. apply NoDup_app. split; [| split].
  - apply (NoDup_fmap_2 (fun j => (a, j))). apply NoDup_seq.
  - intros [i j] Hhere Hthere.
    apply list_elem_of_In, in_map_iff in Hhere as (j' & Heq & _).
    injection Heq as <- <-.
    apply elem_of_pairs_from in Hthere. lia.
  - apply IH.
Qed.

Lemma NoDup_all_pairs (n : nat) : NoDup (all_pairs n).
Proof.
  unfold all_pairs. change (range 0 (n - 1)) with (seq 0 (n - 1 - 0)).
  apply NoDup_pairs_from.
Qed.

(** C3.  The proximity pass runs the pair step on every unordered pair of
    indices, once each, in the order of the two loops.  A pair step takes
    the distance of the two centres once, as [math.dist] returns it, and
    compares it with half the safezone of the one aircraft to give the
    flag of that aircraft and with half the safezone of the other to give
    the flag of the other.  So for a well-numbered pair the pass leaves
    the two flags at the outcome of the two comparisons, and with
    safezones of different sizes one flag can be up and the other down;
    in a larger collection a pair step does the same with the two
    aircraft it visits and leaves the others alone. *)
Theorem check_safezones_own_radius (s : Simulator) :
  check_safezones_double s = each_pair (all_pairs (length (aircrafts s))) s
  /\ (forall i j, (i, j) ∈ all_pairs (length (aircrafts s))
                  <-> (i < j < length (aircrafts s))%nat)
  /\ NoDup (all_pairs (length (aircrafts s)))
  /\ (forall a0 a1, aircrafts s = [a0; a1] ->
      aircraft_id a0 = 0 -> aircraft_id a1 = 1 ->
      exists s', check_safezones_double s = Returns tt s'
        /\ safezone_occupied <$> aircrafts s'
           = [ Qle_bool (math_dist (position a0) (position a1))
                 (rnd (safezone_size a0 / 2));
               Qle_bool (math_dist (position a0) (position a1))
                 (rnd (safezone_size a1 / 2)) ]
        /\ position <$> aircrafts s' = [position a0; position a1])
  /\ (forall i j ai aj, (2 < length (aircrafts s))%nat -> i <> j ->
      aircrafts s !! i = Some ai -> aircrafts s !! j = Some aj ->
      exists s', safezone_pair_double i j s = Returns tt s'
        /\ safezone_occupied <$> (aircrafts s' !! i)
           = Some (Qle_bool (math_dist (position ai) (position aj))
                     (rnd (safezone_size ai / 2)))
        /\ safezone_occupied <$> (aircrafts s' !! j)
           = Some (Qle_bool (math_dist (position ai) (position aj))
                     (rnd (safezone_size aj / 2)))
        /\ forall k, k <> i -> k <> j -> aircrafts s' !! k = aircrafts s !! k).
Proof.
  split; [apply check_safezones_double_pairs |].
  split; [intros i j; apply elem_of_all_pairs |].
  split; [apply NoDup_all_pairs |].
  split.
  - intros a0 a1 Hl H0 H1. exists (after_pass_double a0 a1 s).
    split; [| split; reflexivity].
    rewrite check_safezones_double_pairs, Hl. cbn [length all_pairs].
    change (all_pairs 2) with [(0%nat, 1%nat)]. cbn [each_pair].
    unfold bind. now rewrite (safezone_pair_double_two s a0 a1 Hl H0 H1).
  - intros i j ai aj Hn Hij Hi Hj. eexists.
    split; [exact (safezone_pair_double_many i j ai aj s Hn Hij Hi Hj) |].
    pose proof (lookup_lt_Some _ _ _ Hi). pose proof (lookup_lt_Some _ _ _ Hj).
    cbn. split; [| split].
    + rewrite list_lookup_insert_ne by auto.
      rewrite list_lookup_insert_eq by lia. reflexivity.
    + rewrite list_lookup_insert_eq by (rewrite length_insert; lia). reflexivity.
    + intros k Hki Hkj. now rewrite !list_lookup_insert_ne by auto.
Qed.

(** ** Three aircraft: the flag follows the last pair only *)

(** One pass over three aircraft, the first of them inside its safezone
    with respect to the second and outside with respect to the third. *)
Lemma flapping_pass (s : Simulator) (a0 a1 a2 : Aircraft) :
  aircrafts s = [a0; a1; a2] ->
  safezone_occupied a0 = false ->
  in_safezone_double a0 (math_dist (position a0) (position a1)) = true ->
  in_safezone_double a0 (math_dist (position a0) (position a2)) = false ->
  exists s' b1 b2 c1 c2,
    check_safezones_double s = Returns tt s'
    /\ aircrafts s' = [a0; c1; c2]
    /\ b1 = set_safezone_occupied
              (in_safezone_double a1 (math_dist (position a0) (position a1))) a1
    /\ b2 = set_safezone_occupied
              (in_safezone_double a2 (math_dist (position a0) (position a2))) a2
    /\ c1 = set_safezone_occupied
              (in_safezone_double a1 (math_dist (position a1) (position a2))) a1
    /\ c2 = set_safezone_occupied
              (in_safezone_double a2 (math_dist (position a1) (position a2))) a2
    /\ stdout s'
       = stdout s
         ++ [ThreeOrMoreAircrafts; EnteredSafezone (aircraft_id a0)]
         ++ edge_events_many a1
              (in_safezone_double a1 (math_dist (position a0) (position a1)))
         ++ [LeftSafezone (aircraft_id a0)]
         ++ edge_events_many a2
              (in_safezone_double a2 (math_dist (position a0) (position a2)))
         ++ edge_events_many b1
              (in_safezone_double a1 (math_dist (position a1) (position a2)))
         ++ edge_events_many b2
              (in_safezone_double a2 (math_dist (position a1) (position a2))).
Proof.
  intros Hl Ho Hin Hout.
  rewrite check_safezones_double_pairs, Hl. cbn [length].
  change (all_pairs 3) with [(0, 1); (0, 2); (1, 2)]%nat.
  cbn [each_pair]. unfold bind at 1.
  rewrite (safezone_pair_double_many 0 1 a0 a1 s)
    by (try rewrite Hl; cbn; (lia || discriminate || reflexivity)).
  rewrite Hin. unfold bind at 1.
  set (b0 := set_safezone_occupied true a0).
  set (b1 := set_safezone_occupied
               (in_safezone_double a1 (math_dist (position a0) (position a1)))
               a1).
  match goal with
  | |- context [safezone_pair_double 0 2 ?st] => set (s1 := st)
  end.
  assert (Hl1 : aircrafts s1 = [b0; b1; a2])
    by (unfold s1, mark; cbn; now rewrite Hl).
  rewrite (safezone_pair_double_many 0 2 b0 a2 s1)
    by (try rewrite Hl1; cbn; (lia || discriminate || reflexivity)).
  change (position b0) with (position a0).
  change (in_safezone_double b0 (math_dist (position a0) (position a2)))
    with (in_safezone_double a0 (math_dist (position a0) (position a2))).
  rewrite Hout.
  set (b2 := set_safezone_occupied
               (in_safezone_double a2 (math_dist (position a0) (position a2)))
               a2).
  unfold bind at 1.
  match goal with
  | |- context [safezone_pair_double 1 2 ?st] => set (s2 := st)
  end.
  assert (Hl2 : aircrafts s2 = [a0; b1; b2]).
  { unfold s2, mark. cbn [aircrafts set_aircrafts say]. rewrite Hl1.
    cbn. unfold b0.
    change (set_safezone_occupied false (set_safezone_occupied true a0))
      with (set_safezone_occupied false a0).
    replace (set_safezone_occupied false a0) with a0; [reflexivity |].
    rewrite <- Ho. symmetry. apply set_safezone_occupied_same. }
  rewrite (safezone_pair_double_many 1 2 b1 b2 s2)
    by (try rewrite Hl2; cbn; (lia || discriminate || reflexivity)).
  eexists _, b1, b2, _, _. split; [reflexivity |].
  split; [unfold mark; cbn [aircrafts set_aircrafts say]; rewrite Hl2;
          reflexivity |].
  do 4 (split; [reflexivity |]).
  unfold s2, s1, say, mark, b0.
  cbn [stdout set_stdout set_aircrafts aircrafts].
  replace (edge_events_many a0 true)
    with [ThreeOrMoreAircrafts; EnteredSafezone (aircraft_id a0)]
    by (unfold edge_events_many; now rewrite Ho).
  change (edge_events_many (set_safezone_occupied true a0) false)
    with [LeftSafezone (aircraft_id a0)].
  rewrite <- !app_assoc. reflexivity.
Qed.

Lemma count_flap (k : Z) (e1 e2 : list Event) :
  (1 <= count (is_entered k)
          ([ThreeOrMoreAircrafts; EnteredSafezone k] ++ e1
           ++ [LeftSafezone k] ++ e2))%nat
  /\ (1 <= count (is_left_of k)
             ([ThreeOrMoreAircrafts; EnteredSafezone k] ++ e1
              ++ [LeftSafezone k] ++ e2))%nat.
Proof.
  assert (Hup : count (is_entered k) [ThreeOrMoreAircrafts; EnteredSafezone k]
                = 1%nat)
    by (unfold count; cbn; now rewrite Z.eqb_refl).
  assert (Hdown : count (is_left_of k) [LeftSafezone k] = 1%nat)
    by (unfold count; cbn; now rewrite Z.eqb_refl).
  rewrite !count_app, Hup, Hdown. split; lia.
Qed.

Lemma flapping_passes (n : nat) (a0 : Aircraft) (p1 p2 : QPointF) :
  safezone_occupied a0 = false ->
  in_safezone_double a0 (math_dist (position a0) p1) = true ->
  in_safezone_double a0 (math_dist (position a0) p2) = false ->
  forall s a1 a2,
    aircrafts s = [a0; a1; a2] -> position a1 = p1 -> position a2 = p2 ->
    exists s' evs,
      passes_double n s = Returns tt s'
      /\ stdout s' = stdout s ++ evs
      /\ (n <= count (is_entered (aircraft_id a0)) evs)%nat
      /\ (n <= count (is_left_of (aircraft_id a0)) evs)%nat.
Proof.
  intros Ho Hin Hout. induction n as [| n IH]; intros s a1 a2 Hl H1 H2.
  - exists s, []. cbn. rewrite app_nil_r. repeat split; lia.
  - subst p1 p2.
    destruct (flapping_pass s a0 a1 a2 Hl Ho Hin Hout)
      as (s1 & b1 & b2 & c1 & c2 & Hrun & Hl1 & _ & _ & -> & -> & Hstd).
    destruct (IH s1 _ _ Hl1 eq_refl eq_refl)
      as (s' & evs & Hrest & Hstd' & Hc & Hc').
    cbn [passes_double]. unfold bind. rewrite Hrun.
    match type of Hstd with
    | _ = _ ++ _ ++ ?e1 ++ _ ++ ?e2 =>
        destruct (count_flap (aircraft_id a0) e1 e2) as [Hup Hdown];
        exists s',
          (([ThreeOrMoreAircrafts; EnteredSafezone (aircraft_id a0)] ++ e1
            ++ [LeftSafezone (aircraft_id a0)] ++ e2) ++ evs)
    end.
    split; [exact Hrest |].
    split; [rewrite Hstd', Hstd, <- app_assoc; reflexivity |].
    rewrite !(count_app _ _ evs). split; lia.
Qed.

(** X17.  With three aircraft the flag of aircraft 0 is written once for
    each of its two pairs and keeps the outcome of the last.  When
    aircraft 0, its flag down, is inside its safezone with respect to
    aircraft 1 and outside with respect to aircraft 2, a pass first
    raises the flag and prints the trigger's warning and "entered" for
    aircraft 0, then what the test of aircraft 1 prints, then lowers the
    flag and prints "left" for aircraft 0, then the rest; it ends with
    aircraft 0 as it began and every position as it was.  The two events
    are therefore repeated on every pass: [n] passes in a row print
    "entered" for aircraft 0 at least [n] times and "left" for aircraft 0
    at least [n] times. *)
Theorem three_aircraft_flag_flaps (n : nat) (s : Simulator)
    (a0 a1 a2 : Aircraft) :
  aircrafts s = [a0; a1; a2] ->
  safezone_occupied a0 = false ->
  in_safezone_double a0 (math_dist (position a0) (position a1)) = true ->
  in_safezone_double a0 (math_dist (position a0) (position a2)) = false ->
  (exists s' b1 b2 c1 c2,
     check_safezones_double s = Returns tt s'
     /\ aircrafts s' = [a0; c1; c2]
     /\ b1 = set_safezone_occupied
               (in_safezone_double a1 (math_dist (position a0) (position a1))) a1
     /\ b2 = set_safezone_occupied
               (in_safezone_double a2 (math_dist (position a0) (position a2))) a2
     /\ c1 = set_safezone_occupied
               (in_safezone_double a1 (math_dist (position a1) (position a2))) a1
     /\ c2 = set_safezone_occupied
               (in_safezone_double a2 (math_dist (position a1) (position a2))) a2
     /\ stdout s'
        = stdout s
          ++ [ThreeOrMoreAircrafts; EnteredSafezone (aircraft_id a0)]
          ++ edge_events_many a1
               (in_safezone_double a1 (math_dist (position a0) (position a1)))
          ++ [LeftSafezone (aircraft_id a0)]
          ++ edge_events_many a2
               (in_safezone_double a2 (math_dist (position a0) (position a2)))
          ++ edge_events_many b1
               (in_safezone_double a1 (math_dist (position a1) (position a2)))
          ++ edge_events_many b2
               (in_safezone_double a2 (math_dist (position a1) (position a2))))
  /\ exists s' evs,
       passes_double n s = Returns tt s'
       /\ stdout s' = stdout s ++ evs
       /\ (n <= count (is_entered (aircraft_id a0)) evs)%nat
       /\ (n <= count (is_left_of (aircraft_id a0)) evs)%nat.
Proof.
  intros Hl Ho Hin Hout. split.
  - exact (flapping_pass s a0 a1 a2 Hl Ho Hin Hout).
  - now apply (flapping_passes n a0 (position a1) (position a2) Ho Hin Hout
                 s a1 a2).
Qed.

(** ** Headings under the steering keys, in double precision *)

Lemma steer_double_eq (k : nat) (k1 k2 k3 k4 k5 k6 k7 k8 : Key)
    (e : QKeyEvent) (a : Aircraft) (s : Simulator) :
  aircrafts s !! k = Some a ->
  steer_double k k1 k2 k3 k4 k5 k6 k7 k8 e s
  = Returns tt (mark k (steered_double k1 k2 k3 k4 k5 k6 k7 k8 e a) s).
Proof.
  intros Ha. unfold steer_double, steered_double, bind at 1.
  rewrite (aircraft_at_nat _ _ _ Ha).
  repeat match goal with
         | |- context [if Key_eqb ?x ?y then _ else _] =>
             destruct (Key_eqb x y)
         end;
    try (rewrite (update_aircraft_eq _ _ _ _ Ha); reflexivity);
    try (rewrite (mark_same _ _ _ Ha); reflexivity).
  destruct (Qlt_bool 1 (speed a)).
  - now rewrite (update_aircraft_eq _ _ _ _ Ha).
  - now rewrite (mark_same _ _ _ Ha).
Qed.

Lemma past_gate_double_eq (e : QKeyEvent) (s : Simulator) :
  bind len_aircrafts (fun n =>
    bind (if (1 <=? n)%nat
          then steer_double 0 Key_D Key_S Key_A Key_W Key_F2 Key_F3 Key_Y Key_U e
          else ret tt)
      (fun _ =>
         bind (if (2 <=? n)%nat
               then steer_double 1 Key_L Key_K Key_J Key_I Key_F6 Key_F7 Key_O
                      Key_P e
               else ret tt)
           (fun _ => run_shortcut e))) s
  = run_shortcut e (set_aircrafts (steering_double e (aircrafts s)) s).
Proof.
  unfold bind at 1, len_aircrafts, gets.
  destruct (aircrafts s) as [| a0 [| a1 rest]] eqn:Hl; cbn [length Nat.leb].
  - unfold bind, ret, steering_double. now rewrite <- Hl, set_aircrafts_same.
  - assert (L0 : aircrafts s !! 0%nat = Some a0) by now rewrite Hl.
    unfold bind at 1. rewrite (steer_double_eq _ _ _ _ _ _ _ _ _ _ _ _ L0).
    unfold bind, ret, mark, steering_double. now rewrite Hl.
  - assert (L0 : aircrafts s !! 0%nat = Some a0) by now rewrite Hl.
    unfold bind at 1. rewrite (steer_double_eq _ _ _ _ _ _ _ _ _ _ _ _ L0).
    unfold bind at 1.
    rewrite (steer_double_eq 1 _ _ _ _ _ _ _ _ e a1).
    + unfold mark, steering_double. cbn [aircrafts set_aircrafts].
      now rewrite Hl.
    + unfold mark. cbn [aircrafts set_aircrafts]. now rewrite Hl.
Qed.

Lemma keyPressEvent_double_eq (e : QKeyEvent) (s : Simulator) :
  keyPressEvent_double e s
  = if debug (pre_gate e s)
    then run_shortcut e
           (set_aircrafts (steering_double e (aircrafts s)) (pre_gate e s))
    else Returns tt (pre_gate e s).
Proof.
  assert (Hl : aircrafts (pre_gate e s) = aircrafts s).
  { unfold pre_gate.
    now destruct (Key_eqb (key e) Key_QuoteLeft),
      (modifiers e && Key_eqb (key e) Key_C), (Key_eqb (key e) Key_Escape). }
  rewrite <- Hl.
  unfold keyPressEvent_double. rewrite bind_when, bind_when_both, bind_when.
  match goal with
  | |- bind (gets debug) _ ?x = _ => change x with (pre_gate e s)
  end.
  generalize (pre_gate e s). intros s1.
  unfold bind at 1, gets at 1. destruct (debug s1); [| reflexivity].
  cbn [negb]. apply past_gate_double_eq.
Qed.

(** The handler returns, and leaves the collection as it was, or steered,
    or as a reset builds it. *)
Lemma keyPressEvent_double_effect (e : QKeyEvent) (s : Simulator) :
  exists s', keyPressEvent_double e s = Returns tt s'
    /\ (aircrafts s' = aircrafts s
        \/ aircrafts s' = steering_double e (aircrafts s)
        \/ aircrafts s' = initial_aircrafts).
Proof.
  rewrite keyPressEvent_double_eq.
  destruct (pre_gate_frame e s) as (Hl & _).
  destruct (debug (pre_gate e s)).
  - destruct (run_shortcut_effect e
                (set_aircrafts (steering_double e (aircrafts s)) (pre_gate e s)))
      as (s' & Hrun & _ & _ & Hl').
    exists s'. split; [exact Hrun |].
    destruct Hl' as [Hsame | Hfresh]; [right; left; exact Hsame | now right; right].
  - exists (pre_gate e s). split; [reflexivity | now left].
Qed.

Lemma elem_of_steering_double (e : QKeyEvent) (l : list Aircraft)
    (a' : Aircraft) :
  a' ∈ steering_double e l ->
  exists a, a ∈ l
    /\ (a' = a
        \/ a' = steered_double Key_D Key_S Key_A Key_W Key_F2 Key_F3 Key_Y
                  Key_U e a
        \/ a' = steered_double Key_L Key_K Key_J Key_I Key_F6 Key_F7 Key_O
                  Key_P e a).
Proof.
  destruct l as [| a0 [| a1 rest]]; cbn [steering_double]; intros Hin.
  - now apply elem_of_nil in Hin.
  - apply list_elem_of_singleton in Hin. exists a0.
    split; [apply elem_of_cons; now left | auto].
  - apply elem_of_cons in Hin as [-> | Hin].
    { exists a0. split; [apply elem_of_cons; now left | auto]. }
    apply elem_of_cons in Hin as [-> | Hin].
    { exists a1. split; [| auto].
      apply elem_of_cons. right. apply elem_of_cons. now left. }
    exists a'. split; [| auto].
    apply elem_of_cons. right. apply elem_of_cons. now right.
Qed.

Section Rounding.

(** Rounding to the nearest double keeps the order, and whole numbers of
    this size are doubles. *)
Hypothesis rnd_monotone : forall x y : Q, (x <= y)%Q -> (rnd x <= rnd y)%Q.
Hypothesis rnd_0 : (rnd 0 == 0)%Q.
Hypothesis rnd_360 : (rnd 360 == 360)%Q.
Hypothesis rnd_minus_360 : (rnd (-360) == -360)%Q.
Hypothesis rnd_720 : (rnd 720 == 720)%Q.

Lemma steered_double_course (k1 k2 k3 k4 k5 k6 k7 k8 : Key) (e : QKeyEvent)
    (a : Aircraft) :
  course_in_circle a -> turn_in_circle a ->
  course_in_circle (steered_double k1 k2 k3 k4 k5 k6 k7 k8 e a).
Proof.
  unfold course_in_circle, turn_in_circle, steered_double.
  intros [Hlo Hhi] [Tlo Thi].
  repeat match goal with
         | |- context [if Key_eqb ?x ?y then _ else _] =>
             destruct (Key_eqb x y)
         end;
    cbn [course set_course set_speed]; try (split; [lra | lra]).
  - destruct (Qlt_bool 1 (speed a)); cbn [course set_speed]; split; lra.
  - cbv zeta.
    set (t := rnd (max_course_change a * 2)) in *.
    pose proof (rnd_monotone (-360) (course a - t) ltac:(lra)) as Hdown.
    pose proof (rnd_monotone (course a - t) 360 ltac:(lra)) as Hup.
    destruct (Qlt_bool (rnd (course a - t)) 0) eqn:Hneg.
    + apply Qlt_bool_iff in Hneg.
      pose proof (rnd_monotone 0 (rnd (course a - t) + 360) ltac:(lra)).
      pose proof (rnd_monotone (rnd (course a - t) + 360) 360 ltac:(lra)).
      split; lra.
    + apply Qlt_bool_false in Hneg. split; lra.
  - cbv zeta.
    set (t := rnd (max_course_change a * 2)) in *.
    pose proof (rnd_monotone 0 (course a + t) ltac:(lra)) as Hdown.
    pose proof (rnd_monotone (course a + t) 720 ltac:(lra)) as Hup.
    destruct (Qle_bool 360 (rnd (course a + t))) eqn:Hbig.
    + apply Qle_bool_iff in Hbig.
      pose proof (rnd_monotone 0 (rnd (course a + t) - 360) ltac:(lra)).
      pose proof (rnd_monotone (rnd (course a + t) - 360) 360 ltac:(lra)).
      split; lra.
    + apply Qle_bool_false in Hbig. split; lra.
Qed.

(** X6.  In double precision key presses keep every commanded course
    between 0 and 360, both included, provided each aircraft's turn step
    (twice its rate limit, as computed) lies between 0 and a full circle:
    the direct keys set 0, 90, 180 or 270, a reset installs 45 and 135,
    and the turn keys wrap once around 360.  The wrap [c + 360] of a
    course [c] just below 0 is rounded, and can give 360 itself. *)
Theorem key_press_keeps_course_in_circle (e : QKeyEvent) (s : Simulator) :
  (forall a, a ∈ aircrafts s -> course_in_circle a /\ turn_in_circle a) ->
  forall a', a' ∈ aircrafts (final_state (keyPressEvent_double e s)) ->
  (0 <= course a')%Q /\ (course a' <= 360)%Q.
Proof.
  intros Hall a' Hin.
  destruct (keyPressEvent_double_effect e s) as (s' & Hrun & Hl).
  rewrite Hrun in Hin. cbn [final_state] in Hin.
  destruct Hl as [Hl | [Hl | Hl]]; rewrite Hl in Hin.
  - now apply Hall.
  - apply elem_of_steering_double in Hin as (a & Ha & [-> | [-> | ->]]).
    + now apply Hall.
    + destruct (Hall a Ha). now apply steered_double_course.
    + destruct (Hall a Ha). now apply steered_double_course.
  - apply initial_aircrafts_inv in Hin as [[Hc | Hc] _]; rewrite Hc; split; lra.
Qed.

End Rounding.

End Engine.

(** ** Rounding to a double keeps the order

    First the rounding to an integer. *)

Lemma round_half_even_cases (q : Q) :
  round_half_even q = Qfloor q \/ round_half_even q = Qfloor q + 1.
Proof.
  unfold round_half_even.
  destruct (Qcompare _ _); [destruct (Z.even _) | |]; auto.
Qed.

Lemma floor_frac (q : Q) :
  (0 <= q - inject_Z (Qfloor q))%Q /\ (q - inject_Z (Qfloor q) < 1)%Q.
Proof.
  pose proof (Qfloor_le q) as Hlo. pose proof (Qlt_floor q) as Hhi.
  rewrite inject_Z_plus in Hhi. change (inject_Z 1) with 1%Q in Hhi.
  split; lra.
Qed.

Lemma round_half_even_le (x y : Q) :
  (x <= y)%Q -> round_half_even x <= round_half_even y.
Proof.
  intros Hxy. pose proof (Qfloor_resp_le x y Hxy) as Hf.
  destruct (Z.eq_dec (Qfloor x) (Qfloor y)) as [Heq | Hne].
  - unfold round_half_even. cbv zeta. rewrite <- Heq.
    destruct (Qcompare_spec (x - inject_Z (Qfloor x)) (1 # 2)) as [Hx | Hx | Hx];
      destruct (Qcompare_spec (y - inject_Z (Qfloor x)) (1 # 2)) as [Hy | Hy | Hy];
      try destruct (Z.even (Qfloor x)); try lia; exfalso; lra.
  - destruct (round_half_even_cases x) as [-> | ->],
      (round_half_even_cases y) as [-> | ->]; lia.
Qed.

Lemma round_half_even_Z (k : Z) : round_half_even (inject_Z k) = k.
Proof.
  unfold round_half_even. rewrite Qfloor_Z.
  destruct (Qcompare_spec (inject_Z k - inject_Z k) (1 # 2)) as [H | H | H];
    try reflexivity; exfalso; lra.
Qed.

Lemma Qfloor_unique (y : Q) (n : Z) :
  (inject_Z n <= y)%Q -> (y < inject_Z (n + 1))%Q -> Qfloor y = n.
Proof.
  intros Hlo Hhi.
  pose proof (Qfloor_resp_le _ _ Hlo) as H1. rewrite Qfloor_Z in H1.
  pose proof (Qfloor_le y) as H2.
  assert (H3 : (inject_Z (Qfloor y) < inject_Z (n + 1))%Q) by lra.
  rewrite <- Zlt_Qlt in H3. lia.
Qed.

Lemma round_half_even_opp (x : Q) :
  round_half_even (- x) = - round_half_even x.
Proof.
  destruct (floor_frac x) as [Hlo Hhi].
  destruct (Qeq_dec (x - inject_Z (Qfloor x)) 0) as [Hint | Hfrac].
  - assert (Hx : (x == inject_Z (Qfloor x))%Q) by lra.
    assert (Hn : (- x == inject_Z (- Qfloor x))%Q)
      by (rewrite inject_Z_opp; lra).
    assert (Hf : Qfloor (- x) = - Qfloor x)
      by (apply Qfloor_unique; rewrite ?inject_Z_plus, inject_Z_opp;
          change (inject_Z 1) with 1%Q; lra).
    unfold round_half_even. cbv zeta. rewrite Hf.
    destruct (Qcompare_spec (- x - inject_Z (- Qfloor x)) (1 # 2)) as [H | H | H];
      destruct (Qcompare_spec (x - inject_Z (Qfloor x)) (1 # 2)) as [H' | H' | H'];
      try (exfalso; rewrite ?inject_Z_opp in *; lra); lia.
  - assert (Hpos : (0 < x - inject_Z (Qfloor x))%Q).
    { apply Qle_lteq in Hlo as [H | H]; [exact H |].
      symmetry in H. contradiction. }
    assert (Hf : Qfloor (- x) = - Qfloor x - 1).
    { apply Qfloor_unique; unfold Z.sub;
        rewrite !inject_Z_plus, !inject_Z_opp;
        change (inject_Z 1) with 1%Q; lra. }
    unfold round_half_even. cbv zeta. rewrite Hf.
    assert (Heven : Z.even (- Qfloor x - 1) = negb (Z.even (Qfloor x))).
    { replace (- Qfloor x - 1) with (- (Qfloor x + 1)) by lia.
      rewrite Z.even_opp, Z.even_add. cbn. now destruct (Z.even (Qfloor x)). }
    destruct (Qcompare_spec (- x - inject_Z (- Qfloor x - 1)) (1 # 2))
      as [H | H | H];
      destruct (Qcompare_spec (x - inject_Z (Qfloor x)) (1 # 2))
        as [H' | H' | H'];
      unfold Z.sub in H; rewrite !inject_Z_plus, !inject_Z_opp in H;
      change (inject_Z 1) with 1%Q in H;
      try (exfalso; lra); try lia.
    rewrite Heven. destruct (Z.even (Qfloor x)); cbn; lia.
Qed.

(** The binade of a rational. *)

Lemma Qpower_2_pos (z : Z) : (0 < 2 ^ z)%Q.
Proof. apply Qpower_0_lt. reflexivity. Qed.

Lemma Qpower_2_succ (z : Z) : (2 ^ (z + 1) == 2 * 2 ^ z)%Q.
Proof. rewrite Qpower_plus by discriminate. change (2 ^ 1)%Q with 2%Q. ring. Qed.

Lemma Qpower_2_le (a b : Z) : a <= b -> (2 ^ a <= 2 ^ b)%Q.
Proof. intros H. apply Qpower_le_compat_l; [exact H | discriminate]. Qed.

Lemma Qabs_frac (q : Q) :
  (Qabs q == inject_Z (Z.abs (Qnum q)) / inject_Z (Zpos (Qden q)))%Q.
Proof.
  destruct q as [n d]. unfold Qabs. cbn [Qnum Qden].
  rewrite <- (Qmake_Qdiv (Z.abs n) d). reflexivity.
Qed.

Lemma binade_spec (q : Q) :
  ~ (q == 0)%Q ->
  (2 ^ binade q <= Qabs q)%Q /\ (Qabs q < 2 ^ (binade q + 1))%Q.
Proof.
  intros Hq.
  assert (Hn : 0 < Z.abs (Qnum q)).
  { destruct q as [n d]. unfold Qeq in Hq. cbn in *. lia. }
  assert (Hd : 0 < Zpos (Qden q)) by reflexivity.
  pose proof (Z.log2_spec _ Hn) as [Na Na'].
  pose proof (Z.log2_spec _ Hd) as [Db Db'].
  pose proof (Z.log2_nonneg (Z.abs (Qnum q))) as Ha.
  pose proof (Z.log2_nonneg (Zpos (Qden q))) as Hb.
  set (a := Z.log2 (Z.abs (Qnum q))) in *.
  set (b := Z.log2 (Zpos (Qden q))) in *.
  rewrite Z.pow_succ_r in Na', Db' by assumption.
  rewrite Zle_Qle, Zpower_Qpower in Na, Db by assumption.
  rewrite Zlt_Qlt, inject_Z_mult, Zpower_Qpower in Na', Db' by assumption.
  change (inject_Z 2) with 2%Q in *.
  assert (HA : (0 < 2 ^ a)%Q) by apply Qpower_2_pos.
  assert (HB : (0 < 2 ^ b)%Q) by apply Qpower_2_pos.
  assert (He : (2 ^ (a - b) == 2 ^ a / 2 ^ b)%Q)
    by (apply Qpower_minus; discriminate).
  assert (HD : (0 < inject_Z (Zpos (Qden q)))%Q) by lra.
  set (N := inject_Z (Z.abs (Qnum q))) in *.
  set (D := inject_Z (Zpos (Qden q))) in *.
  set (R := (2 ^ a / 2 ^ b)%Q) in *.
  assert (HR : (R * 2 ^ b == 2 ^ a)%Q) by (unfold R; field; lra).
  assert (HR0 : (0 < R)%Q) by (unfold R; apply Qlt_shift_div_l; lra).
  assert (Hfrac : (Qabs q == N / D)%Q) by apply Qabs_frac.
  unfold binade. fold a b.
  destruct (Qle_bool (2 ^ (a - b)) (Qabs q)) eqn:Htest.
  - apply Qle_bool_iff in Htest.
    split; [exact Htest |].
    rewrite Qpower_2_succ, He, Hfrac.
    apply Qlt_shift_div_r; [exact HD |]. nra.
  - assert (Hlt : (Qabs q < 2 ^ (a - b))%Q).
    { apply Qnot_le_lt. intros H. apply Qle_bool_iff in H. congruence. }
    replace (a - b - 1 + 1) with (a - b) by lia.
    split; [| exact Hlt].
    assert (Hhalf : (2 * 2 ^ (a - b - 1) == R)%Q).
    { rewrite <- Qpower_2_succ, <- He. now replace (a - b - 1 + 1) with (a - b) by lia. }
    rewrite Hfrac. apply Qle_shift_div_l; [exact HD |]. nra.
Qed.

(** The rounding itself. *)

Lemma round_half_even_comp (x y : Q) :
  (x == y)%Q -> round_half_even x = round_half_even y.
Proof.
  intros H. apply Z.le_antisymm; apply round_half_even_le; rewrite H;
    apply Qle_refl.
Qed.

Lemma ulp_pos (q : Q) : (0 < ulp q)%Q.
Proof. apply Qpower_2_pos. Qed.

Lemma binary64_eq (q : Q) :
  ~ (q == 0)%Q ->
  (binary64 q == inject_Z (round_half_even (q / ulp q)) * ulp q)%Q.
Proof.
  intros Hq. unfold binary64.
  destruct (Qeq_bool q 0) eqn:E; [apply Qeq_bool_iff in E; contradiction |].
  apply Qred_correct.
Qed.

Lemma binary64_zero (q : Q) : (q == 0)%Q -> binary64 q = 0%Q.
Proof.
  intros Hq. unfold binary64. now rewrite (proj2 (Qeq_bool_iff q 0) Hq).
Qed.

Lemma binade_opp (q : Q) : binade (- q) = binade q.
Proof.
  unfold binade. destruct q as [n d]. cbn [Qnum Qden Qopp].
  rewrite Z.abs_opp.
  assert (H : (Qabs (- (n # d)) == Qabs (n # d))%Q) by apply Qabs_opp.
  change (- (n # d))%Q with (- n # d)%Q in H. now rewrite H.
Qed.

Lemma binary64_opp (q : Q) : (binary64 (- q) == - binary64 q)%Q.
Proof.
  destruct (Qeq_dec q 0) as [Hq | Hq].
  - rewrite (binary64_zero q Hq), (binary64_zero (- q)) by lra. reflexivity.
  - rewrite (binary64_eq q Hq), (binary64_eq (- q)) by lra.
    unfold ulp, exponent. rewrite binade_opp.
    rewrite (round_half_even_comp (- q / 2 ^ (Z.max (binade q) (-1022) - 52))
               (- (q / 2 ^ (Z.max (binade q) (-1022) - 52))))
      by (field; pose proof (Qpower_2_pos (Z.max (binade q) (-1022) - 52)); lra).
    rewrite round_half_even_opp, inject_Z_opp. ring.
Qed.

Lemma exponent_split (q : Q) :
  (2 ^ (exponent q + 1) == inject_Z (2 ^ 53) * ulp q)%Q
  /\ (2 ^ exponent q == inject_Z (2 ^ 52) * ulp q)%Q.
Proof.
  unfold ulp. rewrite !Zpower_Qpower by lia. change (inject_Z 2) with 2%Q.
  rewrite <- !Qpower_plus by discriminate.
  replace (53 + (exponent q - 52)) with (exponent q + 1) by lia.
  replace (52 + (exponent q - 52)) with (exponent q) by lia.
  split; reflexivity.
Qed.

Lemma round_scaled_le (x y u : Q) :
  (0 < u)%Q -> (x <= y)%Q ->
  (inject_Z (round_half_even (x / u)) * u
   <= inject_Z (round_half_even (y / u)) * u)%Q.
Proof.
  intros Hu Hxy. apply Qmult_le_compat_r; [| lra].
  rewrite <- Zle_Qle. apply round_half_even_le.
  apply Qmult_le_compat_r; [exact Hxy |].
  apply Qlt_le_weak, Qinv_lt_0_compat, Hu.
Qed.

Lemma Qabs_positive (q : Q) : (0 < q)%Q -> (Qabs q == q)%Q.
Proof. intros H. apply Qabs_pos. lra. Qed.

(** A positive number rounds to a double of its binade or to the first of
    the next. *)
Lemma binary64_upper (q : Q) :
  (0 < q)%Q -> (binary64 q <= 2 ^ (exponent q + 1))%Q.
Proof.
  intros Hq. rewrite binary64_eq by lra.
  destruct (exponent_split q) as [-> _].
  destruct (binade_spec q ltac:(lra)) as [_ Hhi].
  rewrite (Qabs_positive q Hq) in Hhi.
  assert (Hle : (q <= 2 ^ (exponent q + 1))%Q).
  { apply Qlt_le_weak, (Qlt_le_trans _ _ _ Hhi), Qpower_2_le.
    unfold exponent. lia. }
  destruct (exponent_split q) as [Hsplit _]. rewrite Hsplit in Hle.
  pose proof (ulp_pos q) as Hu.
  apply Qmult_le_compat_r; [| lra].
  rewrite <- Zle_Qle.
  apply (Z.le_trans _ (round_half_even (inject_Z (2 ^ 53))));
    [| rewrite round_half_even_Z; lia].
  apply round_half_even_le. apply Qle_shift_div_r; [exact Hu | exact Hle].
Qed.

Lemma binary64_lower (q : Q) :
  (0 < q)%Q -> -1022 <= binade q -> (2 ^ exponent q <= binary64 q)%Q.
Proof.
  intros Hq Hnormal. rewrite binary64_eq by lra.
  destruct (exponent_split q) as [_ Hsplit]. rewrite Hsplit.
  destruct (binade_spec q ltac:(lra)) as [Hlo _].
  rewrite (Qabs_positive q Hq) in Hlo.
  assert (He : exponent q = binade q) by (unfold exponent; lia).
  rewrite <- He, Hsplit in Hlo.
  pose proof (ulp_pos q) as Hu.
  apply Qmult_le_compat_r; [| lra].
  rewrite <- Zle_Qle.
  apply (Z.le_trans _ (round_half_even (inject_Z (2 ^ 52))));
    [rewrite round_half_even_Z; lia |].
  apply round_half_even_le. apply Qle_shift_div_l; [exact Hu | exact Hlo].
Qed.

Lemma binary64_nonneg (q : Q) : (0 <= q)%Q -> (0 <= binary64 q)%Q.
Proof.
  intros Hq. destruct (Qeq_dec q 0) as [H0 | H0].
  - rewrite (binary64_zero q H0). apply Qle_refl.
  - rewrite binary64_eq by exact H0. pose proof (ulp_pos q) as Hu.
    apply Qmult_le_0_compat; [| lra].
    change 0%Q with (inject_Z 0). rewrite <- Zle_Qle.
    apply (Z.le_trans _ (round_half_even (inject_Z 0)));
      [rewrite round_half_even_Z; lia |].
    apply round_half_even_le. apply Qle_shift_div_l; [exact Hu |].
    change (inject_Z 0) with 0%Q. lra.
Qed.

Lemma binade_le (x y : Q) :
  (0 < x)%Q -> (x <= y)%Q -> binade x <= binade y.
Proof.
  intros Hx Hxy.
  destruct (binade_spec x ltac:(lra)) as [Hlo _].
  destruct (binade_spec y ltac:(lra)) as [_ Hhi].
  rewrite Qabs_positive in Hlo, Hhi by lra.
  destruct (Z_lt_le_dec (binade y) (binade x)) as [Hlt | Hle]; [| exact Hle].
  exfalso.
  pose proof (Qpower_2_le (binade y + 1) (binade x) ltac:(lia)). lra.
Qed.

Lemma binary64_le_pos (x y : Q) :
  (0 < x)%Q -> (x <= y)%Q -> (binary64 x <= binary64 y)%Q.
Proof.
  intros Hx Hxy.
  pose proof (binade_le x y Hx Hxy) as Hb.
  destruct (Z.eq_dec (exponent x) (exponent y)) as [Heq | Hne].
  - rewrite !binary64_eq by lra. unfold ulp. rewrite Heq.
    apply round_scaled_le; [apply Qpower_2_pos | exact Hxy].
  - assert (Hlt : exponent x + 1 <= exponent y) by (unfold exponent in *; lia).
    assert (Hnormal : -1022 <= binade y) by (unfold exponent in *; lia).
    pose proof (binary64_upper x Hx).
    pose proof (binary64_lower y ltac:(lra) Hnormal).
    pose proof (Qpower_2_le _ _ Hlt). lra.
Qed.

Lemma binary64_monotone (x y : Q) :
  (x <= y)%Q -> (binary64 x <= binary64 y)%Q.
Proof.
  intros Hxy.
  destruct (Qlt_le_dec 0 x) as [Hx | Hx]; [now apply binary64_le_pos |].
  assert (Hbx : (binary64 x <= 0)%Q).
  { pose proof (binary64_nonneg (- x) ltac:(lra)) as H.
    rewrite binary64_opp in H. lra. }
  destruct (Qlt_le_dec y 0) as [Hy | Hy].
  - pose proof (binary64_le_pos (- y) (- x) ltac:(lra) ltac:(lra)) as H.
    rewrite !binary64_opp in H. lra.
  - pose proof (binary64_nonneg y Hy). lra.
Qed.

(** ** Concrete runs *)



Lemma avoid_aircraft_collision_guards_witness :
  avoid_aircraft_collision 0 (Sample.sim [])
  = Returns tt (say [NoPossibleCollisions] (Sample.sim []))
  /\ avoid_aircraft_collision 0
       (Sample.sim [Sample.wide; Sample.narrow; Sample.far])
     = Returns tt (say [ThreeOrMoreAircrafts]
                     (Sample.sim [Sample.wide; Sample.narrow; Sample.far]))
  /\ avoid_aircraft_collision 0 (Sample.sim [Sample.narrow; Sample.wide])
     = Raises (Exception ids_differ_msg)
         (Sample.sim [Sample.narrow; Sample.wide]).
Proof.
  split; [| split].
  - apply (proj1 (avoid_aircraft_collision_guards 0 (Sample.sim []))).
    cbn. lia.
  - apply (proj1 (proj2 (avoid_aircraft_collision_guards 0
             (Sample.sim [Sample.wide; Sample.narrow; Sample.far])))).
    cbn. lia.
  - apply (proj1 (proj2 (proj2 (avoid_aircraft_collision_guards 0
             (Sample.sim [Sample.narrow; Sample.wide])))
             ltac:(cbn; lia)) Sample.narrow);
      [reflexivity | discriminate].
Defined.

Lemma avoid_single_aircraft_index_error_witness :
  avoid_aircraft_collision 0 (Sample.sim [Sample.wide])
  = Raises IndexError (Sample.sim [Sample.wide]).
Proof.
  apply (avoid_single_aircraft_index_error Sample.wide
           (Sample.sim [Sample.wide])); reflexivity.
Defined.


Lemma reset_simulation_rebuilds_witness :
  Call_keyPressEvent Sample.slash = Call_reset_simulation
  \/ exists e, Call_keyPressEvent Sample.slash = Call_keyPressEvent e
       /\ debug (set_is_finished true (Sample.sim [Sample.wide])) = true
       /\ (key e = Key_R \/ key e = Key_Slash)
       /\ aircrafts
            (call Sample.step 20 200 5 Sample.bearing
               (Call_keyPressEvent Sample.slash)
               (set_is_finished true (Sample.sim [Sample.wide])))
          = initial_aircrafts 20 200 5.
Proof.
  destruct (reset_simulation_rebuilds Sample.step 20 200 5 Sample.bearing
              (set_is_finished true (Sample.sim [Sample.wide]))
              (Call_keyPressEvent Sample.slash))
    as (_ & _ & _ & _ & _ & _ & _ & _ & _ & _ & _ & Honly).
  apply Honly; reflexivity.
Defined.

Lemma resume_only_when_not_finished_witness :
  keyPressEvent 20 200 5 Sample.slash
    (set_is_stopped true (Sample.sim [Sample.wide]))
  = start_simulation (set_is_stopped true (Sample.sim [Sample.wide]))
  /\ mode (final_state
             (keyPressEvent 20 200 5 Sample.slash
                (set_is_finished true (Sample.sim [Sample.wide]))))
     = Running
  /\ aircrafts (final_state
                  (keyPressEvent 20 200 5 Sample.slash
                     (set_is_finished true (Sample.sim [Sample.wide]))))
     = initial_aircrafts 20 200 5.
Proof.
  split.
  - apply (proj1 (proj1 (resume_only_when_not_finished 20 200 5 Sample.slash
             (set_is_stopped true (Sample.sim [Sample.wide])))
           eq_refl eq_refl)).
    reflexivity.
  - apply (proj2 (proj2 (proj1 (resume_only_when_not_finished 20 200 5
             Sample.slash (set_is_finished true (Sample.sim [Sample.wide])))
           eq_refl eq_refl))).
    reflexivity.
Defined.


(** ** Concrete runs of the key handler *)

Lemma release_mode_ignores_keys_witness :
  keyPressEvent 20 200 5 (mkKeyEvent Key_W false)
    (set_debug false (Sample.sim [Sample.wide; Sample.narrow]))
  = Returns tt (set_debug false (Sample.sim [Sample.wide; Sample.narrow]))
  /\ keyPressEvent 20 200 5 (mkKeyEvent Key_Escape false)
       (set_debug false (Sample.sim [Sample.wide; Sample.narrow]))
     = Returns tt
         (set_closed true
            (set_debug false (Sample.sim [Sample.wide; Sample.narrow])))
  /\ keyPressEvent 20 200 5 (mkKeyEvent Key_QuoteLeft false)
       (set_debug false (Sample.sim [Sample.wide; Sample.narrow]))
     = Returns tt (Sample.sim [Sample.wide; Sample.narrow]).
Proof.
  split; [| split].
  - apply (proj1 (release_mode_ignores_keys 20 200 5 (mkKeyEvent Key_W false)
             (set_debug false (Sample.sim [Sample.wide; Sample.narrow]))
             eq_refl)).
    discriminate.
  - apply (proj1 (release_mode_ignores_keys 20 200 5
             (mkKeyEvent Key_Escape false)
             (set_debug false (Sample.sim [Sample.wide; Sample.narrow]))
             eq_refl)).
    discriminate.
  - apply (proj2 (release_mode_ignores_keys 20 200 5
             (mkKeyEvent Key_QuoteLeft false)
             (set_debug false (Sample.sim [Sample.wide; Sample.narrow]))
             eq_refl)).
    reflexivity.
Defined.

Lemma pause_resume_round_trip_witness :
  exists paused,
    keyPressEvent 20 200 5 Sample.slash
      (Sample.sim [Sample.wide; Sample.narrow]) = Returns tt paused
    /\ mode paused = Stopped /\ simulation_timer paused = false
    /\ aircrafts paused = [Sample.wide; Sample.narrow]
    /\ keyPressEvent 20 200 5 Sample.slash paused
       = Returns tt (Sample.sim [Sample.wide; Sample.narrow]).
Proof.
  exact (pause_resume_round_trip 20 200 5 Sample.slash
           (Sample.sim [Sample.wide; Sample.narrow])
           eq_refl eq_refl eq_refl eq_refl eq_refl).
Defined.

Lemma toggle_keys_twice_witness :
  exists s1,
    keyPressEvent 20 200 5 (mkKeyEvent Key_5 false)
      (Sample.sim [Sample.wide; Sample.narrow]) = Returns tt s1
    /\ s1 <> Sample.sim [Sample.wide; Sample.narrow]
    /\ keyPressEvent 20 200 5 (mkKeyEvent Key_5 false) s1
       = Returns tt (Sample.sim [Sample.wide; Sample.narrow]).
Proof.
  exact (toggle_keys_twice 20 200 5 (mkKeyEvent Key_5 false)
           (Sample.sim [Sample.wide; Sample.narrow]) eq_refl eq_refl).
Defined.

Lemma info_key_cycles_witness :
  exists s1 s2,
    keyPressEvent 20 200 5 (mkKeyEvent Key_1 false)
      (Sample.sim [Sample.wide; Sample.narrow]) = Returns tt s1
    /\ keyPressEvent 20 200 5 (mkKeyEvent Key_1 false) s1 = Returns tt s2
    /\ display_aircraft_info s1 = 2
    /\ keyPressEvent 20 200 5 (mkKeyEvent Key_1 false) s2
       = Returns tt (Sample.sim [Sample.wide; Sample.narrow]).
Proof.
  destruct (info_key_cycles 20 200 5 (mkKeyEvent Key_1 false)
              (Sample.sim [Sample.wide; Sample.narrow]) eq_refl eq_refl)
    as (s1 & s2 & H1 & H2 & Hcycle & _).
  exists s1, s2.
  destruct (Hcycle ltac:(cbn; lia)) as [Hnext Hback].
  split; [exact H1 |]. split; [exact H2 |]. split; [exact Hnext | exact Hback].
Defined.

Lemma key_press_keeps_speed_witness :
  (forall a, a ∈ [set_speed 1 Sample.wide; set_speed 3 Sample.narrow] ->
     whole_speed a)
  /\ forall a',
       a' ∈ aircrafts
              (final_state
                 (keyPressEvent 20 200 5 (mkKeyEvent Key_F2 false)
                    (Sample.sim [set_speed 1 Sample.wide;
                                 set_speed 3 Sample.narrow]))) ->
       exists n : Z, 1 <= n /\ (speed a' == inject_Z n)%Q.
Proof.
  assert (Hin : forall a,
            a ∈ [set_speed 1 Sample.wide; set_speed 3 Sample.narrow] ->
            whole_speed a).
  { intros a Ha. apply elem_of_cons in Ha as [-> | Ha];
      [exists 1 | apply list_elem_of_singleton in Ha as ->; exists 3];
      split; (lia || reflexivity). }
  split; [exact Hin |].
  exact (proj2 (key_press_keeps_speed 20 200 5 (mkKeyEvent Key_F2 false)
                  (Sample.sim [set_speed 1 Sample.wide;
                               set_speed 3 Sample.narrow])) Hin).
Defined.

(** ** Concrete runs from the constructor on *)

Lemma reachable_well_numbered_witness :
  reachable Sample.step 20 200 5 Sample.bearing (1000, 1000)
    (final_state
       (update_simulation Sample.step Sample.bearing 60
          (Simulator_init 20 200 5 (1000, 1000))))
  /\ (exists a0 a1,
        aircrafts
          (final_state
             (update_simulation Sample.step Sample.bearing 60
                (Simulator_init 20 200 5 (1000, 1000))))
        = [a0; a1]
        /\ aircraft_id a0 = 0 /\ aircraft_id a1 = 1).
Proof.
  assert (Hreach :
    reachable Sample.step 20 200 5 Sample.bearing (1000, 1000)
      (final_state
         (update_simulation Sample.step Sample.bearing 60
            (Simulator_init 20 200 5 (1000, 1000))))).
  { apply (reachable_step Sample.step 20 200 5 Sample.bearing (1000, 1000)
             (Simulator_init 20 200 5 (1000, 1000)) _ (Tick 60)).
    - apply reachable_init.
    - reflexivity.
    - vm_compute. reflexivity. }
  split; [exact Hreach |].
  exact (proj1 (reachable_well_numbered Sample.step 20 200 5 Sample.bearing
                  (fun a => eq_refl) (1000, 1000) _ Hreach)).
Defined.

Lemma reachable_coherent_witness :
  reachable Sample.step 20 200 5 Sample.bearing (1000, 1000)
    (final_state
       (keyPressEvent 20 200 5 Sample.slash
          (Simulator_init 20 200 5 (1000, 1000))))
  /\ is_stopped
       (final_state
          (keyPressEvent 20 200 5 Sample.slash
             (Simulator_init 20 200 5 (1000, 1000))))
     = negb (simulation_timer
               (final_state
                  (keyPressEvent 20 200 5 Sample.slash
                     (Simulator_init 20 200 5 (1000, 1000))))).
Proof.
  assert (Hreach :
    reachable Sample.step 20 200 5 Sample.bearing (1000, 1000)
      (final_state
         (keyPressEvent 20 200 5 Sample.slash
            (Simulator_init 20 200 5 (1000, 1000))))).
  { apply (reachable_step Sample.step 20 200 5 Sample.bearing (1000, 1000)
             (Simulator_init 20 200 5 (1000, 1000)) _ (Press Sample.slash)).
    - apply reachable_init.
    - exact I.
    - vm_compute. reflexivity. }
  split; [exact Hreach |].
  exact (proj1 (reachable_coherent Sample.step 20 200 5 Sample.bearing
                  (1000, 1000) _ Hreach)).
Defined.

(** ** Concrete runs of the checks *)

Lemma trigger_failure_leaves_flag_set_witness :
  safezone_test 0 0 (Sample.sim [Sample.narrow; Sample.wide])
  = Raises (Exception ids_differ_msg)
      (Sample.sim [set_safezone_occupied true Sample.narrow; Sample.wide])
  /\ safezone_test 0 0
       (Sample.sim [set_safezone_occupied true Sample.narrow; Sample.wide])
     = Returns tt
         (Sample.sim [set_safezone_occupied true Sample.narrow; Sample.wide]).
Proof.
  destruct (trigger_failure_leaves_flag_set 0%nat 0 Sample.narrow
              (Exception ids_differ_msg)
              (Sample.sim [Sample.narrow; Sample.wide])
              (Sample.sim [set_safezone_occupied true Sample.narrow;
                           Sample.wide])
              eq_refl eq_refl eq_refl eq_refl)
    as (Hraise & _ & _ & Hagain).
  split; [exact Hraise | exact Hagain].
Defined.

Lemma short_collections_are_inert_witness :
  check_safezones (Sample.sim [Sample.wide])
  = Returns tt (Sample.sim [Sample.wide])
  /\ check_collision (Sample.sim [Sample.wide])
     = Returns false (Sample.sim [Sample.wide])
  /\ update_simulation Sample.step Sample.bearing 60 (Sample.sim [])
     = Returns tt (set_current_simulation_fps 60 (Sample.sim [])).
Proof.
  destruct (short_collections_are_inert Sample.step Sample.bearing 60
              (Sample.sim [Sample.wide])) as [Hshort _].
  destruct (short_collections_are_inert Sample.step Sample.bearing 60
              (Sample.sim [])) as [_ Hempty].
  destruct (Hshort ltac:(cbn; lia)) as (Hpass & Hhit & _).
  destruct (Hempty eq_refl) as [_ Htick].
  split; [exact Hpass |]. split; [exact Hhit | exact Htick].
Defined.



(** ** Concrete runs in double precision *)

Lemma check_collision_first_hit_witness :
  (400 < dist_sq (position Sample.grazing) (position Sample.grazed))%Q
  /\ (Sample.dist (position Sample.grazing) (position Sample.grazed) == 20)%Q
  /\ check_collision_double binary64 Sample.dist
       (Sample.sim [Sample.grazing; Sample.grazed])
     = Returns true
         (terminate AircraftsCollided
            (Sample.sim [Sample.grazing; Sample.grazed]))
  /\ check_collision_double binary64 Sample.dist
       (Sample.sim [Sample.wide; Sample.narrow])
     = Returns false (Sample.sim [Sample.wide; Sample.narrow]).
Proof.
  split; [vm_compute; reflexivity |]. split; [vm_compute; reflexivity |].
  split.
  - destruct (check_collision_first_hit binary64 Sample.dist
                (Sample.sim [Sample.grazing; Sample.grazed]))
      as (_ & Hrun & _).
    rewrite Hrun. vm_compute. reflexivity.
  - destruct (check_collision_first_hit binary64 Sample.dist
                (Sample.sim [Sample.wide; Sample.narrow]))
      as (_ & Hrun & _).
    rewrite Hrun. vm_compute. reflexivity.
Defined.

Lemma check_offscreen_containment_witness :
  (inject_Z 1000 - size Sample.flush / 2 < pt_x (position Sample.flush))%Q
  /\ in_bounds_double binary64 (1000, 1000) Sample.flush = true
  /\ in_bounds_double binary64 (1000, 1000) Sample.on_margin = true
  /\ in_bounds_double binary64 (1000, 1000) Sample.past_margin = false
  /\ check_offscreen_double binary64
       (Sample.sim [Sample.on_margin; Sample.past_margin])
     = Returns true
         (terminate LeftBoundaries
            (Sample.sim [Sample.on_margin; Sample.past_margin])).
Proof.
  destruct (check_offscreen_containment binary64
              (Sample.sim [Sample.on_margin; Sample.past_margin])
              Sample.flush 1 [] []) as (Hiff & _).
  destruct (check_offscreen_containment binary64
              (Sample.sim [Sample.on_margin; Sample.past_margin])
              Sample.on_margin 1 [] []) as (_ & Hin & _).
  destruct (check_offscreen_containment binary64
              (Sample.sim [Sample.on_margin; Sample.past_margin])
              Sample.past_margin 1 [Sample.on_margin] [])
    as (_ & _ & Hout & _ & Hfirst).
  split; [vm_compute; reflexivity |].
  split; [| split; [| split]].
  - apply Hiff. repeat split; vm_compute; discriminate.
  - apply Hin; vm_compute; first [reflexivity | discriminate].
  - apply Hout; vm_compute; reflexivity.
  - apply Hfirst; [reflexivity | | vm_compute; reflexivity].
    intros b Hb. apply list_elem_of_singleton in Hb. rewrite Hb.
    vm_compute. reflexivity.
Defined.

Lemma check_safezones_own_radius_witness :
  (exists s', check_safezones_double binary64 Sample.dist
                (Sample.sim [Sample.wide; Sample.narrow]) = Returns tt s'
     /\ safezone_occupied <$> aircrafts s' = [true; false])
  /\ (400 < dist_sq (position Sample.grazing) (position Sample.grazed))%Q
  /\ (exists s', check_safezones_double binary64 Sample.dist
                   (Sample.sim [Sample.grazing; Sample.grazed]) = Returns tt s'
        /\ safezone_occupied <$> aircrafts s' = [true; true])
  /\ (exists s', safezone_pair_double binary64 Sample.dist 0 1
                   (Sample.sim [Sample.wide; Sample.narrow; Sample.far])
                 = Returns tt s'
        /\ safezone_occupied <$> (aircrafts s' !! 0%nat) = Some true
        /\ safezone_occupied <$> (aircrafts s' !! 1%nat) = Some false
        /\ aircrafts s' !! 2%nat = Some Sample.far).
Proof.
  split; [| split; [vm_compute; reflexivity | split]].
  - destruct (check_safezones_own_radius binary64 Sample.dist
                (Sample.sim [Sample.wide; Sample.narrow]))
      as (_ & _ & _ & Htwo & _).
    destruct (Htwo Sample.wide Sample.narrow eq_refl eq_refl eq_refl)
      as (s' & Hrun & Hflags & _).
    exists s'. split; [exact Hrun |]. rewrite Hflags. vm_compute. reflexivity.
  - destruct (check_safezones_own_radius binary64 Sample.dist
                (Sample.sim [Sample.grazing; Sample.grazed]))
      as (_ & _ & _ & Htwo & _).
    destruct (Htwo Sample.grazing Sample.grazed eq_refl eq_refl eq_refl)
      as (s' & Hrun & Hflags & _).
    exists s'. split; [exact Hrun |]. rewrite Hflags. vm_compute. reflexivity.
  - destruct (check_safezones_own_radius binary64 Sample.dist
                (Sample.sim [Sample.wide; Sample.narrow; Sample.far]))
      as (_ & _ & _ & _ & Hmany).
    destruct (Hmany 0%nat 1%nat Sample.wide Sample.narrow
                ltac:(cbn; lia) ltac:(discriminate) eq_refl eq_refl)
      as (s' & Hrun & H0 & H1 & Hrest).
    exists s'. split; [exact Hrun |].
    split; [rewrite H0; vm_compute; reflexivity |].
    split; [rewrite H1; vm_compute; reflexivity |].
    rewrite Hrest by discriminate. reflexivity.
Defined.

Lemma three_aircraft_flag_flaps_witness :
  exists s' evs,
    passes_double binary64 Sample.dist 3
      (Sample.sim [Sample.wide; Sample.narrow; Sample.far]) = Returns tt s'
    /\ stdout s' = evs
    /\ (3 <= count (is_entered 0) evs)%nat
    /\ (3 <= count (is_left_of 0) evs)%nat.
Proof.
  destruct (three_aircraft_flag_flaps binary64 Sample.dist 3
              (Sample.sim [Sample.wide; Sample.narrow; Sample.far])
              Sample.wide Sample.narrow Sample.far
              eq_refl eq_refl
              ltac:(vm_compute; reflexivity) ltac:(vm_compute; reflexivity))
    as (_ & s' & evs & Hrun & Hout & Hup & Hdown).
  exists s', evs. split; [exact Hrun |]. split; [exact Hout |].
  split; [exact Hup | exact Hdown].
Defined.

Lemma key_press_keeps_course_in_circle_witness :
  (forall a,
     a ∈ [set_course (binary64 (9999999999999998 # 1000000000000000))
            Sample.wide; Sample.narrow] ->
     course_in_circle a /\ turn_in_circle binary64 a)
  /\ course <$> aircrafts
       (final_state
          (keyPressEvent_double 20 200 5 binary64 (mkKeyEvent Key_Y false)
             (Sample.sim
                [set_course (binary64 (9999999999999998 # 1000000000000000))
                   Sample.wide; Sample.narrow])))
     = [360%Q; 0%Q]
  /\ forall a',
       a' ∈ aircrafts
              (final_state
                 (keyPressEvent_double 20 200 5 binary64
                    (mkKeyEvent Key_Y false)
                    (Sample.sim
                       [set_course
                          (binary64 (9999999999999998 # 1000000000000000))
                          Sample.wide; Sample.narrow]))) ->
       (0 <= course a')%Q /\ (course a' <= 360)%Q.
Proof.
  assert (Hin : forall a,
            a ∈ [set_course (binary64 (9999999999999998 # 1000000000000000))
                   Sample.wide; Sample.narrow] ->
            course_in_circle a /\ turn_in_circle binary64 a).
  { intros a Ha. apply elem_of_cons in Ha as [-> | Ha];
      [| apply list_elem_of_singleton in Ha as ->];
      unfold course_in_circle, turn_in_circle; repeat split;
      vm_compute; discriminate. }
  split; [exact Hin |]. split; [vm_compute; reflexivity |].
  exact (key_press_keeps_course_in_circle 20 200 5 binary64
           binary64_monotone
           ltac:(vm_compute; reflexivity) ltac:(vm_compute; reflexivity)
           ltac:(vm_compute; reflexivity) ltac:(vm_compute; reflexivity)
           (mkKeyEvent Key_Y false)
           (Sample.sim
              [set_course (binary64 (9999999999999998 # 1000000000000000))
                 Sample.wide; Sample.narrow])
           Hin).
Defined.
